(** * Etisalat UPG "Request to Pay" gateway: model and verification

    A shallow embedding of
      - [src/utils/hash.js]            (the signer),
      - [src/services/upgService.js]   (the gateway client, in its three revisions),
      - [src/server.js]                (the [/api/request-to-pay] handler),
    together with the part of the JavaScript / Node.js runtime these files
    rely on (primitive values, number/string conversions, [Buffer.from(_, 'hex')],
    HMAC-SHA256, the settle rule of axios).

    JavaScript strings are represented by their UTF-8 encoding, one [ascii]
    per byte; JavaScript numbers are IEEE 754 binary64 values ([spec_float]
    with precision 53 and maximal exponent 1024). The values are the
    primitive ones - [undefined], [null], booleans, numbers and strings -
    and a statement about "every value" ranges over these: objects (a
    Buffer, an array) are not modelled. *)

From Stdlib Require Import ZArith Lia Ascii Strings.Byte.
From Stdlib Require Import Floats.SpecFloat.
From stdpp Require Import gmap strings list.

Local Open Scope Z_scope.

(* ===================================================================== *)
(** * Part I.  Definitions                                                *)
(* ===================================================================== *)

(** ** Bytes and buffers *)

(** A Node.js [Buffer] is a sequence of octets. *)
Abbreviation Buffer := (list byte).

Definition byte_to_Z (b : byte) : Z := Z.of_N (Byte.to_N b).

Definition byte_of_Z (z : Z) : byte :=
  match Byte.of_N (Z.to_N (z mod 256)) with
  | Some b => b
  | None => x00
  end.

(** The UTF-8 bytes of a string (strings are kept in UTF-8 already). *)
Definition utf8 (s : string) : Buffer := String.list_byte_of_string s.

(** ** JavaScript numbers: IEEE 754 binary64 *)

Module Num.

Abbreviation number := spec_float.

Definition prec : Z := 53.
Definition emax : Z := 1024.

Definition NaN : number := S754_nan.

(** The Number value of a mathematical integer (round to nearest, ties to even). *)
Definition of_Z (z : Z) : number := binary_normalize prec emax z 0 false.

(** The Number value of [d * 10 ^ e10] for a natural number [d],
    correctly rounded, with sign [neg]. *)
Definition of_decimal (neg : bool) (d : Z) (e10 : Z) : number :=
  match d with
  | Zpos m =>
      if 0 <=? e10
      then binary_round prec emax neg (Z.to_pos (d * 10 ^ e10)) 0
      else SFdiv prec emax (S754_finite neg m 0)
                 (S754_finite false (Z.to_pos (10 ^ (- e10))) 0)
  | _ => S754_zero neg
  end.

Definition mul (x y : number) : number := SFmul prec emax x y.

(** [x <= y] as the JavaScript relational operator (false when either is NaN). *)
Definition leb (x y : number) : bool := SFleb x y.

Definition eqb (x y : number) : bool := SFeqb x y.

Definition is_zero (x : number) : bool :=
  match x with S754_zero _ => true | _ => false end.

Definition is_nan (x : number) : bool :=
  match x with S754_nan => true | _ => false end.

(** [Math.round]: the closest integral Number, ties towards +Infinity;
    the sign of zero results follows the sign of the argument. *)
Definition round (x : number) : number :=
  match x with
  | S754_finite s m e =>
      if 0 <=? e then x
      else
        let d := 2 ^ (- e) in
        let r := (2 * cond_Zopp s (Zpos m) + d) / (2 * d) in
        if r =? 0 then S754_zero s else of_Z r
  | _ => x
  end.

(** *** Number::toString (radix 10), ECMA-262 section 6.1.6.1.20 *)

(** A positive finite number as an exact fraction. *)
Definition fraction (m : positive) (e : Z) : Z * Z :=
  if 0 <=? e then (Zpos m * 2 ^ e, 1) else (Zpos m, 2 ^ (- e)).

(** [x / 10 ^ q] as a fraction, for [x = a / b]. *)
Definition scale (ab : Z * Z) (q : Z) : Z * Z :=
  let '(a, b) := ab in
  if 0 <=? q then (a, b * 10 ^ q) else (a * 10 ^ (- q), b).

(** The least [n], scanning upwards from [n0], with [a / b < 10 ^ n]. *)
Fixpoint magnitude (fuel : nat) (n0 : Z) (ab : Z * Z) : Z :=
  match fuel with
  | O => n0
  | S fuel' =>
      let '(a, b) := scale ab n0 in
      if a <? b then n0 else magnitude fuel' (n0 + 1) ab
  end.

(** A lower bound for that [n], from the binary logarithms:
    [log10 (a / b) >= (log2 a - log2 b - 1) * log10 2]. *)
Definition magnitude_guess (ab : Z * Z) : Z :=
  let '(a, b) := ab in
  (Z.log2 a - Z.log2 b - 1) * 30103 / 100000 - 1.

(** Shortest digit string: the least [k] (tried from [k] upwards) with a
    [k]-digit integer [s] such that [s * 10 ^ (n - k)] has Number value [x];
    among two candidates the one closer to [x], then the even one.
    Returns [(s, n)]. *)
Fixpoint shortest (fuel : nat) (k : Z) (x : number) (ab : Z * Z) (n : Z) : Z * Z :=
  match fuel with
  | O => (0, n)
  | S fuel' =>
      let q := n - k in
      let '(a, b) := scale ab q in
      let lo := a / b in
      let hi := lo + 1 in
      let ok_lo := eqb (of_decimal false lo q) x in
      let ok_hi := eqb (of_decimal false hi q) x in
      let pick_hi := if hi =? 10 ^ k then (10 ^ (k - 1), n + 1) else (hi, n) in
      let dlo := a - lo * b in
      let dhi := hi * b - a in
      if ok_lo && ok_hi then
        if dlo <? dhi then (lo, n)
        else if dhi <? dlo then pick_hi
        else if Z.even lo then (lo, n) else pick_hi
      else if ok_lo then (lo, n)
      else if ok_hi then pick_hi
      else shortest fuel' (k + 1) x ab n
  end.

(** Decimal digits of a natural number, most significant first. *)
Fixpoint digits_aux (fuel : nat) (z : Z) (acc : string) : string :=
  match fuel with
  | O => acc
  | S fuel' =>
      let acc' := String (ascii_of_nat (Z.to_nat (48 + z mod 10))) acc in
      if z / 10 =? 0 then acc' else digits_aux fuel' (z / 10) acc'
  end.

Definition digits (z : Z) : string :=
  digits_aux (S (Z.to_nat (Z.log2 z))) z "".

Fixpoint zeros (n : nat) : string :=
  match n with O => "" | S n' => String "0" (zeros n') end.

Fixpoint str_take (n : nat) (s : string) : string :=
  match n, s with
  | S n', String c r => String c (str_take n' r)
  | _, _ => ""
  end.

Fixpoint str_drop (n : nat) (s : string) : string :=
  match n, s with
  | S n', String _ r => str_drop n' r
  | _, _ => s
  end.

Definition format_positive (s n : Z) : string :=
  let ds := digits s in
  let k := Z.of_nat (String.length ds) in
  if (k <=? n) && (n <=? 21) then ds +:+ zeros (Z.to_nat (n - k))
  else if (0 <? n) && (n <=? 21) then
    str_take (Z.to_nat n) ds +:+ "." +:+ str_drop (Z.to_nat n) ds
  else if (-6 <? n) && (n <=? 0) then
    "0." +:+ zeros (Z.to_nat (- n)) +:+ ds
  else
    let e := n - 1 in
    let es := (if e <? 0 then "-" else "+") +:+ digits (Z.abs e) in
    if k =? 1 then ds +:+ "e" +:+ es
    else str_take 1 ds +:+ "." +:+ str_drop 1 ds +:+ "e" +:+ es.

Definition toString (x : number) : string :=
  match x with
  | S754_nan => "NaN"
  | S754_zero _ => "0"
  | S754_infinity s => if s then "-Infinity" else "Infinity"
  | S754_finite sg m e =>
      let ab := fraction m e in
      let n := magnitude 8 (magnitude_guess ab) ab in
      let '(s, n') := shortest 17 1 (S754_finite false m e) ab n in
      (if sg then "-" else "") +:+ format_positive s n'
  end.

End Num.

(** ** SHA-256 (FIPS 180-4), the hash behind [crypto.createHmac('sha256', _)] *)

Module SHA256.

Definition wrap (x : Z) : Z := x mod 2 ^ 32.
Definition add32 (x y : Z) : Z := wrap (x + y).
Definition rotr (n x : Z) : Z :=
  Z.lor (Z.shiftr x n) (wrap (Z.shiftl x (32 - n))).

Definition Ch (x y z : Z) : Z := Z.lxor (Z.land x y) (Z.land (Z.lnot x) z).
Definition Maj (x y z : Z) : Z :=
  Z.lxor (Z.lxor (Z.land x y) (Z.land x z)) (Z.land y z).
Definition Sigma0 (x : Z) : Z := Z.lxor (Z.lxor (rotr 2 x) (rotr 13 x)) (rotr 22 x).
Definition Sigma1 (x : Z) : Z := Z.lxor (Z.lxor (rotr 6 x) (rotr 11 x)) (rotr 25 x).
Definition sigma0 (x : Z) : Z := Z.lxor (Z.lxor (rotr 7 x) (rotr 18 x)) (Z.shiftr x 3).
Definition sigma1 (x : Z) : Z := Z.lxor (Z.lxor (rotr 17 x) (rotr 19 x)) (Z.shiftr x 10).

(** The constants of the standard are "nothing up my sleeve" numbers taken
    from the first primes; they are computed here rather than tabulated. *)
Definition is_prime (n : Z) : bool :=
  (1 <? n) && forallb (fun d => negb (n mod d =? 0)) (seqZ 2 (n - 2)).

Definition first_primes (count : nat) : list Z :=
  take count (List.filter is_prime (seqZ 2 400)).

(** Integer cube root, one bit at a time from bit [bits - 1] down. *)
Fixpoint icbrt (bits : nat) (n r : Z) : Z :=
  match bits with
  | O => r
  | S bits' =>
      let r' := r + 2 ^ Z.of_nat bits' in
      icbrt bits' n (if r' * r' * r' <=? n then r' else r)
  end.

(** Round constants: the first 32 bits of the fractional parts of the cube
    roots of the first 64 primes. *)
Definition K : list Z :=
  Eval vm_compute in map (fun p => wrap (icbrt 36 (p * 2 ^ 96) 0)) (first_primes 64).

(** Initial hash value: the first 32 bits of the fractional parts of the
    square roots of the first 8 primes. *)
Definition H0 : list Z :=
  Eval vm_compute in map (fun p => wrap (Z.sqrt (p * 2 ^ 64))) (first_primes 8).

(** Big-endian encoding of [x] on [n] bytes. *)
Fixpoint be_bytes (n : nat) (x : Z) : list Z :=
  match n with
  | O => []
  | S n' => (Z.shiftr x (8 * Z.of_nat n')) mod 256 :: be_bytes n' x
  end.

Definition be_word (bs : list Z) : Z :=
  fold_left (fun acc b => acc * 256 + b) bs 0.

(** Padding (section 5.1.1): a 1 bit, zeros, and the bit length on 64 bits. *)
Definition pad (msg : list Z) : list Z :=
  let len := Z.of_nat (length msg) in
  msg ++ [128] ++ repeat 0 (Z.to_nat ((55 - len) mod 64)) ++ be_bytes 8 (8 * len).

(** Split a list into consecutive groups of [n] elements. *)
Fixpoint chunks {A} (fuel n : nat) (l : list A) : list (list A) :=
  match fuel with
  | O => []
  | S fuel' =>
      match l with
      | [] => []
      | _ => take n l :: chunks fuel' n (drop n l)
      end
  end.

Definition block_words (block : list Z) : list Z :=
  map be_word (chunks 16 4 block).

(** Message schedule (section 6.2.2, step 1). [win] holds the last 16 words. *)
Fixpoint expand (n : nat) (win : list Z) : list Z :=
  match n with
  | O => []
  | S n' =>
      match win with
      | [] => []
      | w0 :: rest =>
          let nw := add32 (add32 (sigma1 (nth 13 rest 0)) (nth 8 rest 0))
                          (add32 (sigma0 (nth 0 rest 0)) w0) in
          nw :: expand n' (rest ++ [nw])
      end
  end.

Definition schedule (ws : list Z) : list Z := ws ++ expand 48 ws.

Record regs := Regs { ra : Z; rb : Z; rc : Z; rd : Z; re : Z; rf : Z; rg : Z; rh : Z }.

Definition round (s : regs) (kw : Z * Z) : regs :=
  let '(k, w) := kw in
  let t1 := add32 (add32 (add32 (add32 (rh s) (Sigma1 (re s))) (Ch (re s) (rf s) (rg s))) k) w in
  let t2 := add32 (Sigma0 (ra s)) (Maj (ra s) (rb s) (rc s)) in
  Regs (add32 t1 t2) (ra s) (rb s) (rc s) (add32 (rd s) t1) (re s) (rf s) (rg s).

Definition regs_of (h : list Z) : regs :=
  Regs (nth 0 h 0) (nth 1 h 0) (nth 2 h 0) (nth 3 h 0)
       (nth 4 h 0) (nth 5 h 0) (nth 6 h 0) (nth 7 h 0).

Definition regs_list (s : regs) : list Z :=
  [ra s; rb s; rc s; rd s; re s; rf s; rg s; rh s].

Definition compress (h : list Z) (block : list Z) : list Z :=
  let s := fold_left round (combine K (schedule (block_words block))) (regs_of h) in
  zip_with add32 h (regs_list s).

Definition digest_words (msg : list Z) : list Z :=
  let p := pad msg in
  fold_left compress (chunks (length p) 64 p) H0.

Definition hash (msg : Buffer) : Buffer :=
  map byte_of_Z (concat (map (be_bytes 4) (digest_words (map byte_to_Z msg)))).

End SHA256.

(** ** HMAC (RFC 2104) over SHA-256 *)

Definition xor_byte (c : Z) (b : byte) : byte := byte_of_Z (Z.lxor c (byte_to_Z b)).

Definition hmac_sha256 (key : Buffer) (msg : Buffer) : Buffer :=
  let k0 := if Nat.ltb 64 (length key) then SHA256.hash key else key in
  let kp := k0 ++ repeat x00 (64 - length k0) in
  SHA256.hash (map (xor_byte 0x5c) kp ++ SHA256.hash (map (xor_byte 0x36) kp ++ msg)).

(** ** Hexadecimal *)

Definition hex_digit_lower (n : Z) : ascii :=
  ascii_of_nat (Z.to_nat (if n <? 10 then 48 + n else 87 + n)).

Definition hex_digit_upper (n : Z) : ascii :=
  ascii_of_nat (Z.to_nat (if n <? 10 then 48 + n else 55 + n)).

(** [buf.toString('hex')] / [hmac.digest('hex')]: two lowercase digits per byte. *)
Fixpoint hex_encode (buf : Buffer) : string :=
  match buf with
  | [] => ""
  | b :: rest =>
      String (hex_digit_lower (byte_to_Z b / 16))
        (String (hex_digit_lower (byte_to_Z b mod 16)) (hex_encode rest))
  end.

(** Value of a hexadecimal digit, if the character is one. *)
Definition hex_value (c : ascii) : option Z :=
  let n := Z.of_nat (nat_of_ascii c) in
  if (48 <=? n) && (n <=? 57) then Some (n - 48)
  else if (65 <=? n) && (n <=? 70) then Some (n - 55)
  else if (97 <=? n) && (n <=? 102) then Some (n - 87)
  else None.

(** Decoding of a sequence of characters, two by two: pairs of hexadecimal
    digits are decoded in order, and decoding stops silently at the first
    pair that is not made of two hexadecimal digits, or at a trailing
    single character. *)
Fixpoint hex_pairs (s : string) : Buffer :=
  match s with
  | String c1 (String c2 rest) =>
      match hex_value c1, hex_value c2 with
      | Some h, Some l => byte_of_Z (16 * h + l) :: hex_pairs rest
      | _, _ => []
      end
  | _ => []
  end.

(** *** The UTF-16 code units of a string

    A JavaScript string is a sequence of UTF-16 code units. It is held here
    by its UTF-8 encoding (generalised to unpaired surrogates), so the code
    units are recovered by decoding. *)

Definition byte_code (c : ascii) : Z := Z.of_nat (nat_of_ascii c).

Definition is_continuation (c : ascii) : bool :=
  (128 <=? byte_code c) && (byte_code c <? 192).

(** The [n] continuation bytes that follow a lead byte, accumulated on [acc]. *)
Fixpoint continuation (n : nat) (acc : Z) (s : string) : option (Z * string) :=
  match n with
  | O => Some (acc, s)
  | S n' =>
      match s with
      | String c rest =>
          if is_continuation c
          then continuation n' (acc * 64 + byte_code c mod 64) rest
          else None
      | EmptyString => None
      end
  end.

(** The code point that starts with the byte [c], and what follows it. A
    byte that starts no sequence (no JavaScript string encodes to one) is
    read as U+FFFD. *)
Definition utf8_next (c : ascii) (rest : string) : Z * string :=
  let b := byte_code c in
  let read n acc := default (65533, rest) (continuation n acc rest) in
  if b <? 128 then (b, rest)
  else if b <? 192 then (65533, rest)
  else if b <? 224 then read 1%nat (b mod 32)
  else if b <? 240 then read 2%nat (b mod 16)
  else if b <? 248 then read 3%nat (b mod 8)
  else (65533, rest).

Fixpoint code_points (fuel : nat) (s : string) : list Z :=
  match fuel, s with
  | S fuel', String c rest =>
      let '(cp, rest') := utf8_next c rest in
      cp :: code_points fuel' rest'
  | _, _ => []
  end.

(** One code unit below U+10000, a surrogate pair from there on. *)
Definition code_units (cp : Z) : list Z :=
  if cp <? 65536 then [cp]
  else [55296 + (cp - 65536) / 1024; 56320 + (cp - 65536) mod 1024].

(** What a reader of 8-bit characters sees of a code point: the low byte
    of each of its code units. *)
Definition unit_chars (cp : Z) : list ascii :=
  map (fun u => ascii_of_nat (Z.to_nat (u mod 256))) (code_units cp).

Definition low_bytes (s : string) : string :=
  String.string_of_list_ascii
    (flat_map unit_chars (code_points (String.length s) s)).

(** [Buffer.from(s, 'hex')] on a string. Node.js reads the code units of
    [s] two by two, each through its low byte (U+0134 is read as the digit
    4), and stops silently at the first pair that is not made of two
    hexadecimal digits, or at a trailing single unit. No exception is
    raised. *)
Definition Buffer_from_hex (s : string) : Buffer := hex_pairs (low_bytes s).

(** [String.prototype.toUpperCase] on the ASCII range (bytes of multi-byte
    UTF-8 sequences are left as they are); the source applies it to
    hexadecimal digests only. *)
Definition upper_char (c : ascii) : ascii :=
  let n := nat_of_ascii c in
  if (Nat.leb 97 n) && (Nat.leb n 122) then ascii_of_nat (n - 32) else c.

Fixpoint toUpperCase (s : string) : string :=
  match s with
  | EmptyString => EmptyString
  | String c rest => String (upper_char c) (toUpperCase rest)
  end.

(** ** JavaScript primitive values *)

Inductive jsval :=
| JUndefined
| JNull
| JBool (b : bool)
| JNum (x : Num.number)
| JStr (s : string).

(** ToBoolean: [undefined], [null], [false], [0], [-0], [NaN] and [""] are falsy. *)
Definition truthy (v : jsval) : bool :=
  match v with
  | JUndefined | JNull => false
  | JBool b => b
  | JNum x => negb (Num.is_zero x || Num.is_nan x)
  | JStr s => negb (String.eqb s "")
  end.

(** ToString, as used by template literals and by [parseInt] / [parseFloat]. *)
Definition ToString (v : jsval) : string :=
  match v with
  | JUndefined => "undefined"
  | JNull => "null"
  | JBool b => if b then "true" else "false"
  | JNum x => Num.toString x
  | JStr s => s
  end.

(** [a || b] *)
Definition js_or (a b : jsval) : jsval := if truthy a then a else b.

(** Property read on an object: absent properties read as [undefined]. *)
Definition get (o : gmap string jsval) (k : string) : jsval :=
  default JUndefined (o !! k).

(** ** Strings *)

Definition string_of_codes (l : list Z) : string :=
  fold_right (fun n s => String (ascii_of_nat (Z.to_nat n)) s) "" l.

(** WhiteSpace and LineTerminator code points (ECMA-262 sections 12.2 and
    12.3), in UTF-8: TAB, LF, VT, FF, CR, SP, U+00A0, U+1680, U+2000..U+200A,
    U+2028, U+2029, U+202F, U+205F, U+3000, U+FEFF. *)
Definition white_space : list (list Z) :=
  [ [9]; [10]; [11]; [12]; [13]; [32]; [194; 160]; [225; 154; 128];
    [226; 128; 128]; [226; 128; 129]; [226; 128; 130]; [226; 128; 131];
    [226; 128; 132]; [226; 128; 133]; [226; 128; 134]; [226; 128; 135];
    [226; 128; 136]; [226; 128; 137]; [226; 128; 138];
    [226; 128; 168]; [226; 128; 169]; [226; 128; 175]; [226; 129; 159];
    [227; 128; 128]; [239; 187; 191] ].

Fixpoint strip_prefix (p s : string) : option string :=
  match p, s with
  | EmptyString, _ => Some s
  | String a p', String b s' => if Ascii.eqb a b then strip_prefix p' s' else None
  | _, _ => None
  end.

(** Remove one leading occurrence of one of the patterns, if any. *)
Fixpoint strip_any (ps : list string) (s : string) : option string :=
  match ps with
  | [] => None
  | p :: ps' =>
      match strip_prefix p s with
      | Some r => Some r
      | None => strip_any ps' s
      end
  end.

Fixpoint strip_all (fuel : nat) (ps : list string) (s : string) : string :=
  match fuel with
  | O => s
  | S fuel' =>
      match strip_any ps s with
      | Some r => strip_all fuel' ps r
      | None => s
      end
  end.

Definition string_rev (s : string) : string :=
  String.string_of_list_ascii (rev (String.list_ascii_of_string s)).

Definition trimStart (s : string) : string :=
  strip_all (String.length s) (map string_of_codes white_space) s.

Definition trimEnd (s : string) : string :=
  string_rev (strip_all (String.length s)
                (map (fun l => string_of_codes (rev l)) white_space) (string_rev s)).

(** [String.prototype.trim] *)
Definition trim (s : string) : string := trimEnd (trimStart s).

(** [String.prototype.includes] *)
Fixpoint includes (needle hay : string) : bool :=
  if String.prefix needle hay then true
  else match hay with
       | EmptyString => false
       | String _ rest => includes needle rest
       end.

(** [s.slice(-n)]: the last [n] characters. *)
Definition slice_last (n : nat) (s : string) : string :=
  Num.str_drop (String.length s - n)%nat s.

(** [s.padStart(n, '0')] *)
Definition padStart0 (n : nat) (s : string) : string :=
  Num.zeros (n - String.length s)%nat +:+ s.

(** ** [parseFloat] and [parseInt] (ECMA-262 sections 19.2.4 and 19.2.5) *)

Definition digit_value (radix : Z) (c : ascii) : option Z :=
  match hex_value c with
  | Some d => if d <? radix then Some d else None
  | None => None
  end.

(** Longest prefix of digits: its value, its length and the remainder. *)
Fixpoint span_digits (radix : Z) (acc : Z) (n : Z) (s : string) : Z * Z * string :=
  match s with
  | EmptyString => (acc, n, s)
  | String c rest =>
      match digit_value radix c with
      | Some d => span_digits radix (acc * radix + d) (n + 1) rest
      | None => (acc, n, s)
      end
  end.

Definition take_sign (s : string) : bool * string :=
  match s with
  | String "-" rest => (true, rest)
  | String "+" rest => (false, rest)
  | _ => (false, s)
  end.

(** The decimal exponent denoted by an ExponentPart at the head of [s], if
    there is a complete one; 0 otherwise. *)
Definition exponent_part (s : string) : Z :=
  match s with
  | String c rest =>
      if Ascii.eqb c "e" || Ascii.eqb c "E" then
        let '(eneg, r1) := take_sign rest in
        let '(ev, en, _) := span_digits 10 0 0 r1 in
        if en =? 0 then 0 else if eneg then - ev else ev
      else 0
  | EmptyString => 0
  end.

Definition parseFloat (v : jsval) : Num.number :=
  let s := trimStart (ToString v) in
  let '(neg, s1) := take_sign s in
  if String.prefix "Infinity" s1 then S754_infinity neg
  else
    let '(iv, il, s2) := span_digits 10 0 0 s1 in
    let '(mv, fl, s3) :=
      match s2 with
      | String "." r => span_digits 10 iv 0 r
      | _ => (iv, 0, s2)
      end in
    if (il =? 0) && (fl =? 0) then Num.NaN
    else Num.of_decimal neg mv (exponent_part s3 - fl).

Definition parseInt (v : jsval) : Num.number :=
  let s := trimStart (ToString v) in
  let '(neg, s1) := take_sign s in
  let '(radix, s2) :=
    match s1 with
    | String "0" (String c r) =>
        if Ascii.eqb c "x" || Ascii.eqb c "X" then (16, r) else (10, s1)
    | _ => (10, s1)
    end in
  let '(iv, il, _) := span_digits radix 0 0 s2 in
  if il =? 0 then Num.NaN else Num.of_decimal neg iv 0.

(** ** Exceptions and results *)

(** The body of an upstream response after axios has parsed it. It is
    relayed opaquely; it is represented by the text that [JSON.stringify]
    produces for it. *)
Definition Data : Type := string.

Definition JSON_stringify (d : Data) : string := d.

(** The properties of a thrown error object that the sources read. *)
Record jserr := {
  message : string;
  code : option string;             (* [undefined] when [None] *)
  response : option (Z * Data);     (* status and data, when a response was received *)
  request : bool;                   (* whether [error.request] is set *)
  timeout : bool                    (* whether [error.timeout] is truthy *)
}.

(** [new Error(msg)] *)
Definition Error (msg : string) : jserr :=
  {| message := msg; code := None; response := None; request := false; timeout := false |}.

Inductive result (A : Type) :=
| Return (a : A)
| Throw (e : jserr).
Arguments Return {A} a.
Arguments Throw {A} e.

(** [Buffer.from(v, 'hex')] for a primitive [v]: a string is decoded, any
    other primitive raises a TypeError (ERR_INVALID_ARG_TYPE) whose message
    describes the value received. (Values that are objects - a Buffer, an
    array - are not primitives and have no counterpart in [jsval].) *)
Definition received (v : jsval) : string :=
  match v with
  | JUndefined => "undefined"
  | JNull => "null"
  | JBool _ => "type boolean (" +:+ ToString v +:+ ")"
  | JNum (S754_zero true) => "type number (-0)"
  | JNum _ => "type number (" +:+ ToString v +:+ ")"
  | JStr _ => "type string"
  end.

Definition Buffer_from (v : jsval) : result Buffer :=
  match v with
  | JStr s => Return (Buffer_from_hex s)
  | _ =>
      Throw {| message :=
                 "The first argument must be of type string or an instance of Buffer, ArrayBuffer, or Array or an Array-like Object. Received "
                 +:+ received v;
               code := Some "ERR_INVALID_ARG_TYPE";
               response := None; request := false; timeout := false |}
  end.

(** ** [src/utils/hash.js] *)

(** The canonical string that is signed (hash.js, line 15). *)
Definition dataString (dateTimeLocalTrxn merchantId terminalId : jsval) : string :=
  "DateTimeLocalTrxn=" +:+ ToString dateTimeLocalTrxn
  +:+ "&MerchantId=" +:+ ToString merchantId
  +:+ "&TerminalId=" +:+ ToString terminalId.

(** [generateSecureHash] (hash.js, lines 11-29). *)
Definition generateSecureHash
    (dateTimeLocalTrxn merchantId terminalId merchantSecretKey : jsval) : result string :=
  match Buffer_from merchantSecretKey with
  | Return keyBuffer =>
      Return (toUpperCase
                (hex_encode
                   (hmac_sha256 keyBuffer
                      (utf8 (dataString dateTimeLocalTrxn merchantId terminalId)))))
  | Throw error =>
      Throw (Error ("Failed to generate secure hash: " +:+ message error))
  end.

(** The local wall-clock fields read from [new Date()]. *)
Record Date := {
  getFullYear : Z;
  getMonth : Z;         (* 0 .. 11 *)
  getDate : Z;
  getHours : Z;
  getMinutes : Z;
  getSeconds : Z;
  getMilliseconds : Z
}.

Definition int_toString (z : Z) : string := Num.toString (Num.of_Z z).

(** [generateTransactionDateTime] (hash.js, lines 35-47). *)
Definition generateTransactionDateTime (now : Date) : string :=
  let year := slice_last 2 (int_toString (getFullYear now)) in
  let month := padStart0 2 (int_toString (getMonth now + 1)) in
  let day := padStart0 2 (int_toString (getDate now)) in
  let hours := padStart0 2 (int_toString (getHours now)) in
  let minutes := padStart0 2 (int_toString (getMinutes now)) in
  let seconds := padStart0 2 (int_toString (getSeconds now)) in
  let milliseconds := Num.str_take 2 (padStart0 3 (int_toString (getMilliseconds now))) in
  year +:+ month +:+ day +:+ hours +:+ minutes +:+ seconds +:+ milliseconds.

(** ** The environment of one request *)

(** A failure of the HTTP client that carries no response: a transport
    failure when the request had been made ([net_request]), a set-up failure
    otherwise. *)
Record NetError := {
  net_message : string;
  net_code : option string;
  net_request : bool;
  net_timeout : bool
}.

(** What the upstream service does with one POST. *)
Inductive Outcome :=
| Responded (status : Z) (data : Data)
| Failed (e : NetError).

Record World := {
  env : gmap string string;     (* [process.env] *)
  now : Date;                   (* [new Date()] when the request is signed *)
  Date_now : Z;                 (* [Date.now()] in the handler *)
  upstream : nat -> Outcome     (* outcome of the n-th outbound POST, from 0 *)
}.

(** Observable effects, in the order they happen. Console output is not recorded. *)
Inductive event :=
| Post (url : string) (body : gmap string jsval) (timeout_ms : Z)
| Sleep (ms : Z).

(** Number of outbound calls in a trace. *)
Fixpoint post_count (tr : list event) : nat :=
  match tr with
  | [] => O
  | Post _ _ _ :: rest => S (post_count rest)
  | Sleep _ :: rest => post_count rest
  end.

(** The bodies of the outbound calls of a trace, in order. *)
Fixpoint posted_bodies (tr : list event) : list (gmap string jsval) :=
  match tr with
  | [] => []
  | Post _ body _ :: rest => body :: posted_bodies rest
  | Sleep _ :: rest => posted_bodies rest
  end.

(** Computations that may throw and that extend the trace of effects. *)
Definition M (A : Type) : Type := list event -> result A * list event.

Definition ret {A} (a : A) : M A := fun tr => (Return a, tr).
Definition throw {A} (e : jserr) : M A := fun tr => (Throw e, tr).
Definition lift {A} (r : result A) : M A := fun tr => (r, tr).

Definition bind {A B} (m : M A) (k : A -> M B) : M B :=
  fun tr =>
    match m tr with
    | (Return a, tr') => k a tr'
    | (Throw e, tr') => (Throw e, tr')
    end.

(** [try { m } catch (error) { h error }] *)
Definition try_catch {A} (m : M A) (h : jserr -> M A) : M A :=
  fun tr =>
    match m tr with
    | (Return a, tr') => (Return a, tr')
    | (Throw e, tr') => h e tr'
    end.

Notation "'let*' x ':=' m 'in' k" := (bind m (fun x => k))
  (at level 10, x name, m at level 100, k at level 200).

Definition run {A} (m : M A) : result A * list event := m [].

(** [setTimeout]-based delay *)
Definition sleep (ms : Z) : M unit := fun tr => (Return tt, tr ++ [Sleep ms]).

(** *** axios *)

Definition code_string (c : option string) : string :=
  match c with Some s => s | None => "undefined" end.

(** The settle rule of axios: a response whose status passes
    [validateStatus] resolves the promise; any other response rejects it with
    an error that carries the response. *)
Definition settle (validateStatus : Z -> bool) (o : Outcome) : result (Z * Data) :=
  match o with
  | Responded status data =>
      if validateStatus status then Return (status, data)
      else Throw {| message := "Request failed with status code " +:+ int_toString status;
                    code := if status / 100 =? 4 then Some "ERR_BAD_REQUEST"
                            else if status / 100 =? 5 then Some "ERR_BAD_RESPONSE"
                            else None;
                    response := Some (status, data);
                    request := true;
                    timeout := false |}
  | Failed e =>
      Throw {| message := net_message e; code := net_code e; response := None;
               request := net_request e; timeout := net_timeout e |}
  end.

Definition axios_post (w : World) (validateStatus : Z -> bool)
    (url : string) (body : gmap string jsval) (timeout_ms : Z) : M (Z * Data) :=
  fun tr =>
    (settle validateStatus (upstream w (post_count tr)), tr ++ [Post url body timeout_ms]).

(** The default [validateStatus] of axios. *)
Definition validateStatus_default (status : Z) : bool :=
  (200 <=? status) && (status <? 300).

(** ** [src/services/upgService.js] *)

(** [process.env.UPG_BASE_URL || 'https://upg.egyptianbanks.com/...'] *)
Definition UPG_BASE_URL (w : World) : string :=
  match env w !! "UPG_BASE_URL" with
  | Some u => if String.eqb u "" then "https://upg.egyptianbanks.com/cube/paylink.svc/api" else u
  | None => "https://upg.egyptianbanks.com/cube/paylink.svc/api"
  end.

Definition REQUEST_TO_PAY_ENDPOINT : string := "/RequestToPay".

(** [`${UPG_BASE_URL}${REQUEST_TO_PAY_ENDPOINT}`], the target of the call. *)
Definition target (w : World) : string := UPG_BASE_URL w +:+ REQUEST_TO_PAY_ENDPOINT.

Definition requiredFields : list string :=
  ["amountTrxn"; "currency"; "mobileNumber"; "merchantId"; "terminalId"; "merchantSecretKey"].

(** The validation loop (upgService.js, lines 31-36). *)
Fixpoint validate (fields : list string) (paymentData : gmap string jsval) : result unit :=
  match fields with
  | [] => Return tt
  | field :: rest =>
      if negb (truthy (get paymentData field))
      then Throw (Error ("Missing required field: " +:+ field))
      else validate rest paymentData
  end.

(** [if (c) payload[k] = v] *)
Definition set_if (c : bool) (k : string) (v : jsval) (payload : gmap string jsval)
  : gmap string jsval :=
  if c then <[k := v]> payload else payload.

(** The wire payload (upgService.js, lines 50-92). *)
Definition requestPayload (paymentData : gmap string jsval)
    (dateTimeLocalTrxn secureHash : string) : gmap string jsval :=
  let tip := get paymentData "tip" in
  let fixed := get paymentData "convenienceFeeFixed" in
  let percentage := get paymentData "convenienceFeePercentage" in
  let p : gmap string jsval :=
    <["AmountTrxn" := JNum (parseInt (get paymentData "amountTrxn"))]>
    (<["Currency" := JNum (parseInt (get paymentData "currency"))]>
    (<["MerchantReference" := js_or (get paymentData "merchantReference") (JStr "")]>
    (<["MobileNumber" := get paymentData "mobileNumber"]>
    (<["MerchantId" := get paymentData "merchantId"]>
    (<["TerminalId" := get paymentData "terminalId"]>
    (<["DateTimeLocalTrxn" := JStr dateTimeLocalTrxn]>
    (<["SecureHash" := JStr secureHash]> ∅))))))) in
  let p := set_if (truthy (get paymentData "validity"))
             "Validity" (JStr (ToString (get paymentData "validity"))) p in
  let p := set_if (truthy (get paymentData "loyaltyNumber"))
             "LoyaltyNumber" (get paymentData "loyaltyNumber") p in
  let p := set_if (truthy (get paymentData "customerLabel"))
             "CustomerLabel" (get paymentData "customerLabel") p in
  let p := set_if (truthy (get paymentData "purposeOfTransaction"))
             "PurposeOfTransaction" (get paymentData "purposeOfTransaction") p in
  let p := set_if (truthy (get paymentData "billNumber"))
             "BillNumber" (get paymentData "billNumber") p in
  let p := set_if (match tip with JBool true => true | _ => false end)
             "Tip" (JBool true) p in
  let p := set_if (truthy fixed && negb (truthy tip) && negb (truthy percentage))
             "ConvenienceFeeFixed" (JNum (parseFloat fixed)) p in
  let p := set_if (truthy percentage && negb (truthy tip) && negb (truthy fixed))
             "ConvenienceFeePercentage" (JNum (parseFloat percentage)) p in
  p.

(** Everything [requestToPay] does before the network call (lines 30-92):
    validation, timestamp, signature, payload. Common to the three revisions. *)
Definition prepare (w : World) (paymentData : gmap string jsval)
  : result (gmap string jsval) :=
  match validate requiredFields paymentData with
  | Throw e => Throw e
  | Return _ =>
      let dateTimeLocalTrxn := generateTransactionDateTime (now w) in
      match generateSecureHash (JStr dateTimeLocalTrxn)
              (get paymentData "merchantId") (get paymentData "terminalId")
              (get paymentData "merchantSecretKey") with
      | Throw e => Throw e
      | Return secureHash =>
          Return (requestPayload paymentData dateTimeLocalTrxn secureHash)
      end
  end.

Definition code_is (error : jserr) (c : string) : bool :=
  match code error with
  | Some c' => String.eqb c' c
  | None => false
  end.

Definition api_error (status : Z) (data : Data) : jserr :=
  Error ("UPG API Error (" +:+ int_toString status +:+ "): " +:+ JSON_stringify data).

Definition connectivity_error (error : jserr) : jserr :=
  Error ("Network connectivity issue (" +:+ code_string (code error) +:+ "): "
         +:+ message error
         +:+ ". Please check AWS security groups, NAT gateway, and internet connectivity.").

(** The [catch] block of the current revision (upgService.js, lines 121-168). *)
Definition on_error (error : jserr) : jserr :=
  match response error with
  | Some (status, data) => api_error status data
  | None =>
      if request error then
        if code_is error "ENOTFOUND" then
          Error "DNS resolution failed. Unable to resolve UPG API hostname. Check internet connectivity and DNS settings."
        else if code_is error "ECONNREFUSED" then
          Error "Connection refused by UPG API server. The service may be down or blocked by firewall."
        else if code_is error "ETIMEDOUT" || timeout error then
          Error "Request timeout. UPG API server is not responding within the expected time."
        else if code_is error "ECONNRESET" then
          Error "Connection reset by UPG API server. Network interruption occurred."
        else connectivity_error error
      else Error ("Request setup error: " +:+ message error)
  end.

(** [requestToPay], current revision (upgService.js, lines 28-169):
    one attempt, 45 s timeout, any status below 500 accepted. *)
Definition requestToPay (w : World) (paymentData : gmap string jsval) : M Data :=
  try_catch
    (let* payload := lift (prepare w paymentData) in
     let* response := axios_post w (fun status => status <? 500)
                        (target w) payload 45000 in
     ret (snd response))
    (fun error => throw (on_error error)).

(** *** The revision with retries (upgService.js, lines 201-382) *)

Definition maxRetries : Z := 3.

(** The retry condition on the error of a failed attempt (lines 313-316). *)
Definition retryable (error : jserr) : bool :=
  code_is error "ECONNABORTED" || code_is error "ETIMEDOUT"
  || code_is error "ECONNRESET" || includes "timeout" (message error).

(** [throw lastError] (line 330); [lastError] is [undefined] only if no
    attempt was made, and then the [catch] block fails on reading it. *)
Definition throw_last {A} (lastError : option jserr) : M A :=
  match lastError with
  | Some e => throw e
  | None => throw {| message := "Cannot read properties of undefined (reading 'message')";
                     code := None; response := None; request := false; timeout := false |}
  end.

(** The loop [for (attempt = 1; attempt <= maxRetries; attempt++)]
    (lines 291-327); [fuel] bounds the number of iterations. *)
Fixpoint attempts (w : World) (payload : gmap string jsval)
    (fuel : nat) (attempt : Z) (lastError : option jserr) : M Data :=
  match fuel with
  | O => throw_last lastError
  | S fuel' =>
      if attempt <=? maxRetries then
        try_catch
          (let* response := axios_post w (fun status => status <? 500)
                              (target w) payload 90000 in
           ret (snd response))
          (fun error =>
             if (attempt <? maxRetries) && retryable error then
               let* _ := sleep (attempt * 3000) in
               attempts w payload fuel' (attempt + 1) (Some error)
             else throw_last (Some error))
      else throw_last lastError
  end.

(** The [catch] block of the retrying revision (lines 332-381). *)
Definition on_error_retry (w : World) (error : jserr) : jserr :=
  match response error with
  | Some (status, data) => api_error status data
  | None =>
      if request error then
        if code_is error "ENOTFOUND" then
          Error ("DNS resolution failed for '" +:+ UPG_BASE_URL w
                 +:+ "'. This indicates AWS VPC DNS configuration issues. Check: 1) VPC DNS resolution enabled, 2) VPC DNS hostnames enabled, 3) Security group allows port 53 (DNS), 4) Route table has internet gateway/NAT gateway, 5) /etc/resolv.conf has valid nameservers.")
        else if code_is error "ECONNREFUSED" then
          Error "Connection refused by UPG API server. The service may be down or blocked by firewall."
        else if code_is error "ETIMEDOUT" || timeout error then
          Error "Request timeout. UPG API server is not responding within the expected time."
        else if code_is error "ECONNRESET" then
          Error "Connection reset by UPG API server. Network interruption occurred."
        else if code_is error "ECONNABORTED" then
          Error "Request timeout after 90 seconds. This may indicate slow network or AWS NAT Gateway issues. Check AWS VPC configuration."
        else connectivity_error error
      else Error ("Request setup error: " +:+ message error)
  end.

Definition requestToPay_retry (w : World) (paymentData : gmap string jsval) : M Data :=
  try_catch
    (let* payload := lift (prepare w paymentData) in
     attempts w payload (Z.to_nat maxRetries) 1 None)
    (fun error => throw (on_error_retry w error)).

(** *** The first revision (upgService.js, lines 414-515): one attempt,
    30 s timeout, default status validation, uncategorised errors. *)

Definition on_error_basic (error : jserr) : jserr :=
  match response error with
  | Some (status, data) => api_error status data
  | None =>
      if request error
      then Error "No response received from UPG API. Please check network connectivity."
      else Error ("Request setup error: " +:+ message error)
  end.

Definition requestToPay_basic (w : World) (paymentData : gmap string jsval) : M Data :=
  try_catch
    (let* payload := lift (prepare w paymentData) in
     let* response := axios_post w validateStatus_default
                        (target w) payload 30000 in
     ret (snd response))
    (fun error => throw (on_error_basic error)).

(** ** [src/server.js] *)

Definition env_get (w : World) (k : string) : jsval :=
  match env w !! k with
  | Some s => JStr s
  | None => JUndefined
  end.

(** The [CONFIG] object (server.js, lines 16-23). *)
Record Config := {
  MERCHANT_ID : jsval;
  TERMINAL_ID : jsval;
  MERCHANT_SECRET_KEY : jsval;
  CURRENCY_EGP : Num.number;
  DEFAULT_VALIDITY : jsval
}.

Definition CONFIG (w : World) : Config :=
  {| MERCHANT_ID := env_get w "MERCHANT_ID";
     TERMINAL_ID := env_get w "TERMINAL_ID";
     MERCHANT_SECRET_KEY := env_get w "MERCHANT_SECRET_KEY";
     CURRENCY_EGP :=
       (let c := parseInt (env_get w "DEFAULT_CURRENCY") in
        if truthy (JNum c) then c else Num.of_Z 818);
     DEFAULT_VALIDITY := js_or (env_get w "DEFAULT_VALIDITY_MINUTES") (JStr "30") |}.

(** The start-up check (server.js, lines 26-30): the process exits unless
    the three credentials are set. *)
Definition startup_ok (w : World) : bool :=
  truthy (MERCHANT_ID (CONFIG w)) && truthy (TERMINAL_ID (CONFIG w))
  && truthy (MERCHANT_SECRET_KEY (CONFIG w)).

(** The JSON bodies the handler replies with. *)
Inductive Envelope :=
| Failure (error : string)
    (* [{ success: false, error }] *)
| Success (data : Data) (amount mobileNumber merchantReference : jsval).
    (* [{ success: true, data, paymentData: { amount, mobileNumber, merchantReference } }] *)

Record Reply := { http_status : Z; envelope : Envelope }.

(** [v.trim()] for a primitive [v] held in the variable [name]. *)
Definition call_trim (name : string) (v : jsval) : result jsval :=
  match v with
  | JStr s => Return (JStr (trim s))
  | JUndefined | JNull =>
      Throw (Error ("Cannot read properties of " +:+ ToString v +:+ " (reading 'trim')"))
  | _ => Throw (Error (name +:+ ".trim is not a function"))
  end.

(** [if (body[k]) paymentData[k] = body[k].trim()] *)
Definition set_trimmed (body : gmap string jsval) (k : string)
    (paymentData : gmap string jsval) : result (gmap string jsval) :=
  if truthy (get body k) then
    match call_trim k (get body k) with
    | Return v => Return (<[k := v]> paymentData)
    | Throw e => Throw e
    end
  else Return paymentData.

Definition bind_result {A B} (r : result A) (k : A -> result B) : result B :=
  match r with
  | Return a => k a
  | Throw e => Throw e
  end.

(** The payment data the handler hands to the gateway client
    (server.js, lines 78-99). *)
Definition buildPaymentData (w : World) (body : gmap string jsval)
    (amountInPiasters : Num.number) : result (gmap string jsval) :=
  let tip := get body "tip" in
  let convenienceFeeFixed := get body "convenienceFeeFixed" in
  let convenienceFeePercentage := get body "convenienceFeePercentage" in
  bind_result (call_trim "mobileNumber" (get body "mobileNumber")) (fun mobile =>
  let paymentData : gmap string jsval :=
    <["amountTrxn" := JNum amountInPiasters]>
    (<["currency" := JNum (CURRENCY_EGP (CONFIG w))]>
    (<["mobileNumber" := mobile]>
    (<["merchantId" := MERCHANT_ID (CONFIG w)]>
    (<["terminalId" := TERMINAL_ID (CONFIG w)]>
    (<["merchantSecretKey" := MERCHANT_SECRET_KEY (CONFIG w)]>
    (<["merchantReference" :=
         js_or (get body "merchantReference") (JStr ("REF_" +:+ int_toString (Date_now w)))]>
    (<["validity" := js_or (get body "validity") (DEFAULT_VALIDITY (CONFIG w))]> ∅))))))) in
  bind_result (set_trimmed body "loyaltyNumber" paymentData) (fun paymentData =>
  bind_result (set_trimmed body "customerLabel" paymentData) (fun paymentData =>
  bind_result (set_trimmed body "purposeOfTransaction" paymentData) (fun paymentData =>
  bind_result (set_trimmed body "billNumber" paymentData) (fun paymentData =>
  let paymentData :=
    set_if (match tip with JStr t => String.eqb t "true" | _ => false end)
      "tip" (JBool true) paymentData in
  let paymentData :=
    set_if (truthy convenienceFeeFixed && negb (truthy tip))
      "convenienceFeeFixed" (JNum (parseFloat convenienceFeeFixed)) paymentData in
  let paymentData :=
    set_if (truthy convenienceFeePercentage && negb (truthy tip)
            && negb (truthy convenienceFeeFixed))
      "convenienceFeePercentage" (JNum (parseFloat convenienceFeePercentage)) paymentData in
  Return paymentData))))).

(** [Math.round(parseFloat(amount) * 100)] (server.js, line 69). *)
Definition amountInPiasters (amount : jsval) : Num.number :=
  Num.round (Num.mul (parseFloat amount) (Num.of_Z 100)).

(** The handler of [POST /api/request-to-pay] (server.js, lines 44-125). *)
Definition post_request_to_pay (w : World) (body : gmap string jsval) : M Reply :=
  try_catch
    (let amount := get body "amount" in
     let mobileNumber := get body "mobileNumber" in
     if negb (truthy amount) || negb (truthy mobileNumber) then
       ret {| http_status := 400;
              envelope := Failure "Amount and Mobile Number are required fields." |}
     else if Num.leb (amountInPiasters amount) (Num.of_Z 0) then
       ret {| http_status := 400;
              envelope := Failure "Amount must be greater than zero." |}
     else
       let* paymentData := lift (buildPaymentData w body (amountInPiasters amount)) in
       let* result := requestToPay w paymentData in
       ret {| http_status := 200;
              envelope := Success result amount mobileNumber
                            (get paymentData "merchantReference") |})
    (fun error =>
       ret {| http_status := 500;
              envelope := Failure (if String.eqb (message error) ""
                                   then "Payment request failed" else message error) |}).

(** ** The signer as the specification words it *)

(** Strict hexadecimal decoding: defined exactly on the strings made of an
    even number of hexadecimal digits. *)
Fixpoint hexDecode (k : string) : option Buffer :=
  match k with
  | EmptyString => Some []
  | String c1 (String c2 rest) =>
      match hex_value c1, hex_value c2, hexDecode rest with
      | Some h, Some l, Some bytes => Some (byte_of_Z (16 * h + l) :: bytes)
      | _, _, _ => None
      end
  | String _ EmptyString => None
  end.

(** Uppercase hexadecimal encoding, two digits per byte. *)
Fixpoint hex_encode_upper (buf : Buffer) : string :=
  match buf with
  | [] => ""
  | b :: rest =>
      String (hex_digit_upper (byte_to_Z b / 16))
        (String (hex_digit_upper (byte_to_Z b mod 16)) (hex_encode_upper rest))
  end.

(** "builds a canonical key-value string, [...] computes a keyed hash (HMAC
    construction) over the canonical string using the decoded key, and returns
    the hash as uppercase hexadecimal". *)
Definition sign (timestampToken merchantId terminalId : string) (key : Buffer) : string :=
  hex_encode_upper
    (hmac_sha256 key
       (utf8 ("DateTimeLocalTrxn=" +:+ timestampToken
              +:+ "&MerchantId=" +:+ merchantId
              +:+ "&TerminalId=" +:+ terminalId))).


(** ** Auxiliary notions used in the statements *)

(** The first field of [fields], in order, whose value is falsy. *)
Fixpoint first_falsy (fields : list string) (paymentData : gmap string jsval)
  : option string :=
  match fields with
  | [] => None
  | field :: rest =>
      if truthy (get paymentData field) then first_falsy rest paymentData
      else Some field
  end.

(** The error [requestToPay] raises when validation stops at [field]. *)
Definition missing_field_error (field : string) : jserr :=
  Error ("Request setup error: Missing required field: " +:+ field).

(** ** Sample inputs *)

Definition sample_date : Date :=
  {| getFullYear := 2025; getMonth := 0; getDate := 7; getHours := 9;
     getMinutes := 5; getSeconds := 3; getMilliseconds := 45 |}.

Definition sample_env : gmap string string :=
  <["MERCHANT_ID" := "10001"]>
  (<["TERMINAL_ID" := "20002"]>
  (<["MERCHANT_SECRET_KEY" := "4a656665"]> ∅)).

(** A world in which the upstream answers every call with [o]. *)
Definition sample_world (o : Outcome) : World :=
  {| env := sample_env; now := sample_date; Date_now := 1736240703045;
     upstream := fun _ => o |}.

(** A complete payment data object. *)
Definition sample_paymentData : gmap string jsval :=
  <["amountTrxn" := JNum (Num.of_Z 1050)]>
  (<["currency" := JNum (Num.of_Z 818)]>
  (<["mobileNumber" := JStr "01012345678"]>
  (<["merchantId" := JStr "10001"]>
  (<["terminalId" := JStr "20002"]>
  (<["merchantSecretKey" := JStr "4a656665"]> ∅))))).

(** The categories of transport failure the client reports. *)
Inductive category :=
| DnsFailure
| ConnectionRefused
| TimedOut
| ConnectionReset
| OtherConnectivity.

(** The category an error message announces, read off its opening words. *)
Definition category_of_message (msg : string) : option category :=
  if String.prefix "DNS resolution failed" msg then Some DnsFailure
  else if String.prefix "Connection refused" msg then Some ConnectionRefused
  else if String.prefix "Request timeout" msg then Some TimedOut
  else if String.prefix "Connection reset" msg then Some ConnectionReset
  else if String.prefix "Network connectivity issue" msg then Some OtherConnectivity
  else None.

(** The failures on which a retry is allowed: aborted (the code axios gives
    to its own timeouts), timed out, connection reset, or a message that
    mentions a timeout. *)
Definition retry_class (e : NetError) : Prop :=
  net_code e = Some "ECONNABORTED" \/ net_code e = Some "ETIMEDOUT"
  \/ net_code e = Some "ECONNRESET" \/ includes "timeout" (net_message e) = true.

(** Whether a character occurs in a string. *)
Fixpoint mentions (c : ascii) (s : string) : bool :=
  match s with
  | EmptyString => false
  | String d rest => Ascii.eqb c d || mentions c rest
  end.

(** A transport failure, as the resolver reports an unknown host. *)
Definition dns_failure : NetError :=
  {| net_message := "getaddrinfo ENOTFOUND upg.egyptianbanks.com";
     net_code := Some "ENOTFOUND"; net_request := true; net_timeout := false |}.

(** A form submission with only the two mandatory inputs. *)
Definition request_body (amount mobileNumber : string) : gmap string jsval :=
  <["amount" := JStr amount]> (<["mobileNumber" := JStr mobileNumber]> ∅).

(** Payment data that carries both convenience fees and no tip. *)
Definition paymentData_both_fees : gmap string jsval :=
  <["convenienceFeeFixed" := JNum (Num.of_Z 5)]>
  (<["convenienceFeePercentage" := JNum (Num.of_Z 2)]> sample_paymentData).

(** Payment data that carries a fixed fee together with the tip flag. *)
Definition paymentData_tip_and_fee : gmap string jsval :=
  <["tip" := JBool true]>
  (<["convenienceFeeFixed" := JNum (Num.of_Z 5)]> sample_paymentData).

(** A form submission that fills in both convenience fees and no tip. *)
Definition body_both_fees : gmap string jsval :=
  <["convenienceFeeFixed" := JStr "5"]>
  (<["convenienceFeePercentage" := JStr "2"]> (request_body "10.50" "01012345678")).

(** The two fee fields of a wire payload. *)
Definition fee_fields (payload : gmap string jsval) : option jsval * option jsval :=
  (payload !! "ConvenienceFeeFixed", payload !! "ConvenienceFeePercentage").

(** The waits of a trace, in order. *)
Fixpoint waits (tr : list event) : list Z :=
  match tr with
  | [] => []
  | Sleep ms :: rest => ms :: waits rest
  | Post _ _ _ :: rest => waits rest
  end.

(** The failure axios reports when its own timeout expires. *)
Definition axios_timeout : NetError :=
  {| net_message := "timeout of 90000ms exceeded";
     net_code := Some "ECONNABORTED"; net_request := true; net_timeout := false |}.

(** A world in which the upstream times out twice and then answers. *)
Definition world_two_timeouts : World :=
  {| env := sample_env; now := sample_date; Date_now := 1736240703045;
     upstream := fun n => if (n <? 2)%nat then Failed axios_timeout
                          else Responded 200 "{}" |}.

(** ** Notions used for the signer's further properties *)

(** The two decimal digits of a number below 100. *)
Definition two_digits (n : Z) : string :=
  String (ascii_of_nat (Z.to_nat (48 + n / 10)))
    (String (ascii_of_nat (Z.to_nat (48 + n mod 10))) "").

(** The ranges of the fields of a local date, for a four-digit year. *)
Definition valid_clock (d : Date) : Prop :=
  1000 <= getFullYear d < 10000
  /\ 0 <= getMonth d < 12
  /\ 1 <= getDate d < 32
  /\ 0 <= getHours d < 24
  /\ 0 <= getMinutes d < 60
  /\ 0 <= getSeconds d < 60
  /\ 0 <= getMilliseconds d < 1000.

(** What a token retains of the clock: the year within its century, the
    month, day, hour, minute and second, and the hundredths of a second. *)
Definition token_fields (d : Date) : list Z :=
  [getFullYear d mod 100; getMonth d; getDate d; getHours d; getMinutes d;
   getSeconds d; getMilliseconds d / 10].

(** An uppercase hexadecimal digit. *)
Definition is_upper_hex (c : ascii) : bool :=
  let n := nat_of_ascii c in
  ((48 <=? n)%nat && (n <=? 57)%nat) || ((65 <=? n)%nat && (n <=? 70)%nat).

Fixpoint string_forall (p : ascii -> bool) (s : string) : bool :=
  match s with
  | EmptyString => true
  | String c rest => p c && string_forall p rest
  end.

(** The sample clock, a century earlier and a few milliseconds later. *)
Definition sample_date_shifted : Date :=
  {| getFullYear := 1925; getMonth := 0; getDate := 7; getHours := 9;
     getMinutes := 5; getSeconds := 3; getMilliseconds := 49 |}.

(** ** Notions used for the gateway client's further properties *)

(** The three revisions of [requestToPay] that upgService.js holds. *)
Inductive revision := Current | Retrying | Basic.

Definition requestToPay_rev (r : revision) : World -> gmap string jsval -> M Data :=
  match r with
  | Current => requestToPay
  | Retrying => requestToPay_retry
  | Basic => requestToPay_basic
  end.

(** [payload] is the body of one of the calls that revision [r] makes. *)
Definition sent_by (r : revision) (w : World) (paymentData payload : gmap string jsval)
  : Prop :=
  payload ∈ posted_bodies (snd (run (requestToPay_rev r w paymentData))).

(** The field names of the wire format. *)
Definition wire_fields : list string :=
  ["AmountTrxn"; "Currency"; "MerchantReference"; "MobileNumber"; "MerchantId";
   "TerminalId"; "DateTimeLocalTrxn"; "SecureHash"; "Validity"; "LoyaltyNumber";
   "CustomerLabel"; "PurposeOfTransaction"; "BillNumber"; "Tip";
   "ConvenienceFeeFixed"; "ConvenienceFeePercentage"].

(** The error object axios raises for a failure without response. *)
Definition error_of (e : NetError) : jserr :=
  {| message := net_message e; code := net_code e; response := None;
     request := net_request e; timeout := net_timeout e |}.

(** A world given by the outcomes of the first calls, then a default one. *)
Definition world_of (outcomes : list Outcome) (otherwise : Outcome) : World :=
  {| env := sample_env; now := sample_date; Date_now := 1736240703045;
     upstream := fun n => nth n outcomes otherwise |}.

(** A connection reset by the peer. *)
Definition connection_reset : NetError :=
  {| net_message := "read ECONNRESET"; net_code := Some "ECONNRESET";
     net_request := true; net_timeout := false |}.

(** ** Notions used for the handler's further properties *)

(** The reply of the handler's [catch] block (server.js, lines 117-124). *)
Definition error_reply (error : jserr) : Reply :=
  {| http_status := 500;
     envelope := Failure (if String.eqb (message error) ""
                          then "Payment request failed" else message error) |}.

(** The optional text inputs that the handler trims, with their wire names. *)
Definition trimmed_fields : list (string * string) :=
  [("loyaltyNumber", "LoyaltyNumber"); ("customerLabel", "CustomerLabel");
   ("purposeOfTransaction", "PurposeOfTransaction"); ("billNumber", "BillNumber")].

(** An amount of [n] piasters written in pounds with two decimals. *)
Definition display_amount (n : Z) : string :=
  Num.digits (n / 100) +:+ "." +:+ two_digits (n mod 100).

(** Identity of two Number values, as data. *)
Definition number_same (x y : Num.number) : bool :=
  match x, y with
  | S754_zero s, S754_zero s' => Bool.eqb s s'
  | S754_infinity s, S754_infinity s' => Bool.eqb s s'
  | S754_nan, S754_nan => true
  | S754_finite s m e, S754_finite s' m' e' => Bool.eqb s s' && Pos.eqb m m' && (e =? e')
  | _, _ => false
  end.

(** ** The form script ([src/unnamed/part_000]) *)

Definition is_digit (c : ascii) : bool :=
  (48 <=? nat_of_ascii c)%nat && (nat_of_ascii c <=? 57)%nat.

(** [s.replace(/\D/g, '')]: every byte of a character other than the ten
    digits is outside the range of the digits. *)
Fixpoint remove_non_digits (s : string) : string :=
  match s with
  | EmptyString => EmptyString
  | String c rest =>
      if is_digit c then String c (remove_non_digits rest) else remove_non_digits rest
  end.

(** The entries of a [FormData] built from the form: the text of each
    successful control, by name. *)
Definition FormData := gmap string string.

(** [formData.get(name)]: the entry, or [null]. *)
Definition FormData_get (formData : FormData) (name : string) : jsval :=
  match formData !! name with
  | Some value => JStr value
  | None => JNull
  end.

Definition optionalFields : list string :=
  ["merchantReference"; "validity"; "loyaltyNumber";
   "customerLabel"; "purposeOfTransaction"; "billNumber"].

(** [value && value.trim()], as a condition. *)
Definition filled (value : jsval) : bool :=
  truthy value && match value with
                  | JStr s => truthy (JStr (trim s))
                  | _ => false
                  end.

(** The body of the [forEach] over the optional fields (lines 143-148). *)
Definition collect_optional (formData : FormData) (data : gmap string jsval)
    (field : string) : gmap string jsval :=
  let value := FormData_get formData field in
  if filled value then
    match value with
    | JStr s => <[field := JStr (trim s)]> data
    | _ => data
    end
  else data.

Module PaymentGateway.

(** The value [formatMobileNumber] leaves in the input (lines 45-55). *)
Definition formatMobileNumber (value : string) : string :=
  let value := remove_non_digits value in
  if (14 <? String.length value)%nat then Num.str_take 14 value else value.

(** [collectFormData] (lines 131-166). *)
Definition collectFormData (formData : FormData) : result (gmap string jsval) :=
  let data : gmap string jsval :=
    <["amount" := JNum (parseFloat (FormData_get formData "amount"))]> ∅ in
  bind_result (call_trim "formData.get(...)" (FormData_get formData "mobileNumber"))
    (fun mobileNumber =>
  let data := <["mobileNumber" := mobileNumber]> data in
  let data := fold_left (collect_optional formData) optionalFields data in
  let tip := match FormData_get formData "tip" with
             | JStr v => String.eqb v "on"
             | _ => false
             end in
  let data := <["tip" := JBool tip]> data in
  let data :=
    if negb tip then
      let fixedFee := FormData_get formData "convenienceFeeFixed" in
      let percentageFee := FormData_get formData "convenienceFeePercentage" in
      if filled fixedFee then
        <["convenienceFeeFixed" := JNum (parseFloat fixedFee)]> data
      else if filled percentageFee then
        <["convenienceFeePercentage" := JNum (parseFloat percentageFee)]> data
      else data
    else data in
  Return data).

End PaymentGateway.

(** The display helper [formatMobileNumber] at the end of the script
    (lines 396-403). The pattern [(\d{2})(\d{4})(\d{4})] matches the first
    ten digits of [cleaned]; what follows them is kept. *)
Definition formatMobileNumber (number : string) : string :=
  let cleaned := remove_non_digits number in
  if (String.length cleaned =? 11)%nat && String.prefix "01" cleaned then
    Num.str_take 2 cleaned +:+ " " +:+ Num.str_take 4 (Num.str_drop 2 cleaned)
    +:+ " " +:+ Num.str_take 4 (Num.str_drop 6 cleaned) +:+ Num.str_drop 10 cleaned
  else number.

(** What [JSON.parse] reads back from [JSON.stringify] of a primitive: a
    property holding [undefined] is left out, a Number that is not finite
    is written [null], and zero is written [0]. *)
Definition JSON_value (v : jsval) : option jsval :=
  match v with
  | JUndefined => None
  | JNum S754_nan => Some JNull
  | JNum (S754_infinity _) => Some JNull
  | JNum (S754_zero _) => Some (JNum (S754_zero false))
  | _ => Some v
  end.

(** The request body the handler receives for the object the script posts
    (lines 107-113, and the JSON body parser of server.js, line 12). *)
Definition posted_json (data : gmap string jsval) : gmap string jsval :=
  omap JSON_value data.

(** A form with the two mandatory inputs and the tip box ticked. *)
Definition form_with_tip : FormData :=
  <["amount" := "10.50"]> (<["mobileNumber" := "01012345678"]> (<["tip" := "on"]> ∅)).


(** The kind of a transport failure, read off what the failure carries: the
    system error code for an unknown host, a refused connection, a timeout
    (or the timeout flag) and a reset connection; any other failure is a
    connectivity failure. *)
Definition failure_category (e : NetError) : category :=
  let coded c := match net_code e with
                 | Some c' => String.eqb c' c
                 | None => false
                 end in
  if coded "ENOTFOUND" then DnsFailure
  else if coded "ECONNREFUSED" then ConnectionRefused
  else if coded "ETIMEDOUT" || net_timeout e then TimedOut
  else if coded "ECONNRESET" then ConnectionReset
  else OtherConnectivity.

(** The same, where an aborted request (the code the HTTP client gives to
    its own timeouts) counts as a timeout. *)
Definition failure_category_retry (e : NetError) : category :=
  match failure_category e, net_code e with
  | OtherConnectivity, Some c =>
      if String.eqb c "ECONNABORTED" then TimedOut else OtherConnectivity
  | c, _ => c
  end.


(* ===================================================================== *)
(** * Part II.  Properties                                                *)
(* ===================================================================== *)

(** ** Known-answer tests for the runtime model *)

Example sha256_empty :
  hex_encode (SHA256.hash (utf8 "")) =
  "e3b0c44298fc1c149afbf4c8996fb92427ae41e4649b934ca495991b7852b855".
Proof. vm_compute. reflexivity. Qed.

Example sha256_abc :
  hex_encode (SHA256.hash (utf8 "abc")) =
  "ba7816bf8f01cfea414140de5dae2223b00361a396177a9cb410ff61f20015ad".
Proof. vm_compute. reflexivity. Qed.

Example sha256_two_blocks :
  hex_encode (SHA256.hash (utf8 "abcdbcdecdefdefgefghfghighijhijkijkljklmklmnlmnomnopnopq")) =
  "248d6a61d20638b8e5c026930c3e6039a33ce45964ff2167f6ecedd419db06c1".
Proof. vm_compute. reflexivity. Qed.

Example hmac_rfc4231_case2 :
  hex_encode (hmac_sha256 (utf8 "Jefe") (utf8 "what do ya want for nothing?")) =
  "5bdcc146bf60754e6a042426089575c75a003f089d2739839dec58b964ec3843".
Proof. vm_compute. reflexivity. Qed.

Example toString_samples :
  map Num.toString
    [Num.of_Z 1050; Num.of_Z 818; Num.of_Z (-42); Num.of_decimal false 105 (-1);
     Num.of_decimal false 1 (-1); Num.of_decimal false 1 21; Num.of_decimal false 1 23;
     Num.of_decimal false 123456789012345680000 0; Num.of_decimal false 1 (-6);
     Num.of_decimal false 1 (-7); Num.of_decimal false 5 (-324);
     Num.of_decimal false 17976931348623157 292; Num.of_decimal false 10049999999999999 (-14);
     Num.of_decimal true 15 (-1); Num.of_Z (2 ^ 53); Num.of_decimal false 123456 (-10);
     Num.of_decimal false 1 400; S754_zero true; Num.NaN]
  = ["1050"; "818"; "-42"; "10.5"; "0.1"; "1e+21"; "1e+23";
     "123456789012345680000"; "0.000001"; "1e-7"; "5e-324";
     "1.7976931348623157e+308"; "100.49999999999999"; "-1.5"; "9007199254740992";
     "0.0000123456"; "Infinity"; "0"; "NaN"].
Proof. vm_compute. reflexivity. Qed.

Example round_samples :
  map Num.round
    [Num.of_decimal false 105 (-1); Num.of_decimal false 25 (-1);
     Num.of_decimal true 25 (-1); Num.of_decimal true 4 (-1);
     Num.of_decimal false 4 (-1); Num.of_decimal false 5 (-1);
     Num.mul (Num.of_decimal false 1005 (-3)) (Num.of_Z 100); Num.NaN]
  = [Num.of_Z 11; Num.of_Z 3; Num.of_Z (-2); S754_zero true; S754_zero false;
     Num.of_Z 1; Num.of_Z 100; Num.NaN].
Proof. vm_compute. reflexivity. Qed.

Example parse_samples :
  map parseFloat
    [JStr "10.50"; JStr "  -3.25e2xyz"; JStr ".5"; JStr "5."; JStr "abc"; JStr "1e";
     JStr "-0"; JStr "Infinityx"; JStr "."; JNum (Num.of_Z 7); JStr "0.1"; JUndefined]
  = [Num.of_decimal false 105 (-1); Num.of_Z (-325); Num.of_decimal false 5 (-1);
     Num.of_Z 5; Num.NaN; Num.of_Z 1; S754_zero true; S754_infinity false; Num.NaN;
     Num.of_Z 7; S754_finite false 7205759403792794 (-56); Num.NaN]
  /\ map parseInt
    [JNum (Num.of_Z 1050); JStr "818"; JStr " 42px"; JStr "0x1F"; JStr "-0"; JStr "";
     JNum (Num.of_decimal false 1 21); JNum (Num.of_decimal false 5 (-7)); JStr "12.9"]
  = [Num.of_Z 1050; Num.of_Z 818; Num.of_Z 42; Num.of_Z 31; S754_zero true; Num.NaN;
     Num.of_Z 1; Num.of_Z 5; Num.of_Z 12].
Proof. vm_compute. split; reflexivity. Qed.

Example trim_samples :
  trim (string_of_codes [32; 9; 194; 160; 48; 49; 32; 50; 10; 226; 128; 169]) = "01 2"
  /\ trim "   " = "" /\ trim "01012345678" = "01012345678".
Proof. vm_compute. repeat split; reflexivity. Qed.

Example timestamp_sample :
  generateTransactionDateTime
    {| getFullYear := 2025; getMonth := 0; getDate := 7; getHours := 9;
       getMinutes := 5; getSeconds := 3; getMilliseconds := 45 |} = "25010709050304".
Proof. vm_compute. reflexivity. Qed.

Example sign_sample :
  generateSecureHash (JStr "25010709050304") (JStr "10001") (JStr "20002") (JStr "4a656665")
  = Return (toUpperCase (hex_encode (hmac_sha256 (utf8 "Jefe")
      (utf8 "DateTimeLocalTrxn=25010709050304&MerchantId=10001&TerminalId=20002")))).
Proof. vm_compute. reflexivity. Qed.

(** ** The signer ([src/utils/hash.js]) *)




(** ** The decoder of hexadecimal keys *)

(** On valid hexadecimal input the truncating decoder and strict decoding
    agree. *)
Lemma hex_pairs_strict (n : nat) :
  forall (k : string) (bytes : Buffer),
    (String.length k <= n)%nat -> hexDecode k = Some bytes -> hex_pairs k = bytes.
Proof.
  induction n as [|n IH]; intros k bytes Hlen Hdec.
  - destruct k; simpl in *; [congruence | lia].
  - destruct k as [|c1 [|c2 rest]]; simpl in *; try congruence.
    destruct (hex_value c1) as [h|]; [|discriminate].
    destruct (hex_value c2) as [l|]; [|discriminate].
    destruct (hexDecode rest) as [bs|] eqn:Hrest; [|discriminate].
    injection Hdec as <-. f_equal. apply IH; [lia | exact Hrest].
Qed.

Lemma hex_pairs_app (n : nat) :
  forall (k s : string) (bytes : Buffer),
    (String.length k <= n)%nat -> hexDecode k = Some bytes ->
    hex_pairs (k +:+ s) = bytes ++ hex_pairs s.
Proof.
  induction n as [|n IH]; intros k s bytes Hlen Hdec.
  - destruct k; simpl in *; [injection Hdec as <-; reflexivity | lia].
  - destruct k as [|c1 [|c2 rest]]; simpl in Hdec, Hlen.
    + injection Hdec as <-. reflexivity.
    + discriminate.
    + change (String c1 (String c2 rest) +:+ s) with (String c1 (String c2 (rest +:+ s))).
      cbn [hex_pairs].
      destruct (hex_value c1) as [h|]; [|discriminate].
      destruct (hex_value c2) as [l|]; [|discriminate].
      destruct (hexDecode rest) as [bs|] eqn:Hrest; [|discriminate].
      injection Hdec as <-. rewrite (IH rest s bs); [reflexivity | lia | exact Hrest].
Qed.

Lemma hex_value_upper (c : ascii) : hex_value (upper_char c) = hex_value c.
Proof. destruct c as [[] [] [] [] [] [] [] []]; vm_compute; reflexivity. Qed.

Lemma hex_pairs_upper (n : nat) :
  forall k : string,
    (String.length k <= n)%nat -> hex_pairs (toUpperCase k) = hex_pairs k.
Proof.
  induction n as [|n IH]; intros k Hlen.
  - destruct k; [reflexivity | simpl in Hlen; lia].
  - destruct k as [|c1 [|c2 rest]]; try reflexivity.
    cbn [toUpperCase hex_pairs]. rewrite !hex_value_upper.
    simpl in Hlen. rewrite (IH rest) by lia. reflexivity.
Qed.

(** *** Code units of strings of 7-bit characters *)

Lemma byte_code_range (c : ascii) : 0 <= byte_code c < 256.
Proof. unfold byte_code. pose proof (nat_ascii_bounded c). lia. Qed.

Lemma ascii_of_byte_code (c : ascii) : ascii_of_nat (Z.to_nat (byte_code c mod 256)) = c.
Proof.
  pose proof (byte_code_range c) as H. rewrite Z.mod_small by exact H.
  unfold byte_code. rewrite Nat2Z.id. apply ascii_nat_embedding.
Qed.

Lemma unit_chars_byte (c : ascii) : unit_chars (byte_code c) = [c].
Proof.
  pose proof (byte_code_range c) as H. unfold unit_chars, code_units.
  destruct (Z.ltb_spec (byte_code c) 65536) as [_|?]; [|lia].
  cbn [map]. now rewrite ascii_of_byte_code.
Qed.

Lemma low_bytes_cons (c : ascii) (rest : string) :
  byte_code c < 128 -> low_bytes (String c rest) = String c (low_bytes rest).
Proof.
  intros Hc. unfold low_bytes. cbn [String.length code_points]. unfold utf8_next.
  destruct (Z.ltb_spec (byte_code c) 128) as [_|?]; [|lia].
  cbn [flat_map]. rewrite unit_chars_byte. reflexivity.
Qed.

Lemma hex_value_7bit (c : ascii) (h : Z) : hex_value c = Some h -> byte_code c < 128.
Proof.
  destruct c as [[] [] [] [] [] [] [] []]; vm_compute; intros H;
    first [discriminate H | reflexivity].
Qed.

(** The low bytes of a string that opens with a valid hexadecimal key. *)
Lemma low_bytes_hex (n : nat) :
  forall (k s : string) (bytes : Buffer),
    (String.length k <= n)%nat -> hexDecode k = Some bytes ->
    low_bytes (k +:+ s) = k +:+ low_bytes s.
Proof.
  induction n as [|n IH]; intros k s bytes Hlen Hdec.
  - destruct k; [reflexivity | simpl in Hlen; lia].
  - destruct k as [|c1 [|c2 rest]]; simpl in Hdec, Hlen.
    + reflexivity.
    + discriminate.
    + destruct (hex_value c1) as [h|] eqn:H1; [|discriminate].
      destruct (hex_value c2) as [l|] eqn:H2; [|discriminate].
      destruct (hexDecode rest) as [bs|] eqn:Hrest; [|discriminate].
      change (String c1 (String c2 rest) +:+ s) with (String c1 (String c2 (rest +:+ s))).
      rewrite !low_bytes_cons by (eapply hex_value_7bit; eassumption).
      rewrite (IH rest s bs); [reflexivity | lia | exact Hrest].
Qed.

Lemma string_app_nil_r (s : string) : s +:+ "" = s.
Proof.
  induction s as [|c s IH]; [reflexivity|].
  change (String c (s +:+ "") = String c s). now rewrite IH.
Qed.

(** On valid hexadecimal input the decoder of Node.js and strict decoding
    agree. *)
Lemma Buffer_from_hex_strict (n : nat) :
  forall (k : string) (bytes : Buffer),
    (String.length k <= n)%nat -> hexDecode k = Some bytes -> Buffer_from_hex k = bytes.
Proof.
  intros k bytes Hlen Hdec. unfold Buffer_from_hex.
  rewrite <- (string_app_nil_r k) at 1.
  rewrite (low_bytes_hex n k "" bytes Hlen Hdec).
  change (low_bytes "") with "". rewrite string_app_nil_r.
  exact (hex_pairs_strict n k bytes Hlen Hdec).
Qed.

Lemma Buffer_from_hex_app (n : nat) :
  forall (k s : string) (bytes : Buffer),
    (String.length k <= n)%nat -> hexDecode k = Some bytes ->
    Buffer_from_hex (k +:+ s) = bytes ++ Buffer_from_hex s.
Proof.
  intros k s bytes Hlen Hdec. unfold Buffer_from_hex.
  rewrite (low_bytes_hex n k s bytes Hlen Hdec).
  exact (hex_pairs_app n k (low_bytes s) bytes Hlen Hdec).
Qed.

(** *** Code units and the case of letters *)

Lemma upper_char_8bit (c : ascii) : 128 <= byte_code c -> upper_char c = c.
Proof.
  unfold byte_code, upper_char. intros H. cbv zeta.
  destruct (Nat.leb_spec (nat_of_ascii c) 122) as [?|_]; [lia|].
  now rewrite andb_false_r.
Qed.

Lemma upper_char_7bit (c : ascii) : byte_code c < 128 -> byte_code (upper_char c) < 128.
Proof.
  unfold byte_code, upper_char. intros H. cbv zeta.
  destruct (Nat.leb 97 (nat_of_ascii c) && Nat.leb (nat_of_ascii c) 122); [|exact H].
  rewrite nat_ascii_embedding; lia.
Qed.

Lemma upper_char_idempotent (c : ascii) : upper_char (upper_char c) = upper_char c.
Proof. destruct c as [[] [] [] [] [] [] [] []]; vm_compute; reflexivity. Qed.

Lemma continuation_upper (n : nat) :
  forall (acc : Z) (s : string),
    continuation n acc (toUpperCase s)
    = match continuation n acc s with
      | Some (a, r) => Some (a, toUpperCase r)
      | None => None
      end.
Proof.
  induction n as [|n IH]; intros acc s; [reflexivity|].
  destruct s as [|c rest]; [reflexivity|].
  cbn [toUpperCase continuation]. unfold is_continuation.
  destruct (Z.leb_spec 128 (byte_code c)) as [Hc|Hc].
  - rewrite (upper_char_8bit c Hc).
    destruct (Z.leb_spec 128 (byte_code c)) as [_|?]; [|lia].
    destruct (byte_code c <? 192); cbn [andb]; [apply IH | reflexivity].
  - pose proof (upper_char_7bit c Hc).
    destruct (Z.leb_spec 128 (byte_code (upper_char c))) as [?|_]; [lia | reflexivity].
Qed.

Lemma utf8_next_upper (c : ascii) (rest : string) :
  exists cp',
    utf8_next (upper_char c) (toUpperCase rest) = (cp', toUpperCase (snd (utf8_next c rest)))
    /\ map upper_char (unit_chars cp') = map upper_char (unit_chars (fst (utf8_next c rest))).
Proof.
  unfold utf8_next. cbv zeta.
  destruct (Z.ltb_spec (byte_code c) 128) as [Hc|Hc].
  - pose proof (upper_char_7bit c Hc) as Hu.
    destruct (Z.ltb_spec (byte_code (upper_char c)) 128) as [_|?]; [|lia].
    eexists. split; [reflexivity|]. cbn [fst].
    rewrite !unit_chars_byte. cbn [map]. now rewrite upper_char_idempotent.
  - rewrite (upper_char_8bit c Hc).
    destruct (Z.ltb_spec (byte_code c) 128) as [?|_]; [lia|].
    rewrite !continuation_upper.
    repeat match goal with
           | |- context [if ?b then _ else _] => destruct b
           end;
      try (eexists; split; reflexivity);
      match goal with
      | |- context [continuation ?n ?a rest] =>
          destruct (continuation n a rest) as [[a' r']|]
      end; eexists; split; reflexivity.
Qed.

Lemma code_points_upper (fuel : nat) :
  forall s : string,
    map upper_char (flat_map unit_chars (code_points fuel (toUpperCase s)))
    = map upper_char (flat_map unit_chars (code_points fuel s)).
Proof.
  induction fuel as [|fuel IH]; intros s; [reflexivity|].
  destruct s as [|c rest]; [reflexivity|].
  cbn [toUpperCase code_points].
  destruct (utf8_next_upper c rest) as (cp' & -> & Hcp).
  destruct (utf8_next c rest) as [cp r]. cbn [fst snd] in *.
  cbn [flat_map]. rewrite !map_app, Hcp, IH. reflexivity.
Qed.

Lemma toUpperCase_length (s : string) : String.length (toUpperCase s) = String.length s.
Proof. induction s as [|c s IH]; [reflexivity|]. cbn. now rewrite IH. Qed.

Lemma toUpperCase_of_list (l : list ascii) :
  toUpperCase (String.string_of_list_ascii l) = String.string_of_list_ascii (map upper_char l).
Proof. induction l as [|c l IH]; [reflexivity|]. cbn. now rewrite IH. Qed.

(** The decoder of Node.js does not see the case of the letters of a key. *)
Lemma Buffer_from_hex_upper (n : nat) :
  forall k : string,
    (String.length k <= n)%nat -> Buffer_from_hex (toUpperCase k) = Buffer_from_hex k.
Proof.
  intros k _. unfold Buffer_from_hex.
  rewrite <- (hex_pairs_upper _ (low_bytes (toUpperCase k)) (le_n _)).
  rewrite <- (hex_pairs_upper _ (low_bytes k) (le_n _)).
  f_equal. unfold low_bytes.
  now rewrite !toUpperCase_of_list, toUpperCase_length, code_points_upper.
Qed.

(** Known answers: a letter-like character outside the 7-bit range is read
    through its low byte (U+0134, U+0161 as the digits 4, a). *)
Example Buffer_from_hex_samples :
  Buffer_from_hex "4a656665" = utf8 "Jefe"
  /\ Buffer_from_hex (string_of_codes [196; 180; 197; 161] +:+ "656665") = utf8 "Jefe"
  /\ Buffer_from_hex "4a6z6665" = utf8 "J"
  /\ Buffer_from_hex "4a656" = utf8 "Je"
  /\ Buffer_from_hex (string_of_codes [240; 159; 152; 128; 52; 97]) = [].
Proof. repeat split; vm_compute; reflexivity. Qed.

Lemma upper_hex_digit (b : byte) :
  upper_char (hex_digit_lower (byte_to_Z b / 16)) = hex_digit_upper (byte_to_Z b / 16)
  /\ upper_char (hex_digit_lower (byte_to_Z b mod 16)) = hex_digit_upper (byte_to_Z b mod 16).
Proof. destruct b; vm_compute; split; reflexivity. Qed.

Lemma toUpperCase_hex_encode (buf : Buffer) :
  toUpperCase (hex_encode buf) = hex_encode_upper buf.
Proof.
  induction buf as [|b rest IH]; simpl; [reflexivity|].
  destruct (upper_hex_digit b) as [-> ->]. now rewrite IH.
Qed.

(** C2. For every timestamp token, merchant id, terminal id and key that is
    valid hexadecimal (decoding to [bytes]), [generateSecureHash] returns the
    uppercase hexadecimal encoding of HMAC-SHA256, keyed with [bytes], of
    the string "DateTimeLocalTrxn=<t>&MerchantId=<m>&TerminalId=<term>". *)
Theorem generateSecureHash_is_sign (t m term k : string) (bytes : Buffer) :
  hexDecode k = Some bytes ->
  generateSecureHash (JStr t) (JStr m) (JStr term) (JStr k) = Return (sign t m term bytes).
Proof.
  intros Hk. unfold generateSecureHash, sign, dataString. simpl.
  rewrite (Buffer_from_hex_strict (String.length k) k bytes (le_n _) Hk).
  now rewrite toUpperCase_hex_encode.
Qed.

Lemma generateSecureHash_is_sign_witness :
  hexDecode "4a656665" = Some (utf8 "Jefe")
  /\ generateSecureHash (JStr "25010709050304") (JStr "10001") (JStr "20002") (JStr "4a656665")
     = Return (sign "25010709050304" "10001" "20002" (utf8 "Jefe")).
Proof.
  split; [reflexivity|].
  apply (generateSecureHash_is_sign "25010709050304" "10001" "20002" "4a656665").
  reflexivity.
Defined.

(** *** The length of digests *)

Lemma compress_length (h block : list Z) :
  length h = 8%nat -> length (SHA256.compress h block) = 8%nat.
Proof.
  intros H. unfold SHA256.compress. cbv zeta.
  rewrite length_zip_with. unfold SHA256.regs_list. simpl. lia.
Qed.

Lemma digest_words_length (msg : list Z) : length (SHA256.digest_words msg) = 8%nat.
Proof.
  unfold SHA256.digest_words. cbv zeta.
  generalize (SHA256.chunks (length (SHA256.pad msg)) 64 (SHA256.pad msg)).
  assert (H0 : length SHA256.H0 = 8%nat) by reflexivity.
  revert H0. generalize SHA256.H0.
  intros h Hh blocks. revert h Hh.
  induction blocks as [|b blocks IH]; intros h Hh; [exact Hh|].
  simpl. apply IH. now apply compress_length.
Qed.

Lemma be_words_length (ws : list Z) :
  length (concat (map (SHA256.be_bytes 4) ws)) = (4 * length ws)%nat.
Proof.
  induction ws as [|x ws IH]; [reflexivity|].
  cbn [map concat]. rewrite length_app, IH. cbn [SHA256.be_bytes length]. lia.
Qed.

(** A SHA-256 digest has 32 bytes, and so has an HMAC-SHA256 tag. *)
Lemma hash_length (msg : Buffer) : length (SHA256.hash msg) = 32%nat.
Proof.
  unfold SHA256.hash. rewrite length_map, be_words_length, digest_words_length. reflexivity.
Qed.

Lemma hmac_sha256_length (key msg : Buffer) : length (hmac_sha256 key msg) = 32%nat.
Proof. unfold hmac_sha256. cbv zeta. apply hash_length. Qed.




(** *** Finitely many signatures *)


















(** C4, as stated, fails: a key that is not valid hexadecimal is not
    rejected; it is truncated (here to the empty key) and a signature is
    returned. *)
Lemma invalid_hex_key_is_signed :
  hexDecode "zz" = None
  /\ generateSecureHash (JStr "25010709050304") (JStr "10001") (JStr "20002") (JStr "zz")
     = Return (sign "25010709050304" "10001" "20002" []).
Proof. split; vm_compute; reflexivity. Qed.

(** C4, amended. [generateSecureHash] never fails on a key that is a
    string, valid hexadecimal or not: it returns the signature computed with
    the bytes that [Buffer.from(key, 'hex')] yields. It fails on a key that
    is [undefined], [null], a boolean or a number, with an error that
    describes the value received. *)
Theorem string_key_is_never_rejected :
  (forall (t m term : jsval) (k : string),
      generateSecureHash t m term (JStr k)
      = Return (hex_encode_upper
                  (hmac_sha256 (Buffer_from_hex k) (utf8 (dataString t m term)))))
  /\ (forall t m term key : jsval,
        key = JUndefined \/ key = JNull \/ (exists b, key = JBool b)
        \/ (exists x, key = JNum x) ->
        generateSecureHash t m term key
        = Throw (Error ("Failed to generate secure hash: The first argument must be of type string or an instance of Buffer, ArrayBuffer, or Array or an Array-like Object. Received "
                        +:+ received key))).
Proof.
  split.
  - intros t m term k. unfold generateSecureHash. cbn [Buffer_from].
    now rewrite toUpperCase_hex_encode.
  - intros t m term key [-> | [-> | [[b ->] | [x ->]]]]; reflexivity.
Qed.

(** ** The gateway client ([src/services/upgService.js]): validation *)

(** Membership in a concrete list of field names, by computation. *)
Ltac field_listed := apply (bool_decide_unpack _); vm_compute; exact I.

Lemma validate_first_falsy (fields : list string) (pd : gmap string jsval) :
  validate fields pd =
  match first_falsy fields pd with
  | Some field => Throw (Error ("Missing required field: " +:+ field))
  | None => Return tt
  end.
Proof.
  induction fields as [|f rest IH]; simpl; [reflexivity|].
  destruct (truthy (get pd f)); simpl; [exact IH | reflexivity].
Qed.

Lemma first_falsy_Some (fields : list string) (pd : gmap string jsval) (field : string) :
  first_falsy fields pd = Some field ->
  field ∈ fields /\ truthy (get pd field) = false.
Proof.
  induction fields as [|f rest IH]; simpl; [discriminate|].
  destruct (truthy (get pd f)) eqn:Hf.
  - intros H. destruct (IH H) as [Hin Hfalsy]. split; [now right | exact Hfalsy].
  - intros [= <-]. split; [now left | exact Hf].
Qed.

Lemma first_falsy_exists (fields : list string) (pd : gmap string jsval) (field : string) :
  field ∈ fields -> truthy (get pd field) = false ->
  exists missing, first_falsy fields pd = Some missing.
Proof.
  induction fields as [|f rest IH]; intros Hin Hfalsy.
  - inversion Hin.
  - simpl. destruct (truthy (get pd f)) eqn:Hf; [|eauto].
    apply IH; [|exact Hfalsy].
    apply elem_of_cons in Hin as [-> | Hin]; [congruence | exact Hin].
Qed.

Lemma first_falsy_None (fields : list string) (pd : gmap string jsval) :
  (forall f, f ∈ fields -> truthy (get pd f) = true) -> first_falsy fields pd = None.
Proof.
  induction fields as [|f rest IH]; intros Hall; simpl; [reflexivity|].
  rewrite (Hall f) by now left. apply IH. intros g Hg. apply Hall. now right.
Qed.

Lemma first_falsy_ext (fields : list string) (pd pd' : gmap string jsval) :
  (forall f, f ∈ fields -> truthy (get pd f) = truthy (get pd' f)) ->
  first_falsy fields pd = first_falsy fields pd'.
Proof.
  induction fields as [|f rest IH]; intros Hall; simpl; [reflexivity|].
  rewrite <- (Hall f) by now left.
  destruct (truthy (get pd f)); [|reflexivity].
  apply IH. intros g Hg. apply Hall. now right.
Qed.

Lemma prepare_missing (w : World) (pd : gmap string jsval) (field : string) :
  first_falsy requiredFields pd = Some field ->
  prepare w pd = Throw (Error ("Missing required field: " +:+ field)).
Proof. intros H. unfold prepare. now rewrite validate_first_falsy, H. Qed.

(** What each revision does when the preparation of the request fails:
    the error goes through the [catch] block and nothing is sent. *)
Lemma requestToPay_prepare_fails (w : World) (pd : gmap string jsval) (e : jserr) :
  prepare w pd = Throw e ->
  run (requestToPay w pd) = (Throw (on_error e), [])
  /\ run (requestToPay_retry w pd) = (Throw (on_error_retry w e), [])
  /\ run (requestToPay_basic w pd) = (Throw (on_error_basic e), []).
Proof.
  intros H.
  unfold run, requestToPay, requestToPay_retry, requestToPay_basic, try_catch, bind, lift, throw.
  now rewrite H.
Qed.

(** C5. When any of the six required fields is absent, [requestToPay]
    fails with the validation error naming the first required field, in
    the order of the check, that is missing or falsy - the absent field
    itself when the other required fields are supplied - and the trace of
    effects is empty: no outbound call was attempted. The three revisions
    of the client agree on this. *)
Theorem missing_required_field_rejected
    (w : World) (paymentData : gmap string jsval) (field : string) :
  field ∈ requiredFields ->
  paymentData !! field = None ->
  exists missing,
    first_falsy requiredFields paymentData = Some missing
    /\ missing ∈ requiredFields
    /\ truthy (get paymentData missing) = false
    /\ run (requestToPay w paymentData) = (Throw (missing_field_error missing), [])
    /\ run (requestToPay_retry w paymentData) = (Throw (missing_field_error missing), [])
    /\ run (requestToPay_basic w paymentData) = (Throw (missing_field_error missing), [])
    /\ ((forall f, f ∈ requiredFields -> f ≠ field -> truthy (get paymentData f) = true) ->
        missing = field).
Proof.
  intros Hin Habsent.
  assert (Hfalsy : truthy (get paymentData field) = false).
  { unfold get. now rewrite Habsent. }
  destruct (first_falsy_exists _ _ _ Hin Hfalsy) as [missing Hmissing].
  destruct (first_falsy_Some _ _ _ Hmissing) as [Hmin Hmfalsy].
  destruct (requestToPay_prepare_fails w paymentData _ (prepare_missing w _ _ Hmissing))
    as (H1 & H2 & H3).
  exists missing. repeat split; try assumption.
  intros Hothers. destruct (decide (missing = field)) as [|Hne]; [assumption|].
  rewrite (Hothers missing Hmin Hne) in Hmfalsy. discriminate.
Qed.

Lemma missing_required_field_rejected_witness :
  run (requestToPay (sample_world (Responded 200 "{}")) (delete "currency" sample_paymentData))
  = (Throw (Error "Request setup error: Missing required field: currency"), []).
Proof.
  destruct (missing_required_field_rejected (sample_world (Responded 200 "{}"))
              (delete "currency" sample_paymentData) "currency")
    as (missing & _ & _ & _ & Hrun & _ & _ & Honly).
  - field_listed.
  - vm_compute. reflexivity.
  - rewrite Hrun, Honly; [reflexivity|].
    intros f Hf Hne. unfold requiredFields in Hf.
    repeat (apply elem_of_cons in Hf as [-> | Hf]; [try (vm_compute; reflexivity); congruence|]).
    inversion Hf.
Defined.

(** C10. A required field that is present with a falsy value (the number
    0, the empty string, ...) is rejected exactly as if it were absent:
    removing the field changes neither the result nor the trace, and the
    result is the "Missing required field" validation error. *)
Theorem falsy_required_field_as_absent
    (w : World) (paymentData : gmap string jsval) (field : string) (v : jsval) :
  field ∈ requiredFields ->
  paymentData !! field = Some v ->
  truthy v = false ->
  run (requestToPay w paymentData) = run (requestToPay w (delete field paymentData))
  /\ exists missing,
       missing ∈ requiredFields
       /\ run (requestToPay w paymentData) = (Throw (missing_field_error missing), []).
Proof.
  intros Hin Hpresent Hv.
  assert (Hfalsy : truthy (get paymentData field) = false).
  { unfold get. now rewrite Hpresent. }
  assert (Hext : first_falsy requiredFields (delete field paymentData)
                 = first_falsy requiredFields paymentData).
  { apply first_falsy_ext. intros f _. unfold get.
    destruct (decide (f = field)) as [->|Hne].
    - now rewrite lookup_delete_eq, Hpresent.
    - now rewrite lookup_delete_ne by congruence. }
  destruct (first_falsy_exists _ _ _ Hin Hfalsy) as [missing Hmissing].
  destruct (first_falsy_Some _ _ _ Hmissing) as [Hmin _].
  destruct (requestToPay_prepare_fails w paymentData _ (prepare_missing w _ _ Hmissing))
    as (H1 & _).
  rewrite <- Hext in Hmissing.
  destruct (requestToPay_prepare_fails w _ _ (prepare_missing w _ _ Hmissing)) as (H2 & _).
  split; [now rewrite H1, H2|].
  exists missing. split; assumption.
Qed.

Lemma falsy_required_field_as_absent_witness :
  run (requestToPay (sample_world (Responded 200 "{}"))
         (<["amountTrxn" := JNum (Num.of_Z 0)]> sample_paymentData))
  = run (requestToPay (sample_world (Responded 200 "{}"))
           (delete "amountTrxn" (<["amountTrxn" := JNum (Num.of_Z 0)]> sample_paymentData))).
Proof.
  apply (falsy_required_field_as_absent (sample_world (Responded 200 "{}"))
           (<["amountTrxn" := JNum (Num.of_Z 0)]> sample_paymentData)
           "amountTrxn" (JNum (Num.of_Z 0))).
  - field_listed.
  - vm_compute. reflexivity.
  - vm_compute. reflexivity.
Defined.

(** ** The gateway client: the outbound call *)

Lemma prepare_succeeds (w : World) (pd : gmap string jsval) (k : string) :
  (forall f, f ∈ requiredFields -> truthy (get pd f) = true) ->
  get pd "merchantSecretKey" = JStr k ->
  exists payload, prepare w pd = Return payload.
Proof.
  intros Hall Hkey. unfold prepare.
  rewrite validate_first_falsy, (first_falsy_None _ _ Hall).
  unfold generateSecureHash. rewrite Hkey. simpl. eauto.
Qed.

(** The current revision, once the request is prepared: one call, whose
    outcome is settled with "any status below 500 is a response". *)
Lemma requestToPay_prepared (w : World) (pd payload : gmap string jsval) :
  prepare w pd = Return payload ->
  run (requestToPay w pd) =
  (match settle (fun status => status <? 500) (upstream w 0) with
   | Return r => Return (snd r)
   | Throw e => Throw (on_error e)
   end, [Post (target w) payload 45000]).
Proof.
  intros H. unfold run, requestToPay, try_catch, bind, lift, axios_post, ret, throw.
  rewrite H. simpl.
  destruct (settle _ (upstream w 0)); reflexivity.
Qed.

(** C7. Whenever the upstream answers the call with a status below 500,
    [requestToPay] returns the body of that answer as it is, whatever the
    body says; the call is the only effect. (The request must have been
    sendable: required fields supplied, key a string.) *)
Theorem response_below_500_is_returned
    (w : World) (paymentData : gmap string jsval) (k : string) (status : Z) (data : Data) :
  (forall f, f ∈ requiredFields -> truthy (get paymentData f) = true) ->
  get paymentData "merchantSecretKey" = JStr k ->
  upstream w 0 = Responded status data ->
  status < 500 ->
  exists payload,
    prepare w paymentData = Return payload
    /\ run (requestToPay w paymentData) = (Return data, [Post (target w) payload 45000]).
Proof.
  intros Hall Hkey Hup Hstatus.
  destruct (prepare_succeeds w paymentData k Hall Hkey) as [payload Hprep].
  exists payload. split; [exact Hprep|].
  rewrite (requestToPay_prepared w _ _ Hprep), Hup. simpl.
  now rewrite (proj2 (Z.ltb_lt status 500) Hstatus).
Qed.

Lemma sample_paymentData_complete :
  forall f, f ∈ requiredFields -> truthy (get sample_paymentData f) = true.
Proof.
  intros f Hf. unfold requiredFields in Hf.
  repeat (apply elem_of_cons in Hf as [-> | Hf]; [vm_compute; reflexivity|]).
  inversion Hf.
Qed.

Lemma response_below_500_is_returned_witness :
  fst (run (requestToPay (sample_world (Responded 402 "[false]")) sample_paymentData))
  = Return "[false]".
Proof.
  destruct (response_below_500_is_returned
              (sample_world (Responded 402 "[false]"))
              sample_paymentData "4a656665" 402 "[false]")
    as (payload & _ & Hrun).
  - exact sample_paymentData_complete.
  - vm_compute. reflexivity.
  - reflexivity.
  - lia.
  - now rewrite Hrun.
Defined.

(** The retrying revision, once the request is prepared: the loop unrolled
    over its three attempts. *)
Lemma requestToPay_retry_prepared (w : World) (pd payload : gmap string jsval) :
  prepare w pd = Return payload ->
  let P := Post (target w) payload 90000 in
  let try_post i := settle (fun status => status <? 500) (upstream w i) in
  run (requestToPay_retry w pd) =
  match try_post 0%nat with
  | Return r => (Return (snd r), [P])
  | Throw e0 =>
      if retryable e0 then
        match try_post 1%nat with
        | Return r => (Return (snd r), [P; Sleep 3000; P])
        | Throw e1 =>
            if retryable e1 then
              match try_post 2%nat with
              | Return r => (Return (snd r), [P; Sleep 3000; P; Sleep 6000; P])
              | Throw e2 =>
                  (Throw (on_error_retry w e2), [P; Sleep 3000; P; Sleep 6000; P])
              end
            else (Throw (on_error_retry w e1), [P; Sleep 3000; P])
        end
      else (Throw (on_error_retry w e0), [P])
  end.
Proof.
  intros H P try_post. subst P try_post.
  unfold run, requestToPay_retry, try_catch, bind, lift. rewrite H.
  change (Z.to_nat maxRetries) with 3%nat.
  cbv -[settle retryable on_error_retry target upstream].
  destruct (settle _ (upstream w 0)) as [r0|e0]; [reflexivity|].
  destruct (retryable e0); [|reflexivity].
  cbv -[settle retryable on_error_retry target upstream].
  destruct (settle _ (upstream w 1)) as [r1|e1]; [reflexivity|].
  destruct (retryable e1); [|reflexivity].
  cbv -[settle retryable on_error_retry target upstream].
  destruct (settle _ (upstream w 2)) as [r2|e2]; reflexivity.
Qed.

(** *** The message of a response error never mentions a timeout *)

Lemma mentions_app (c : ascii) (a b : string) :
  mentions c (a +:+ b) = mentions c a || mentions c b.
Proof.
  induction a as [|d a IH]; [reflexivity|].
  change (String d a +:+ b) with (String d (a +:+ b)).
  cbn [mentions]. rewrite IH. now rewrite orb_assoc.
Qed.

Lemma prefix_mentions (c : ascii) (p s : string) :
  String.prefix p s = true -> mentions c p = true -> mentions c s = true.
Proof.
  revert s. induction p as [|d p IH]; intros s Hp Hc; [discriminate Hc|].
  destruct s as [|d' s]; [discriminate Hp|]. cbn in Hp.
  destruct (Ascii.ascii_dec d d') as [<-|]; [|discriminate].
  cbn [mentions] in *. apply orb_true_iff in Hc as [Hc|Hc].
  - now rewrite Hc.
  - rewrite (IH s Hp Hc). apply orb_true_r.
Qed.

Lemma includes_mentions (c : ascii) (p s : string) :
  includes p s = true -> mentions c p = true -> mentions c s = true.
Proof.
  intros Hi Hc. induction s as [|d s IH].
  - cbn [includes] in Hi. destruct (String.prefix p "") eqn:Hp; [|discriminate Hi].
    exact (prefix_mentions c p "" Hp Hc).
  - cbn [includes] in Hi. destruct (String.prefix p (String d s)) eqn:Hp.
    + exact (prefix_mentions c p _ Hp Hc).
    + cbn [mentions]. rewrite (IH Hi). apply orb_true_r.
Qed.

Lemma digit_is_not_m (z : Z) :
  Ascii.eqb "m" (ascii_of_nat (Z.to_nat (48 + z mod 10))) = false.
Proof.
  pose proof (Z.mod_pos_bound z 10 eq_refl) as Hr.
  assert (Hcases : z mod 10 = 0 \/ z mod 10 = 1 \/ z mod 10 = 2 \/ z mod 10 = 3
                   \/ z mod 10 = 4 \/ z mod 10 = 5 \/ z mod 10 = 6 \/ z mod 10 = 7
                   \/ z mod 10 = 8 \/ z mod 10 = 9) by lia.
  repeat (destruct Hcases as [-> | Hcases]; [reflexivity|]).
  now rewrite Hcases.
Qed.

Lemma digits_aux_no_m (fuel : nat) (z : Z) (acc : string) :
  mentions "m" acc = false -> mentions "m" (Num.digits_aux fuel z acc) = false.
Proof.
  revert z acc. induction fuel as [|fuel IH]; intros z acc Hacc; [exact Hacc|].
  cbn [Num.digits_aux].
  assert (Hacc' : mentions "m"
            (String (ascii_of_nat (Z.to_nat (48 + z mod 10))) acc) = false).
  { cbn [mentions]. now rewrite digit_is_not_m, Hacc. }
  destruct (z / 10 =? 0); [exact Hacc' | now apply IH].
Qed.

Lemma digits_no_m (z : Z) : mentions "m" (Num.digits z) = false.
Proof. unfold Num.digits. now apply digits_aux_no_m. Qed.

Lemma zeros_no_m (n : nat) : mentions "m" (Num.zeros n) = false.
Proof. induction n as [|n IH]; [reflexivity | exact IH]. Qed.

Lemma str_take_no_m (n : nat) (s : string) :
  mentions "m" s = false -> mentions "m" (Num.str_take n s) = false.
Proof.
  revert s. induction n as [|n IH]; intros [|d s] H; try reflexivity.
  cbn [mentions Num.str_take] in *. apply orb_false_iff in H as [-> H]. now apply IH.
Qed.

Lemma str_drop_no_m (n : nat) (s : string) :
  mentions "m" s = false -> mentions "m" (Num.str_drop n s) = false.
Proof.
  revert s. induction n as [|n IH]; intros [|d s] H; try exact H.
  cbn [mentions Num.str_drop] in *. apply orb_false_iff in H as [_ H]. now apply IH.
Qed.

Lemma format_positive_no_m (s n : Z) : mentions "m" (Num.format_positive s n) = false.
Proof.
  unfold Num.format_positive.
  pose proof (digits_no_m s) as Hs.
  repeat match goal with
         | |- context [if ?b then _ else _] => destruct b
         end;
    rewrite ?mentions_app, ?Hs, ?zeros_no_m, ?digits_no_m,
            ?(str_take_no_m _ _ Hs), ?(str_drop_no_m _ _ Hs); reflexivity.
Qed.

Lemma toString_no_m (x : Num.number) : mentions "m" (Num.toString x) = false.
Proof.
  destruct x as [sg|sg| |sg m e]; try reflexivity; [destruct sg; reflexivity|].
  unfold Num.toString.
  destruct (Num.shortest _ _ _ _ _) as [s n'].
  rewrite mentions_app, format_positive_no_m. now destruct sg.
Qed.

(** An error that carries a response (axios raises it for a status that
    [validateStatus] refuses) is never eligible for a retry. *)
Lemma response_error_not_retryable (validateStatus : Z -> bool) (status : Z) (data : Data)
    (e : jserr) :
  settle validateStatus (Responded status data) = Throw e -> retryable e = false.
Proof.
  unfold settle. destruct (validateStatus status); [discriminate|].
  intros [= <-]. unfold retryable, code_is. cbn [code message].
  assert (Hmsg : includes "timeout"
                   ("Request failed with status code " +:+ int_toString status) = false).
  { destruct (includes _ _) eqn:Hi; [|reflexivity].
    apply (includes_mentions "m") in Hi; [|reflexivity].
    rewrite mentions_app in Hi. unfold int_toString in Hi.
    rewrite toString_no_m in Hi. discriminate. }
  rewrite Hmsg.
  destruct (status / 100 =? 4); [reflexivity|].
  destruct (status / 100 =? 5); reflexivity.
Qed.

Lemma code_is_eq (e : jserr) (c : string) : code_is e c = true -> code e = Some c.
Proof.
  unfold code_is. destruct (code e) as [c'|]; [|discriminate].
  intros H. apply String.eqb_eq in H. now subst.
Qed.

Lemma retryable_failure (validateStatus : Z -> bool) (o : Outcome) (e : jserr) :
  settle validateStatus o = Throw e -> retryable e = true ->
  exists ne, o = Failed ne /\ retry_class ne.
Proof.
  intros Hs Hr. destruct o as [status data|ne].
  - rewrite (response_error_not_retryable _ _ _ _ Hs) in Hr. discriminate.
  - exists ne. split; [reflexivity|].
    cbn in Hs. injection Hs as <-. unfold retryable in Hr.
    repeat (apply orb_true_iff in Hr as [Hr|Hr]); unfold retry_class.
    + left. exact (code_is_eq _ _ Hr).
    + right; left. exact (code_is_eq _ _ Hr).
    + right; right; left. exact (code_is_eq _ _ Hr).
    + right; right; right. exact Hr.
Qed.

Lemma requestToPay_basic_prepared (w : World) (pd payload : gmap string jsval) :
  prepare w pd = Return payload ->
  run (requestToPay_basic w pd) =
  (match settle validateStatus_default (upstream w 0) with
   | Return r => Return (snd r)
   | Throw e => Throw (on_error_basic e)
   end, [Post (target w) payload 30000]).
Proof.
  intros H. unfold run, requestToPay_basic, try_catch, bind, lift, axios_post, ret, throw.
  rewrite H. simpl.
  destruct (settle _ (upstream w 0)); reflexivity.
Qed.

(** ** The gateway client: retries *)

(** C6. The retrying revision makes at most three attempts; the trace of
    its effects is one of: nothing, one call, two calls separated by a wait
    of 3000 ms, three calls separated by waits of 3000 ms and then 6000 ms;
    an attempt is followed by another only if it failed without a response
    and with an error of the retry class (aborted, timed out, connection
    reset, or a timeout message); an attempt that received a response, of
    whatever status, is the last one. *)
Theorem bounded_retries_with_backoff (w : World) (paymentData : gmap string jsval) :
  let tr := snd (run (requestToPay_retry w paymentData)) in
  (post_count tr <= 3)%nat
  /\ (tr = []
      \/ exists payload,
           let P := Post (target w) payload 90000 in
           tr = [P] \/ tr = [P; Sleep 3000; P] \/ tr = [P; Sleep 3000; P; Sleep 6000; P])
  /\ (forall i, (S i < post_count tr)%nat ->
        exists e, upstream w i = Failed e /\ retry_class e)
  /\ (forall i status data,
        (i < post_count tr)%nat -> upstream w i = Responded status data ->
        post_count tr = S i).
Proof.
  destruct (prepare w paymentData) as [payload|e] eqn:Hprep.
  2:{ destruct (requestToPay_prepare_fails w _ _ Hprep) as (_ & -> & _). cbn.
      repeat split; [lia | now left | intros; lia | intros; lia]. }
  rewrite (requestToPay_retry_prepared w _ _ Hprep).
  destruct (settle _ (upstream w 0)) as [r0|e0] eqn:H0.
  { cbn. repeat split; [lia | right; exists payload; now left | intros; lia |].
    intros i status data Hi _. lia. }
  destruct (retryable e0) eqn:R0.
  2:{ cbn. repeat split; [lia | right; exists payload; now left | intros; lia |].
      intros i status data Hi _. lia. }
  destruct (retryable_failure _ _ _ H0 R0) as (ne0 & Hup0 & Hclass0).
  destruct (settle _ (upstream w 1)) as [r1|e1] eqn:H1.
  { cbn. repeat split; [lia | right; exists payload; right; now left | |].
    - intros i Hi. assert (i = 0%nat) as -> by lia. eauto.
    - intros i status data Hi Hresp.
      destruct i as [|[|i]]; [congruence | reflexivity | lia]. }
  destruct (retryable e1) eqn:R1.
  2:{ cbn. repeat split; [lia | right; exists payload; right; now left | |].
      - intros i Hi. assert (i = 0%nat) as -> by lia. eauto.
      - intros i status data Hi Hresp.
        destruct i as [|[|i]]; [congruence | reflexivity | lia]. }
  destruct (retryable_failure _ _ _ H1 R1) as (ne1 & Hup1 & Hclass1).
  assert (Hthree : forall r : result Data,
    let tr := snd (r, [Post (target w) payload 90000; Sleep 3000;
                       Post (target w) payload 90000; Sleep 6000;
                       Post (target w) payload 90000]) in
    (post_count tr <= 3)%nat
    /\ (tr = []
        \/ exists payload0,
             let P := Post (target w) payload0 90000 in
             tr = [P] \/ tr = [P; Sleep 3000; P] \/ tr = [P; Sleep 3000; P; Sleep 6000; P])
    /\ (forall i, (S i < post_count tr)%nat ->
          exists e, upstream w i = Failed e /\ retry_class e)
    /\ (forall i status data,
          (i < post_count tr)%nat -> upstream w i = Responded status data ->
          post_count tr = S i)).
  { intros r. cbn. repeat split; [lia | right; exists payload; right; now right | |].
    - intros i Hi. destruct i as [|[|i]]; [eauto | eauto | lia].
    - intros i status data Hi Hresp.
      destruct i as [|[|[|i]]]; [congruence | congruence | reflexivity | lia]. }
  destruct (settle _ (upstream w 2)) as [r2|e2]; apply Hthree.
Qed.

(** Two timeouts, then an answer: the caller receives the answer after
    waits of 3000 ms and 6000 ms. *)
Example retry_after_two_timeouts :
  let r := run (requestToPay_retry world_two_timeouts sample_paymentData) in
  fst r = Return "{}" /\ post_count (snd r) = 3%nat /\ waits (snd r) = [3000; 6000].
Proof. vm_compute. repeat split; reflexivity. Qed.

(** A failure to resolve the host is not retried and is reported as such. *)
Example dns_failure_is_not_retried :
  let r := run (requestToPay_retry (sample_world (Failed dns_failure)) sample_paymentData) in
  post_count (snd r) = 1%nat
  /\ (exists msg, fst r = Throw (Error msg)
                  /\ category_of_message msg = Some DnsFailure).
Proof. split; [vm_compute; reflexivity|]. eexists. split; vm_compute; reflexivity. Qed.

(** The first revision, unlike the later two, refuses a 404 answer. *)
Example basic_revision_rejects_404 :
  fst (run (requestToPay_basic (sample_world (Responded 404 "{}")) sample_paymentData))
  = Throw (Error "UPG API Error (404): {}")
  /\ fst (run (requestToPay (sample_world (Responded 404 "{}")) sample_paymentData))
     = Return "{}".
Proof. vm_compute. split; reflexivity. Qed.

(** ** The gateway client: failures *)

(** The current revision reports a transport failure under its category. *)
Lemma on_error_transport (e : NetError) :
  net_request e = true ->
  exists msg,
    on_error (error_of e) = Error msg
    /\ category_of_message msg = Some (failure_category e)
    /\ (failure_category e = OtherConnectivity ->
        msg = "Network connectivity issue (" +:+ code_string (net_code e) +:+ "): "
              +:+ net_message e
              +:+ ". Please check AWS security groups, NAT gateway, and internet connectivity.").
Proof.
  intros Hreq. unfold on_error, connectivity_error, failure_category, code_is, error_of.
  cbn [response request timeout code message]. rewrite Hreq.
  destruct (net_code e) as [c|]; cbv zeta;
    repeat match goal with
           | |- context [if ?b then _ else _] => destruct b
           end;
    eexists; (split; [reflexivity|]); (split; [reflexivity|]);
    intros Hc; first [discriminate Hc | reflexivity].
Qed.

(** So does the retrying revision, which counts an aborted request as a
    timeout. *)
Lemma on_error_retry_transport (w : World) (e : NetError) :
  net_request e = true ->
  exists msg,
    on_error_retry w (error_of e) = Error msg
    /\ category_of_message msg = Some (failure_category_retry e).
Proof.
  intros Hreq.
  unfold on_error_retry, connectivity_error, failure_category_retry, failure_category,
    code_is, error_of.
  cbn [response request timeout code message]. rewrite Hreq.
  destruct (net_code e) as [c|]; cbv zeta;
    repeat match goal with
           | |- context [if ?b then _ else _] => destruct b
           end;
    eexists; split; reflexivity.
Qed.

(** A key that is a number or [true] passes validation and stops the
    preparation of the request: [Buffer.from] refuses it and describes it. *)
Lemma prepare_primitive_key (w : World) (pd : gmap string jsval) :
  (forall f, f ∈ requiredFields -> truthy (get pd f) = true) ->
  get pd "merchantSecretKey" = JBool true
  \/ (exists x, get pd "merchantSecretKey" = JNum x) ->
  prepare w pd
  = Throw (Error ("Failed to generate secure hash: The first argument must be of type string or an instance of Buffer, ArrayBuffer, or Array or an Array-like Object. Received "
                  +:+ received (get pd "merchantSecretKey"))).
Proof.
  intros Hall Hkey. unfold prepare.
  rewrite validate_first_falsy, (first_falsy_None _ _ Hall).
  unfold generateSecureHash.
  destruct Hkey as [-> | [x ->]]; reflexivity.
Qed.

Lemma get_insert_eq (m : gmap string jsval) (k : string) (v : jsval) :
  get (<[k := v]> m) k = v.
Proof. unfold get. now rewrite lookup_insert_eq. Qed.

Lemma get_insert_ne (m : gmap string jsval) (k k' : string) (v : jsval) :
  k ≠ k' -> get (<[k := v]> m) k' = get m k'.
Proof. intros H. unfold get. now rewrite lookup_insert_ne. Qed.

(** The preparation of a request reads the key only to sign with it: two
    non-empty string keys lead to the same failure, or both to a payload. *)
Lemma prepare_key_independent (w : World) (pd : gmap string jsval) (k1 k2 : string) :
  k1 ≠ "" -> k2 ≠ "" ->
  (exists e, prepare w (<["merchantSecretKey" := JStr k1]> pd) = Throw e
             /\ prepare w (<["merchantSecretKey" := JStr k2]> pd) = Throw e)
  \/ (exists p1 p2, prepare w (<["merchantSecretKey" := JStr k1]> pd) = Return p1
                    /\ prepare w (<["merchantSecretKey" := JStr k2]> pd) = Return p2).
Proof.
  intros Hk1 Hk2.
  assert (Hne : forall k : string, k ≠ "" -> truthy (JStr k) = true).
  { intros k Hk. cbn. destruct (String.eqb_spec k ""); [contradiction | reflexivity]. }
  assert (Hext : first_falsy requiredFields (<["merchantSecretKey" := JStr k1]> pd)
                 = first_falsy requiredFields (<["merchantSecretKey" := JStr k2]> pd)).
  { apply first_falsy_ext. intros f _.
    destruct (decide (f = "merchantSecretKey")) as [->|Hf].
    - rewrite !get_insert_eq. now rewrite (Hne k1 Hk1), (Hne k2 Hk2).
    - now rewrite !get_insert_ne by congruence. }
  unfold prepare. rewrite !validate_first_falsy, Hext. clear Hext.
  destruct (first_falsy _ _) as [field|].
  - left. eexists. split; reflexivity.
  - right. rewrite !get_insert_eq.
    unfold generateSecureHash. cbn [Buffer_from]. do 2 eexists. split; reflexivity.
Qed.

(** C8, as stated, fails on the path it cites in the signer: a key that is
    not a string is described, value included, in the error that
    [requestToPay] raises, so that the error depends on the key. *)
Lemma numeric_key_is_quoted_in_the_error :
  fst (run (requestToPay (sample_world (Responded 200 "{}"))
              (<["merchantSecretKey" := JNum (Num.of_Z 12345)]> sample_paymentData)))
  = Throw (Error "Request setup error: Failed to generate secure hash: The first argument must be of type string or an instance of Buffer, ArrayBuffer, or Array or an Array-like Object. Received type number (12345)")
  /\ includes "12345" "Request setup error: Failed to generate secure hash: The first argument must be of type string or an instance of Buffer, ArrayBuffer, or Array or an Array-like Object. Received type number (12345)" = true
  /\ fst (run (requestToPay (sample_world (Responded 200 "{}"))
                 (<["merchantSecretKey" := JNum (Num.of_Z 12345)]> sample_paymentData)))
     ≠ fst (run (requestToPay (sample_world (Responded 200 "{}"))
                   (<["merchantSecretKey" := JNum (Num.of_Z 54321)]> sample_paymentData))).
Proof.
  split; [vm_compute; reflexivity|]. split; [vm_compute; reflexivity|].
  vm_compute. intros H. discriminate H.
Qed.

(** C8, amended. (1) In the current revision a transport failure (the
    request was made, no response came back) is reported by the error of
    its category - DNS resolution failure for an unknown host, connection
    refused, timeout, connection reset, and for any other failure a
    connectivity error that quotes the code and the message of the failure.
    (2) So is, in the retrying revision, the failure of the last attempt
    made, an aborted request counting as a timeout. (3) In every revision
    the result of the call - hence every error raised, whatever its cause -
    is the same for any two non-empty string keys: it does not depend on
    the value of [merchantSecretKey]. (4) A key that is a number or [true]
    is, on the contrary, described in the error that every revision
    raises. *)
Theorem failures_categorised_and_key_independent :
  (forall (w : World) (pd payload : gmap string jsval) (e : NetError),
      prepare w pd = Return payload ->
      upstream w 0 = Failed e -> net_request e = true ->
      exists msg,
        fst (run (requestToPay w pd)) = Throw (Error msg)
        /\ category_of_message msg = Some (failure_category e)
        /\ (failure_category e = OtherConnectivity ->
            msg = "Network connectivity issue (" +:+ code_string (net_code e) +:+ "): "
                  +:+ net_message e
                  +:+ ". Please check AWS security groups, NAT gateway, and internet connectivity."))
  /\ (forall (w : World) (pd payload : gmap string jsval) (e : NetError),
      prepare w pd = Return payload ->
      let r := run (requestToPay_retry w pd) in
      upstream w (pred (post_count (snd r))) = Failed e -> net_request e = true ->
      exists msg,
        fst r = Throw (Error msg)
        /\ category_of_message msg = Some (failure_category_retry e))
  /\ (forall (w : World) (pd : gmap string jsval) (k1 k2 : string),
      k1 ≠ "" -> k2 ≠ "" ->
      let pd1 := <["merchantSecretKey" := JStr k1]> pd in
      let pd2 := <["merchantSecretKey" := JStr k2]> pd in
      fst (run (requestToPay w pd1)) = fst (run (requestToPay w pd2))
      /\ fst (run (requestToPay_retry w pd1)) = fst (run (requestToPay_retry w pd2))
      /\ fst (run (requestToPay_basic w pd1)) = fst (run (requestToPay_basic w pd2)))
  /\ (forall (r : revision) (w : World) (pd : gmap string jsval),
      (forall f, f ∈ requiredFields -> truthy (get pd f) = true) ->
      get pd "merchantSecretKey" = JBool true
      \/ (exists x, get pd "merchantSecretKey" = JNum x) ->
      fst (run (requestToPay_rev r w pd))
      = Throw (Error ("Request setup error: Failed to generate secure hash: The first argument must be of type string or an instance of Buffer, ArrayBuffer, or Array or an Array-like Object. Received "
                      +:+ received (get pd "merchantSecretKey")))).
Proof.
  split; [|split; [|split]].
  - intros w pd payload e Hprep Hup Hreq.
    rewrite (requestToPay_prepared w _ _ Hprep), Hup. cbn [settle fst].
    destruct (on_error_transport e Hreq) as (msg & Hmsg & Hc & Hother).
    fold (error_of e). rewrite Hmsg. exists msg. repeat split; assumption.
  - intros w pd payload e Hprep.
    rewrite (requestToPay_retry_prepared w _ _ Hprep).
    assert (Hthrow : forall i (e0 : jserr),
               upstream w i = Failed e -> net_request e = true ->
               settle (fun status => status <? 500) (upstream w i) = Throw e0 ->
               exists msg,
                 Throw (A := Data) (on_error_retry w e0) = Throw (Error msg)
                 /\ category_of_message msg = Some (failure_category_retry e)).
    { intros i e0 Hup Hreq He0. rewrite Hup in He0. cbn [settle] in He0.
      injection He0 as <-.
      destruct (on_error_retry_transport w e Hreq) as (msg & Hmsg & Hc).
      fold (error_of e). rewrite Hmsg. eauto. }
    assert (Hreturn : forall i (a : Z * Data),
               upstream w i = Failed e ->
               settle (fun status => status <? 500) (upstream w i) = Return a -> False).
    { intros i a Hup Ha. rewrite Hup in Ha. discriminate Ha. }
    destruct (settle _ (upstream w 0)) as [r0|e0] eqn:H0; cbn [fst snd post_count pred].
    { intros Hup _. destruct (Hreturn _ _ Hup H0). }
    destruct (retryable e0).
    2:{ cbn [fst snd post_count pred]. intros Hup Hreq. exact (Hthrow _ _ Hup Hreq H0). }
    destruct (settle _ (upstream w 1)) as [r1|e1] eqn:H1; cbn [fst snd post_count pred].
    { intros Hup _. destruct (Hreturn _ _ Hup H1). }
    destruct (retryable e1).
    2:{ cbn [fst snd post_count pred]. intros Hup Hreq. exact (Hthrow _ _ Hup Hreq H1). }
    destruct (settle _ (upstream w 2)) as [r2|e2] eqn:H2; cbn [fst snd post_count pred];
      intros Hup Hreq.
    + destruct (Hreturn _ _ Hup H2).
    + exact (Hthrow _ _ Hup Hreq H2).
  - intros w pd k1 k2 Hk1 Hk2 pd1 pd2. subst pd1 pd2.
    destruct (prepare_key_independent w pd k1 k2 Hk1 Hk2)
      as [(e & He1 & He2) | (p1 & p2 & Hp1 & Hp2)].
    + destruct (requestToPay_prepare_fails w _ _ He1) as (-> & -> & ->).
      destruct (requestToPay_prepare_fails w _ _ He2) as (-> & -> & ->).
      repeat split; reflexivity.
    + rewrite (requestToPay_prepared w _ _ Hp1), (requestToPay_prepared w _ _ Hp2).
      rewrite (requestToPay_basic_prepared w _ _ Hp1), (requestToPay_basic_prepared w _ _ Hp2).
      rewrite (requestToPay_retry_prepared w _ _ Hp1), (requestToPay_retry_prepared w _ _ Hp2).
      repeat split; try reflexivity.
      destruct (settle _ (upstream w 0)); [reflexivity|].
      destruct (retryable _); [|reflexivity].
      destruct (settle _ (upstream w 1)); [reflexivity|].
      destruct (retryable _); [|reflexivity].
      destruct (settle _ (upstream w 2)); reflexivity.
  - intros r w pd Hall Hkey.
    destruct (requestToPay_prepare_fails w _ _ (prepare_primitive_key w pd Hall Hkey))
      as (H1 & H2 & H3).
    destruct r; cbn [requestToPay_rev]; rewrite ?H1, ?H2, ?H3; reflexivity.
Qed.

Lemma failures_categorised_and_key_independent_witness :
  (exists msg,
      fst (run (requestToPay (sample_world (Failed dns_failure)) sample_paymentData))
      = Throw (Error msg)
      /\ category_of_message msg = Some DnsFailure)
  /\ fst (run (requestToPay (sample_world (Failed dns_failure))
                 (<["merchantSecretKey" := JStr "4a656665"]> sample_paymentData)))
     = fst (run (requestToPay (sample_world (Failed dns_failure))
                   (<["merchantSecretKey" := JStr "00ff"]> sample_paymentData))).
Proof.
  split.
  - destruct (prepare_succeeds (sample_world (Failed dns_failure)) sample_paymentData
                "4a656665" sample_paymentData_complete eq_refl) as [payload Hprep].
    destruct (proj1 failures_categorised_and_key_independent
                (sample_world (Failed dns_failure)) sample_paymentData payload dns_failure
                Hprep eq_refl eq_refl) as (msg & Hmsg & Hc & _).
    exists msg. split; [exact Hmsg | exact Hc].
  - apply (proj1 (proj2 (proj2 failures_categorised_and_key_independent))
             (sample_world (Failed dns_failure)) sample_paymentData "4a656665" "00ff");
      discriminate.
Defined.

(** ** The wire payload *)

Lemma get_empty (k : string) : get ∅ k = JUndefined.
Proof. reflexivity. Qed.

Lemma lookup_set_if_ne (c : bool) (k k' : string) (v : jsval) (p : gmap string jsval) :
  k ≠ k' -> set_if c k v p !! k' = p !! k'.
Proof. intros H. unfold set_if. destruct c; [now rewrite lookup_insert_ne | reflexivity]. Qed.

Lemma lookup_set_if_eq (c : bool) (k : string) (v : jsval) (p : gmap string jsval) :
  set_if c k v p !! k = if c then Some v else p !! k.
Proof. unfold set_if. destruct c; [now rewrite lookup_insert_eq | reflexivity]. Qed.

(** Reading a property of an object built by successive assignments. *)
Ltac read_property :=
  repeat first
    [ rewrite get_insert_eq
    | rewrite get_insert_ne by discriminate
    | rewrite get_empty ].

Ltac read_payload :=
  repeat first
    [ rewrite lookup_set_if_ne by discriminate
    | rewrite lookup_insert_ne by discriminate
    | rewrite lookup_insert_eq
    | rewrite lookup_empty ].

Lemma requestPayload_AmountTrxn (pd : gmap string jsval) (t h : string) :
  requestPayload pd t h !! "AmountTrxn" = Some (JNum (parseInt (get pd "amountTrxn"))).
Proof. unfold requestPayload. cbv zeta. now read_payload. Qed.

Lemma requestPayload_Currency (pd : gmap string jsval) (t h : string) :
  requestPayload pd t h !! "Currency" = Some (JNum (parseInt (get pd "currency"))).
Proof. unfold requestPayload. cbv zeta. now read_payload. Qed.

(** The two fee fields of the wire payload (upgService.js, lines 86-92). *)
Lemma requestPayload_fees (pd : gmap string jsval) (t h : string) :
  let tip := get pd "tip" in
  let fixed := get pd "convenienceFeeFixed" in
  let percentage := get pd "convenienceFeePercentage" in
  requestPayload pd t h !! "ConvenienceFeeFixed"
  = (if truthy fixed && negb (truthy tip) && negb (truthy percentage)
     then Some (JNum (parseFloat fixed)) else None)
  /\ requestPayload pd t h !! "ConvenienceFeePercentage"
     = (if truthy percentage && negb (truthy tip) && negb (truthy fixed)
        then Some (JNum (parseFloat percentage)) else None).
Proof.
  unfold requestPayload. cbv zeta. split.
  - rewrite lookup_set_if_ne by discriminate. rewrite lookup_set_if_eq.
    destruct (_ && _ && _); [reflexivity | now read_payload].
  - rewrite lookup_set_if_eq.
    destruct (_ && _ && _); [reflexivity | now read_payload].
Qed.

(** ** The handler ([src/server.js]) *)

Lemma amount_10_50_in_piasters : amountInPiasters (JStr "10.50") = Num.of_Z 1050.
Proof. vm_compute. reflexivity. Qed.

Lemma parseInt_1050 : parseInt (JNum (Num.of_Z 1050)) = Num.of_Z 1050.
Proof. vm_compute. reflexivity. Qed.

Lemma parseInt_818 : parseInt (JNum (Num.of_Z 818)) = Num.of_Z 818.
Proof. vm_compute. reflexivity. Qed.

Lemma truthy_JStr (s : string) : s ≠ "" -> truthy (JStr s) = true.
Proof. intros H. cbn. destruct (String.eqb_spec s ""); [contradiction | reflexivity]. Qed.

Lemma trim_nonempty (s : string) : trim s ≠ "" -> s ≠ "".
Proof. intros H ->. now apply H. Qed.

(** With the currency variable unset, the configured code is the default 818. *)
Lemma CURRENCY_EGP_default (w : World) :
  env w !! "DEFAULT_CURRENCY" = None -> CURRENCY_EGP (CONFIG w) = Num.of_Z 818.
Proof. intros H. unfold CONFIG, env_get. cbn [CURRENCY_EGP]. rewrite H. reflexivity. Qed.

(** After a successful start-up the three credentials are non-empty strings. *)
Lemma startup_credentials (w : World) :
  startup_ok w = true ->
  exists mid tid key,
    MERCHANT_ID (CONFIG w) = JStr mid /\ mid ≠ ""
    /\ TERMINAL_ID (CONFIG w) = JStr tid /\ tid ≠ ""
    /\ MERCHANT_SECRET_KEY (CONFIG w) = JStr key /\ key ≠ "".
Proof.
  unfold startup_ok, CONFIG, env_get.
  cbn [MERCHANT_ID TERMINAL_ID MERCHANT_SECRET_KEY].
  intros H. apply andb_true_iff in H as [H H3]. apply andb_true_iff in H as [H1 H2].
  destruct (env w !! "MERCHANT_ID") as [mid|]; [|discriminate H1].
  destruct (env w !! "TERMINAL_ID") as [tid|]; [|discriminate H2].
  destruct (env w !! "MERCHANT_SECRET_KEY") as [key|]; [|discriminate H3].
  exists mid, tid, key.
  repeat split; try reflexivity; intros ->; discriminate.
Qed.

(** The payment data built from a submission with the two mandatory inputs. *)
Lemma buildPaymentData_request_body (w : World) (amount m : string) (a : Num.number) :
  buildPaymentData w (request_body amount m) a =
  Return (<["amountTrxn" := JNum a]>
         (<["currency" := JNum (CURRENCY_EGP (CONFIG w))]>
         (<["mobileNumber" := JStr (trim m)]>
         (<["merchantId" := MERCHANT_ID (CONFIG w)]>
         (<["terminalId" := TERMINAL_ID (CONFIG w)]>
         (<["merchantSecretKey" := MERCHANT_SECRET_KEY (CONFIG w)]>
         (<["merchantReference" := JStr ("REF_" +:+ int_toString (Date_now w))]>
         (<["validity" := DEFAULT_VALIDITY (CONFIG w)]> ∅)))))))).
Proof.
  unfold buildPaymentData, request_body, set_trimmed. cbv zeta.
  read_property. reflexivity.
Qed.

Lemma CURRENCY_EGP_truthy (w : World) : truthy (JNum (CURRENCY_EGP (CONFIG w))) = true.
Proof.
  unfold CONFIG. cbn [CURRENCY_EGP].
  destruct (truthy (JNum (parseInt (env_get w "DEFAULT_CURRENCY")))) eqn:H;
    [exact H | reflexivity].
Qed.

(** C9. For the submission of amount "10.50" with a destination mobile
    number, on a server started with its credentials and an upstream that
    answers below 500: the single outbound payload carries
    [AmountTrxn = 1050] and, as [Currency], the configured currency code
    (re-read by [parseInt]) - the default 818 when no code is configured -
    and the success envelope echoes the amount "10.50" as it was
    submitted. *)
Theorem ten_fifty_is_sent_as_1050
    (w : World) (mobileNumber : string) (status : Z) (data : Data) :
  startup_ok w = true ->
  trim mobileNumber ≠ "" ->
  upstream w 0 = Responded status data ->
  status < 500 ->
  exists payload merchantReference,
    run (post_request_to_pay w (request_body "10.50" mobileNumber))
    = (Return {| http_status := 200;
                 envelope := Success data (JStr "10.50") (JStr mobileNumber)
                               merchantReference |},
       [Post (target w) payload 45000])
    /\ payload !! "AmountTrxn" = Some (JNum (Num.of_Z 1050))
    /\ payload !! "Currency" = Some (JNum (parseInt (JNum (CURRENCY_EGP (CONFIG w)))))
    /\ (env w !! "DEFAULT_CURRENCY" = None ->
        CURRENCY_EGP (CONFIG w) = Num.of_Z 818
        /\ payload !! "Currency" = Some (JNum (Num.of_Z 818))).
Proof.
  intros Hstart Hmobile Hup Hstatus.
  destruct (startup_credentials w Hstart)
    as (mid & tid & key & Hmid & Hmid' & Htid & Htid' & Hkey & Hkey').
  pose proof (buildPaymentData_request_body w "10.50" mobileNumber (Num.of_Z 1050)) as Hbuild.
  set (pd := <["amountTrxn" := JNum (Num.of_Z 1050)]> _) in Hbuild.
  assert (Hall : forall f, f ∈ requiredFields -> truthy (get pd f) = true).
  { intros f Hf. unfold requiredFields in Hf. subst pd.
    repeat (apply elem_of_cons in Hf as [-> | Hf]); [..|inversion Hf]; read_property.
    - reflexivity.
    - apply CURRENCY_EGP_truthy.
    - now apply truthy_JStr.
    - rewrite Hmid. now apply truthy_JStr.
    - rewrite Htid. now apply truthy_JStr.
    - rewrite Hkey. now apply truthy_JStr. }
  assert (Hk : get pd "merchantSecretKey" = JStr key).
  { subst pd. read_property. exact Hkey. }
  destruct (prepare_succeeds w pd key Hall Hk) as [payload Hprep].
  pose proof (requestToPay_prepared w pd payload Hprep) as Hrun.
  rewrite Hup in Hrun. cbn [settle snd] in Hrun.
  rewrite (proj2 (Z.ltb_lt status 500) Hstatus) in Hrun.
  assert (Hpayload : exists h,
             payload = requestPayload pd (generateTransactionDateTime (now w)) h).
  { unfold prepare in Hprep.
    destruct (validate _ _); [|discriminate].
    destruct (generateSecureHash _ _ _ _) as [h|]; [|discriminate].
    injection Hprep as <-. now exists h. }
  destruct Hpayload as [h Hpayload].
  assert (Hcurrency : payload !! "Currency"
                      = Some (JNum (parseInt (JNum (CURRENCY_EGP (CONFIG w)))))).
  { rewrite Hpayload, requestPayload_Currency. subst pd. now read_property. }
  exists payload, (get pd "merchantReference"). split; [|split; [|split]].
  - unfold post_request_to_pay, run, try_catch, bind, lift, ret.
    unfold request_body in *. read_property.
    rewrite (truthy_JStr mobileNumber (trim_nonempty _ Hmobile)).
    rewrite amount_10_50_in_piasters, Hbuild.
    change (Num.leb (Num.of_Z 1050) (Num.of_Z 0)) with false.
    change (truthy (JStr "10.50")) with true. cbn [negb orb].
    unfold run in Hrun. now rewrite Hrun.
  - rewrite Hpayload, requestPayload_AmountTrxn.
    subst pd. read_property. now rewrite parseInt_1050.
  - exact Hcurrency.
  - intros Hcur. pose proof (CURRENCY_EGP_default w Hcur) as Hcode.
    split; [exact Hcode|]. now rewrite Hcurrency, Hcode, parseInt_818.
Qed.

Lemma ten_fifty_is_sent_as_1050_witness :
  exists payload merchantReference,
    run (post_request_to_pay (sample_world (Responded 200 "{}"))
           (request_body "10.50" "01012345678"))
    = (Return {| http_status := 200;
                 envelope := Success "{}" (JStr "10.50") (JStr "01012345678")
                               merchantReference |},
       [Post (target (sample_world (Responded 200 "{}"))) payload 45000])
    /\ payload !! "AmountTrxn" = Some (JNum (Num.of_Z 1050)).
Proof.
  destruct (ten_fifty_is_sent_as_1050 (sample_world (Responded 200 "{}"))
              "01012345678" 200 "{}")
    as (payload & ref & Hrun & Hamount & _).
  - vm_compute. reflexivity.
  - vm_compute. discriminate.
  - reflexivity.
  - lia.
  - exists payload, ref. split; assumption.
Defined.

(** ** Convenience fees and tip, layer by layer *)

(** Every payload the current revision sends is the one built from the
    payment data, with the timestamp of the request and some signature. *)
Lemma sent_payload (w : World) (pd payload : gmap string jsval) :
  payload ∈ posted_bodies (snd (run (requestToPay w pd))) ->
  exists h, payload = requestPayload pd (generateTransactionDateTime (now w)) h.
Proof.
  destruct (prepare w pd) as [p|e] eqn:Hprep.
  - rewrite (requestToPay_prepared w _ _ Hprep). cbn [snd posted_bodies].
    intros Hin. apply list_elem_of_singleton in Hin as ->.
    unfold prepare in Hprep.
    destruct (validate _ _); [|discriminate].
    destruct (generateSecureHash _ _ _ _) as [h|]; [|discriminate].
    injection Hprep as <-. now exists h.
  - destruct (requestToPay_prepare_fails w _ _ Hprep) as (-> & _).
    cbn. intros Hin. inversion Hin.
Qed.

Lemma set_trimmed_lookup_ne (body pd pd' : gmap string jsval) (k k' : string) :
  set_trimmed body k pd = Return pd' -> k ≠ k' -> pd' !! k' = pd !! k'.
Proof.
  unfold set_trimmed. intros H Hne.
  destruct (truthy (get body k)).
  - destruct (call_trim k (get body k)); [|discriminate].
    injection H as <-. now rewrite lookup_insert_ne.
  - now injection H as <-.
Qed.

(** The two fee properties of the payment data the handler builds
    (server.js, lines 96-99). *)
Lemma buildPaymentData_fees (w : World) (body pd : gmap string jsval) (a : Num.number) :
  buildPaymentData w body a = Return pd ->
  let tip := get body "tip" in
  let fixed := get body "convenienceFeeFixed" in
  let percentage := get body "convenienceFeePercentage" in
  pd !! "convenienceFeeFixed"
  = (if truthy fixed && negb (truthy tip) then Some (JNum (parseFloat fixed)) else None)
  /\ pd !! "convenienceFeePercentage"
     = (if truthy percentage && negb (truthy tip) && negb (truthy fixed)
        then Some (JNum (parseFloat percentage)) else None)
  /\ pd !! "tip"
     = (if match tip with JStr t => String.eqb t "true" | _ => false end
        then Some (JBool true) else None).
Proof.
  unfold buildPaymentData, bind_result. cbv zeta.
  destruct (call_trim "mobileNumber" _) as [mobile|]; [|discriminate].
  destruct (set_trimmed body "loyaltyNumber" _) as [pd1|] eqn:H1; [|discriminate].
  destruct (set_trimmed body "customerLabel" _) as [pd2|] eqn:H2; [|discriminate].
  destruct (set_trimmed body "purposeOfTransaction" _) as [pd3|] eqn:H3; [|discriminate].
  destruct (set_trimmed body "billNumber" _) as [pd4|] eqn:H4; [|discriminate].
  intros [= <-].
  assert (Hbase : forall k,
             "loyaltyNumber" ≠ k -> "customerLabel" ≠ k -> "purposeOfTransaction" ≠ k ->
             "billNumber" ≠ k -> "amountTrxn" ≠ k -> "currency" ≠ k ->
             "mobileNumber" ≠ k -> "merchantId" ≠ k -> "terminalId" ≠ k ->
             "merchantSecretKey" ≠ k -> "merchantReference" ≠ k -> "validity" ≠ k ->
             pd4 !! k = None).
  { intros k ? ? ? ? ? ? ? ? ? ? ? ?.
    rewrite (set_trimmed_lookup_ne _ _ _ _ k H4), (set_trimmed_lookup_ne _ _ _ _ k H3),
            (set_trimmed_lookup_ne _ _ _ _ k H2), (set_trimmed_lookup_ne _ _ _ _ k H1)
      by assumption.
    now rewrite !lookup_insert_ne by assumption. }
  split; [|split].
  - rewrite lookup_set_if_ne by discriminate. rewrite lookup_set_if_eq.
    destruct (_ && _); [reflexivity|].
    rewrite lookup_set_if_ne by discriminate. apply Hbase; discriminate.
  - rewrite lookup_set_if_eq.
    destruct (_ && _ && _); [reflexivity|].
    rewrite !lookup_set_if_ne by discriminate. apply Hbase; discriminate.
  - rewrite !lookup_set_if_ne by discriminate. rewrite lookup_set_if_eq.
    destruct (match get body "tip" with JStr t => String.eqb t "true" | _ => false end);
      [reflexivity|].
    apply Hbase; discriminate.
Qed.

(** Whatever the handler sends, it sends through the gateway client, on the
    payment data it built. *)
Lemma handler_sent (w : World) (body payload : gmap string jsval) :
  payload ∈ posted_bodies (snd (run (post_request_to_pay w body))) ->
  exists pd,
    buildPaymentData w body (amountInPiasters (get body "amount")) = Return pd
    /\ payload ∈ posted_bodies (snd (run (requestToPay w pd))).
Proof.
  unfold run, post_request_to_pay, try_catch, bind, lift, ret. cbv zeta.
  destruct (negb _ || negb _); [intros H; inversion H|].
  destruct (Num.leb _ _); [intros H; inversion H|].
  destruct (buildPaymentData _ _ _) as [pd|e]; [|intros H; inversion H].
  intros H. exists pd. split; [reflexivity|].
  destruct (requestToPay w pd []) as [[r|e] tr]; exact H.
Qed.

(** C1, as stated, fails on the gateway client's layer: payment data with
    both fees and no tip yields a wire payload with neither fee field (the
    claim expects the fixed fee to be there). *)
Lemma both_fees_are_both_dropped :
  truthy (get paymentData_both_fees "convenienceFeeFixed") = true
  /\ truthy (get paymentData_both_fees "convenienceFeePercentage") = true
  /\ get paymentData_both_fees "tip" = JUndefined
  /\ map fee_fields
       (posted_bodies
          (snd (run (requestToPay (sample_world (Responded 200 "{}")) paymentData_both_fees))))
     = [(None, None)].
Proof. repeat split; vm_compute; reflexivity. Qed.

(** C1, amended. With the tip flag set, neither fee field is sent, on
    either layer. With both fees and no tip the layers differ: the handler
    keeps only the fixed fee in the payment data it builds, while the
    gateway client, given payment data that carries both fees, sends
    neither; it sends a fee only when it is the only fee supplied and the
    tip flag is not set. *)
Theorem fee_fields_by_layer :
  (forall (w : World) (pd payload : gmap string jsval),
      payload ∈ posted_bodies (snd (run (requestToPay w pd))) ->
      let tip := get pd "tip" in
      let fixed := get pd "convenienceFeeFixed" in
      let percentage := get pd "convenienceFeePercentage" in
      (truthy tip = true -> fee_fields payload = (None, None))
      /\ (truthy fixed = true -> truthy percentage = true ->
          fee_fields payload = (None, None))
      /\ (truthy tip = false -> truthy fixed = true -> truthy percentage = false ->
          fee_fields payload = (Some (JNum (parseFloat fixed)), None))
      /\ (truthy tip = false -> truthy fixed = false -> truthy percentage = true ->
          fee_fields payload = (None, Some (JNum (parseFloat percentage))))
      /\ (truthy fixed = false -> truthy percentage = false ->
          fee_fields payload = (None, None)))
  /\ (forall (w : World) (body pd : gmap string jsval) (a : Num.number),
      buildPaymentData w body a = Return pd ->
      let tip := get body "tip" in
      let fixed := get body "convenienceFeeFixed" in
      (truthy tip = true ->
       pd !! "convenienceFeeFixed" = None /\ pd !! "convenienceFeePercentage" = None)
      /\ (truthy tip = false -> truthy fixed = true ->
          pd !! "convenienceFeeFixed" = Some (JNum (parseFloat fixed))
          /\ pd !! "convenienceFeePercentage" = None))
  /\ (forall (w : World) (body payload : gmap string jsval),
      payload ∈ posted_bodies (snd (run (post_request_to_pay w body))) ->
      let tip := get body "tip" in
      let fixed := get body "convenienceFeeFixed" in
      (truthy tip = true -> fee_fields payload = (None, None))
      /\ (truthy tip = false -> truthy fixed = true ->
          fee_fields payload
          = (if truthy (JNum (parseFloat fixed))
             then Some (JNum (parseFloat (JNum (parseFloat fixed)))) else None,
             None))).
Proof.
  split; [|split].
  - intros w pd payload Hsent tip fixed percentage.
    destruct (sent_payload w pd payload Hsent) as [h ->].
    destruct (requestPayload_fees pd (generateTransactionDateTime (now w)) h) as [Hf Hp].
    unfold fee_fields. rewrite Hf, Hp. fold tip fixed percentage.
    destruct (truthy tip), (truthy fixed), (truthy percentage); cbn [andb negb];
      repeat split; intros; first [reflexivity | discriminate].
  - intros w body pd a Hbuild tip fixed.
    destruct (buildPaymentData_fees w body pd a Hbuild) as (Hf & Hp & _).
    fold tip fixed in Hf, Hp. rewrite Hf, Hp.
    split.
    + intros ->. rewrite !andb_false_r. cbn. split; reflexivity.
    + intros -> ->. cbn. rewrite andb_false_r. split; reflexivity.
  - intros w body payload Hsent tip fixed.
    destruct (handler_sent w body payload Hsent) as (pd & Hbuild & Hsent').
    destruct (buildPaymentData_fees w body pd _ Hbuild) as (Hf & Hp & Ht).
    fold tip fixed in Hf, Hp, Ht.
    destruct (sent_payload w pd payload Hsent') as [h ->].
    destruct (requestPayload_fees pd (generateTransactionDateTime (now w)) h) as [Hf' Hp'].
    unfold fee_fields. rewrite Hf', Hp'. split.
    + intros Htip. rewrite Htip, !andb_false_r in Hf, Hp.
      assert (Hgf : get pd "convenienceFeeFixed" = JUndefined)
        by (unfold get; now rewrite Hf).
      assert (Hgp : get pd "convenienceFeePercentage" = JUndefined)
        by (unfold get; now rewrite Hp).
      rewrite Hgf, Hgp. reflexivity.
    + intros Htip Hfixed. rewrite Htip, Hfixed in Hf, Hp.
      rewrite andb_false_r in Hp. cbn [andb negb] in Hf.
      assert (Hgf : get pd "convenienceFeeFixed" = JNum (parseFloat fixed))
        by (unfold get; now rewrite Hf).
      assert (Hgp : get pd "convenienceFeePercentage" = JUndefined)
        by (unfold get; now rewrite Hp).
      assert (Hgt : get pd "tip" = JUndefined).
      { unfold get. rewrite Ht. destruct tip as [| |b|x|t]; try reflexivity.
        destruct (String.eqb_spec t "true") as [->|]; [discriminate Htip | reflexivity]. }
      rewrite Hgf, Hgp, Hgt. cbn [truthy negb andb].
      rewrite !andb_true_r. reflexivity.
Qed.

Lemma paymentData_tip_and_fee_complete :
  forall f, f ∈ requiredFields -> truthy (get paymentData_tip_and_fee f) = true.
Proof.
  intros f Hf. unfold requiredFields in Hf.
  repeat (apply elem_of_cons in Hf as [-> | Hf]; [vm_compute; reflexivity|]).
  inversion Hf.
Qed.

Lemma fee_fields_by_layer_witness :
  map fee_fields
    (posted_bodies
       (snd (run (requestToPay (sample_world (Responded 200 "{}")) paymentData_tip_and_fee))))
  = [(None, None)]
  /\ (exists pd,
        buildPaymentData (sample_world (Responded 200 "{}")) body_both_fees (Num.of_Z 1050)
        = Return pd
        /\ pd !! "convenienceFeeFixed" = Some (JNum (Num.of_Z 5))
        /\ pd !! "convenienceFeePercentage" = None)
  /\ map fee_fields
       (posted_bodies
          (snd (run (post_request_to_pay (sample_world (Responded 200 "{}")) body_both_fees))))
     = [(Some (JNum (Num.of_Z 5)), None)].
Proof.
  split; [|split].
  - destruct (prepare_succeeds (sample_world (Responded 200 "{}")) paymentData_tip_and_fee
                "4a656665" paymentData_tip_and_fee_complete eq_refl) as [p Hprep].
    assert (Hsent : p ∈ posted_bodies
              (snd (run (requestToPay (sample_world (Responded 200 "{}"))
                           paymentData_tip_and_fee)))).
    { rewrite (requestToPay_prepared _ _ _ Hprep). now left. }
    destruct (proj1 fee_fields_by_layer _ _ p Hsent) as (Htip & _).
    rewrite (requestToPay_prepared _ _ _ Hprep).
    cbn [snd posted_bodies map]. f_equal. apply Htip. vm_compute. reflexivity.
  - assert (Hok : match buildPaymentData (sample_world (Responded 200 "{}"))
                        body_both_fees (Num.of_Z 1050)
                  with Return _ => True | Throw _ => False end).
    { vm_compute. exact I. }
    destruct (buildPaymentData _ _ _) as [pd|e] eqn:Hbuild; [|destruct Hok].
    exists pd. split; [reflexivity|].
    destruct (proj1 (proj2 fee_fields_by_layer) _ _ pd _ Hbuild) as (_ & Hfixed).
    apply Hfixed; vm_compute; reflexivity.
  - assert (Hone : match posted_bodies
                          (snd (run (post_request_to_pay
                                       (sample_world (Responded 200 "{}")) body_both_fees)))
                   with [_] => True | _ => False end).
    { vm_compute. exact I. }
    destruct (posted_bodies _) as [|p [|q rest]] eqn:Hposted; try destruct Hone.
    assert (Hsent : p ∈ posted_bodies
              (snd (run (post_request_to_pay
                           (sample_world (Responded 200 "{}")) body_both_fees)))).
    { rewrite Hposted. now left. }
    destruct (proj2 (proj2 fee_fields_by_layer) _ _ p Hsent) as (_ & Hfixed).
    cbn [map]. f_equal. rewrite Hfixed; vm_compute; reflexivity.
Defined.

(* ===================================================================== *)
(** * Part III.  Further properties of the code                           *)
(* ===================================================================== *)

(** ** The timestamp token ([generateTransactionDateTime]) *)

(** Checking a decidable property on a range of integers, by enumeration. *)
Lemma forall_in_range (P : Z -> bool) (lo len : Z) :
  forallb P (seqZ lo len) = true -> forall z, lo <= z < lo + len -> P z = true.
Proof.
  intros H z Hz. rewrite forallb_forall in H. apply H.
  apply list_elem_of_In, elem_of_seqZ. lia.
Qed.

Lemma year_two_digits (y : Z) :
  1000 <= y < 10000 -> slice_last 2 (int_toString y) = two_digits (y mod 100).
Proof.
  intros Hy. apply String.eqb_eq.
  apply (forall_in_range
           (fun y => String.eqb (slice_last 2 (int_toString y)) (two_digits (y mod 100)))
           1000 9000); [vm_compute; reflexivity | lia].
Qed.

Lemma padded_two_digits (n : Z) :
  0 <= n < 100 -> padStart0 2 (int_toString n) = two_digits n.
Proof.
  intros Hn. apply String.eqb_eq.
  apply (forall_in_range
           (fun n => String.eqb (padStart0 2 (int_toString n)) (two_digits n)) 0 100);
    [vm_compute; reflexivity | lia].
Qed.

Lemma hundredths_two_digits (ms : Z) :
  0 <= ms < 1000 ->
  Num.str_take 2 (padStart0 3 (int_toString ms)) = two_digits (ms / 10).
Proof.
  intros Hms. apply String.eqb_eq.
  apply (forall_in_range
           (fun ms => String.eqb (Num.str_take 2 (padStart0 3 (int_toString ms)))
                                 (two_digits (ms / 10))) 0 1000);
    [vm_compute; reflexivity | lia].
Qed.

(** The token, group by group. *)
Lemma token_groups (d : Date) :
  valid_clock d ->
  generateTransactionDateTime d
  = two_digits (getFullYear d mod 100) +:+ two_digits (getMonth d + 1)
    +:+ two_digits (getDate d) +:+ two_digits (getHours d)
    +:+ two_digits (getMinutes d) +:+ two_digits (getSeconds d)
    +:+ two_digits (getMilliseconds d / 10).
Proof.
  intros (Hy & Hmo & Hd & Hh & Hmi & Hs & Hms).
  unfold generateTransactionDateTime. cbv zeta.
  rewrite (year_two_digits _ Hy), (hundredths_two_digits _ Hms).
  rewrite !padded_two_digits by lia. reflexivity.
Qed.

(** X1. For a clock with a four-digit year the token is made of seven
    groups of two decimal digits: the year within its century, the month
    counted from 1, the day, the hour, the minute, the second and the
    hundredths of a second. It is 14 characters long. *)
Theorem token_format (d : Date) :
  valid_clock d ->
  generateTransactionDateTime d
  = two_digits (getFullYear d mod 100) +:+ two_digits (getMonth d + 1)
    +:+ two_digits (getDate d) +:+ two_digits (getHours d)
    +:+ two_digits (getMinutes d) +:+ two_digits (getSeconds d)
    +:+ two_digits (getMilliseconds d / 10)
  /\ String.length (generateTransactionDateTime d) = 14%nat.
Proof.
  intros Hv. pose proof (token_groups d Hv) as Heq.
  split; [exact Heq|]. rewrite Heq. reflexivity.
Qed.

Lemma token_format_witness :
  generateTransactionDateTime sample_date = "25010709050304".
Proof.
  destruct (token_format sample_date) as [Heq _].
  - unfold valid_clock, sample_date. simpl. lia.
  - rewrite Heq. reflexivity.
Defined.

Lemma digit_char_inj (a b : Z) :
  0 <= a < 10 -> 0 <= b < 10 ->
  ascii_of_nat (Z.to_nat (48 + a)) = ascii_of_nat (Z.to_nat (48 + b)) -> a = b.
Proof.
  intros Ha Hb H. apply (f_equal nat_of_ascii) in H.
  rewrite !nat_ascii_embedding in H by lia. lia.
Qed.

Lemma two_digits_app_inj (a b : Z) (s s' : string) :
  0 <= a < 100 -> 0 <= b < 100 ->
  two_digits a +:+ s = two_digits b +:+ s' -> a = b /\ s = s'.
Proof.
  intros Ha Hb H. unfold two_digits in H.
  change (String ?c (String ?c' "") +:+ ?r) with (String c (String c' r)) in H.
  injection H as H1 H2 H3.
  assert (Hq : forall n, 0 <= n < 100 -> 0 <= n / 10 < 10).
  { intros n Hn. split; [apply Z.div_pos; lia | apply Z.div_lt_upper_bound; lia]. }
  assert (Hr : forall n, 0 <= n mod 10 < 10) by (intros; apply Z.mod_pos_bound; lia).
  apply digit_char_inj in H1; [|now apply Hq ..].
  apply digit_char_inj in H2; [|apply Hr ..].
  split; [|exact H3].
  rewrite (Z.div_mod a 10), (Z.div_mod b 10) by lia. now rewrite H1, H2.
Qed.

(** X2. For clocks with a four-digit year, two tokens are equal exactly
    when the clocks agree on the year within the century, the month, day,
    hour, minute, second and hundredth of a second. In particular two
    requests made within the same hundredth of a second carry the same
    token, and the century is not recorded. *)
Theorem token_equality (d d' : Date) :
  valid_clock d -> valid_clock d' ->
  generateTransactionDateTime d = generateTransactionDateTime d'
  <-> token_fields d = token_fields d'.
Proof.
  intros Hv Hv'.
  rewrite (token_groups d Hv), (token_groups d' Hv').
  destruct Hv as (Hy & Hmo & Hd & Hh & Hmi & Hs & Hms).
  destruct Hv' as (Hy' & Hmo' & Hd' & Hh' & Hmi' & Hs' & Hms').
  assert (Hc : forall y, 0 <= y mod 100 < 100) by (intros; apply Z.mod_pos_bound; lia).
  assert (Hh10 : forall ms, 0 <= ms < 1000 -> 0 <= ms / 10 < 100).
  { intros ms Hr. split; [apply Z.div_pos; lia | apply Z.div_lt_upper_bound; lia]. }
  unfold token_fields. split.
  - intros H.
    apply two_digits_app_inj in H as [E1 H]; [|apply Hc ..].
    apply two_digits_app_inj in H as [E2 H]; [|lia ..].
    apply two_digits_app_inj in H as [E3 H]; [|lia ..].
    apply two_digits_app_inj in H as [E4 H]; [|lia ..].
    apply two_digits_app_inj in H as [E5 H]; [|lia ..].
    apply two_digits_app_inj in H as [E6 H]; [|lia ..].
    assert (E7 : getMilliseconds d / 10 = getMilliseconds d' / 10).
    { assert (H' : two_digits (getMilliseconds d / 10) +:+ ""
                   = two_digits (getMilliseconds d' / 10) +:+ "") by (now rewrite H).
      apply two_digits_app_inj in H' as [E7 _]; [exact E7 | now apply Hh10 ..]. }
    assert (E2' : getMonth d = getMonth d') by lia.
    now rewrite E1, E2', E3, E4, E5, E6, E7.
  - intros [= E1 E2 E3 E4 E5 E6 E7]. now rewrite E1, E2, E3, E4, E5, E6, E7.
Qed.

Lemma token_equality_witness :
  generateTransactionDateTime sample_date = generateTransactionDateTime sample_date_shifted.
Proof.
  apply (proj2 (token_equality sample_date sample_date_shifted
                  ltac:(unfold valid_clock; simpl; lia)
                  ltac:(unfold valid_clock; simpl; lia))).
  reflexivity.
Defined.

(** ** The signature ([generateSecureHash]): format and the reading of the key *)

Lemma upper_hex_digits (b : byte) :
  is_upper_hex (hex_digit_upper (byte_to_Z b / 16)) = true
  /\ is_upper_hex (hex_digit_upper (byte_to_Z b mod 16)) = true.
Proof. destruct b; vm_compute; split; reflexivity. Qed.

Lemma hex_encode_upper_format (buf : Buffer) :
  String.length (hex_encode_upper buf) = (2 * length buf)%nat
  /\ string_forall is_upper_hex (hex_encode_upper buf) = true.
Proof.
  induction buf as [|b rest [IHl IHf]]; [split; reflexivity|].
  cbn [hex_encode_upper String.length string_forall length].
  destruct (upper_hex_digits b) as [-> ->]. rewrite IHl, IHf. split; [lia | reflexivity].
Qed.

(** X3. Whatever the inputs, a signature that [generateSecureHash] returns
    is 64 characters long and made of the digits 0-9 and the uppercase
    letters A-F only. *)
Theorem signature_format (t m term key : jsval) (signature : string) :
  generateSecureHash t m term key = Return signature ->
  String.length signature = 64%nat /\ string_forall is_upper_hex signature = true.
Proof.
  unfold generateSecureHash. destruct (Buffer_from key) as [keyBuffer|e]; [|discriminate].
  intros [= <-]. rewrite toUpperCase_hex_encode.
  destruct (hex_encode_upper_format
              (hmac_sha256 keyBuffer (utf8 (dataString t m term)))) as [Hl Hf].
  rewrite Hl, hmac_sha256_length. split; [reflexivity | exact Hf].
Qed.

Lemma signature_format_witness :
  exists signature,
    generateSecureHash (JStr "25010709050304") (JStr "10001") (JStr "20002") (JStr "4a656665")
    = Return signature
    /\ String.length signature = 64%nat.
Proof.
  eexists. split; [reflexivity|].
  apply (signature_format (JStr "25010709050304") (JStr "10001") (JStr "20002")
           (JStr "4a656665")).
  reflexivity.
Defined.

(** X4. Whatever follows a valid hexadecimal key and does not itself decode
    to any byte - an odd last digit, a line break, any text whose first two
    code units are not both read as hexadecimal digits - is ignored: the
    signature is the one of the valid part. *)
Theorem key_suffix_ignored (t m term : jsval) (k s : string) (bytes : Buffer) :
  hexDecode k = Some bytes ->
  Buffer_from_hex s = [] ->
  generateSecureHash t m term (JStr (k +:+ s)) = generateSecureHash t m term (JStr k).
Proof.
  intros Hk Hs. unfold generateSecureHash. cbn [Buffer_from].
  rewrite (Buffer_from_hex_app (String.length k) k s bytes (le_n _) Hk), Hs, app_nil_r.
  now rewrite (Buffer_from_hex_strict (String.length k) k bytes (le_n _) Hk).
Qed.

Lemma key_suffix_ignored_witness :
  generateSecureHash (JStr "25010709050304") (JStr "10001") (JStr "20002") (JStr "4a6566657")
  = generateSecureHash (JStr "25010709050304") (JStr "10001") (JStr "20002") (JStr "4a656665").
Proof.
  apply (key_suffix_ignored _ _ _ "4a656665" "7" (utf8 "Jefe")); reflexivity.
Defined.

(** X5. The key is read without regard to the case of its letters: two
    keys that become equal when their ASCII letters are put in upper case
    give the same signature. *)
Theorem key_case_insensitive (t m term : jsval) (k k' : string) :
  toUpperCase k = toUpperCase k' ->
  generateSecureHash t m term (JStr k) = generateSecureHash t m term (JStr k').
Proof.
  intros H. unfold generateSecureHash. cbn [Buffer_from].
  rewrite <- (Buffer_from_hex_upper (String.length k) k (le_n _)).
  rewrite <- (Buffer_from_hex_upper (String.length k') k' (le_n _)).
  now rewrite H.
Qed.

Lemma key_case_insensitive_witness :
  generateSecureHash (JStr "25010709050304") (JStr "10001") (JStr "20002") (JStr "4a656665aF")
  = generateSecureHash (JStr "25010709050304") (JStr "10001") (JStr "20002") (JStr "4A656665Af").
Proof.
  apply (key_case_insensitive _ _ _ "4a656665aF" "4A656665Af"). reflexivity.
Defined.

Lemma hmac_key_zero_padding (key msg : Buffer) :
  (length key < 64)%nat -> hmac_sha256 (key ++ [x00]) msg = hmac_sha256 key msg.
Proof.
  intros Hlen. unfold hmac_sha256. cbv zeta.
  rewrite length_app. cbn [length].
  destruct (Nat.ltb_spec 64 (length key + 1)) as [?|_]; [lia|].
  destruct (Nat.ltb_spec 64 (length key)) as [?|_]; [lia|].
  assert (Hpad : (key ++ [x00]) ++ repeat x00 (64 - length (key ++ [x00]))
                 = key ++ repeat x00 (64 - length key)).
  { rewrite length_app, <- app_assoc. cbn [length]. f_equal.
    replace (64 - length key)%nat with (S (64 - (length key + 1))) by lia.
    reflexivity. }
  now rewrite Hpad.
Qed.

(** X6. Zero bytes at the end of a key shorter than 64 bytes do not count:
    appending "00" to a valid hexadecimal key of fewer than 64 bytes leaves
    the signature unchanged, although the key bytes differ. *)
Theorem key_trailing_zero_byte (t m term : jsval) (k : string) (bytes : Buffer) :
  hexDecode k = Some bytes ->
  (length bytes < 64)%nat ->
  generateSecureHash t m term (JStr (k +:+ "00")) = generateSecureHash t m term (JStr k).
Proof.
  intros Hk Hlen. unfold generateSecureHash. cbn [Buffer_from].
  rewrite (Buffer_from_hex_app (String.length k) k "00" bytes (le_n _) Hk).
  rewrite (Buffer_from_hex_strict (String.length k) k bytes (le_n _) Hk).
  change (Buffer_from_hex "00") with [x00].
  now rewrite hmac_key_zero_padding.
Qed.

Lemma key_trailing_zero_byte_witness :
  generateSecureHash (JStr "25010709050304") (JStr "10001") (JStr "20002") (JStr "4a65666500")
  = generateSecureHash (JStr "25010709050304") (JStr "10001") (JStr "20002") (JStr "4a656665").
Proof.
  apply (key_trailing_zero_byte _ _ _ "4a656665" (utf8 "Jefe")); [reflexivity|].
  simpl. lia.
Defined.

(** ** The gateway client: what is sent *)

Lemma prepare_Return (w : World) (pd payload : gmap string jsval) :
  prepare w pd = Return payload ->
  first_falsy requiredFields pd = None
  /\ exists h,
       generateSecureHash (JStr (generateTransactionDateTime (now w)))
         (get pd "merchantId") (get pd "terminalId") (get pd "merchantSecretKey")
       = Return h
       /\ payload = requestPayload pd (generateTransactionDateTime (now w)) h.
Proof.
  unfold prepare. rewrite validate_first_falsy.
  destruct (first_falsy requiredFields pd); [discriminate|].
  destruct (generateSecureHash _ _ _ _) as [h|]; [|discriminate].
  intros [= <-]. split; [reflexivity|]. now exists h.
Qed.

Lemma prepare_Throw (w : World) (pd : gmap string jsval) (e : jserr) :
  prepare w pd = Throw e -> exists msg, e = Error msg.
Proof.
  unfold prepare. rewrite validate_first_falsy.
  destruct (first_falsy requiredFields pd); [intros [= <-]; eauto|].
  unfold generateSecureHash.
  destruct (Buffer_from _); [discriminate | intros [= <-]; eauto].
Qed.

(** Every body sent, by any revision, is the payload that was prepared. *)
Lemma sent_prepared (r : revision) (w : World) (pd payload : gmap string jsval) :
  sent_by r w pd payload -> prepare w pd = Return payload.
Proof.
  unfold sent_by. destruct (prepare w pd) as [p|e] eqn:Hprep.
  - assert (Hin : forall l : list (gmap string jsval),
               payload ∈ l -> (forall q, q ∈ l -> q = p) -> Return (A := gmap string jsval) p
                                                         = Return payload).
    { intros l Hl Hall. now rewrite (Hall payload Hl). }
    destruct r; cbn [requestToPay_rev].
    + rewrite (requestToPay_prepared w _ _ Hprep). cbn [snd posted_bodies].
      intros H. apply (Hin _ H). intros q Hq. now apply list_elem_of_singleton in Hq.
    + rewrite (requestToPay_retry_prepared w _ _ Hprep).
      intros H. apply (Hin _ H). clear H. intros q Hq.
      destruct (settle _ (upstream w 0)); [|destruct (retryable _)];
        [| destruct (settle _ (upstream w 1)); [|destruct (retryable _)];
           [| destruct (settle _ (upstream w 2)) | ] | ];
        cbn [snd posted_bodies] in Hq;
        repeat (apply elem_of_cons in Hq as [-> | Hq]; [reflexivity|]);
        inversion Hq.
    + rewrite (requestToPay_basic_prepared w _ _ Hprep). cbn [snd posted_bodies].
      intros H. apply (Hin _ H). intros q Hq. now apply list_elem_of_singleton in Hq.
  - destruct (requestToPay_prepare_fails w _ _ Hprep) as (H1 & H2 & H3).
    destruct r; cbn [requestToPay_rev]; rewrite ?H1, ?H2, ?H3; cbn;
      intros H; inversion H.
Qed.

(** X7. Every payload that any revision sends carries the eight mandatory
    wire fields; the mobile number, merchant id and terminal id are those of
    the payment data; and its [SecureHash] is the signature, under the
    merchant's key, of the very timestamp, merchant id and terminal id that
    the same payload carries. *)
Theorem sent_payload_is_signed
    (r : revision) (w : World) (paymentData payload : gmap string jsval) :
  sent_by r w paymentData payload ->
  exists t h,
    payload !! "DateTimeLocalTrxn" = Some (JStr t)
    /\ payload !! "SecureHash" = Some (JStr h)
    /\ payload !! "MerchantId" = Some (get paymentData "merchantId")
    /\ payload !! "TerminalId" = Some (get paymentData "terminalId")
    /\ payload !! "MobileNumber" = Some (get paymentData "mobileNumber")
    /\ payload !! "AmountTrxn" = Some (JNum (parseInt (get paymentData "amountTrxn")))
    /\ payload !! "Currency" = Some (JNum (parseInt (get paymentData "currency")))
    /\ payload !! "MerchantReference"
       = Some (js_or (get paymentData "merchantReference") (JStr ""))
    /\ t = generateTransactionDateTime (now w)
    /\ generateSecureHash (JStr t) (get paymentData "merchantId")
         (get paymentData "terminalId") (get paymentData "merchantSecretKey")
       = Return h.
Proof.
  intros Hsent. apply sent_prepared, prepare_Return in Hsent as (_ & h & Hh & ->).
  exists (generateTransactionDateTime (now w)), h.
  rewrite requestPayload_AmountTrxn, requestPayload_Currency.
  unfold requestPayload. cbv zeta.
  repeat split; try reflexivity; try exact Hh; now read_payload.
Qed.

Lemma sent_payload_is_signed_witness :
  exists (payload : gmap string jsval) t h,
    payload !! "DateTimeLocalTrxn" = Some (JStr t)
    /\ payload !! "SecureHash" = Some (JStr h)
    /\ generateSecureHash (JStr t) (JStr "10001") (JStr "20002") (JStr "4a656665")
       = Return h.
Proof.
  destruct (prepare_succeeds (sample_world (Responded 200 "{}")) sample_paymentData
              "4a656665" sample_paymentData_complete eq_refl) as [p Hprep].
  assert (Hsent : sent_by Current (sample_world (Responded 200 "{}")) sample_paymentData p).
  { unfold sent_by. cbn [requestToPay_rev].
    rewrite (requestToPay_prepared _ _ _ Hprep). now left. }
  destruct (sent_payload_is_signed _ _ _ _ Hsent)
    as (t & h & Ht & Hh & _ & _ & _ & _ & _ & _ & _ & Hsig).
  exists p, t, h. repeat split; assumption.
Defined.

Lemma requestPayload_other_field (pd : gmap string jsval) (t h k : string) :
  k ∉ wire_fields -> requestPayload pd t h !! k = None.
Proof.
  intros Hk.
  assert (Hne : forall n, n ∈ wire_fields -> n ≠ k) by (intros n Hn ->; contradiction).
  unfold requestPayload. cbv zeta.
  repeat first
    [ rewrite lookup_set_if_ne by (apply Hne; field_listed)
    | rewrite lookup_insert_ne by (apply Hne; field_listed) ].
  apply lookup_empty.
Qed.

(** X8. A payload sent by any revision has no field outside the sixteen
    names of the wire format: the secret key is never sent as a field, nor
    is any other property that the payment data object may carry. *)
Theorem sent_payload_fields
    (r : revision) (w : World) (paymentData payload : gmap string jsval) (k : string) :
  sent_by r w paymentData payload ->
  is_Some (payload !! k) ->
  k ∈ wire_fields /\ k ≠ "merchantSecretKey".
Proof.
  intros Hsent Hk. apply sent_prepared, prepare_Return in Hsent as (_ & h & _ & ->).
  assert (Hin : k ∈ wire_fields).
  { destruct (decide (k ∈ wire_fields)) as [Hin|Hout]; [exact Hin|].
    rewrite (requestPayload_other_field _ _ _ _ Hout) in Hk. now destruct Hk. }
  split; [exact Hin|]. intros ->. revert Hin.
  apply (bool_decide_unpack _). vm_compute. exact I.
Qed.

Lemma requestPayload_SecureHash (pd : gmap string jsval) (t h : string) :
  requestPayload pd t h !! "SecureHash" = Some (JStr h).
Proof. unfold requestPayload. cbv zeta. now read_payload. Qed.

Lemma sent_payload_fields_witness :
  exists payload : gmap string jsval,
    sent_by Current (sample_world (Responded 200 "{}"))
      (<["note" := JStr "internal"]> sample_paymentData) payload
    /\ is_Some (payload !! "SecureHash")
    /\ "SecureHash" ∈ wire_fields
    /\ payload !! "note" = None.
Proof.
  assert (Hall : forall f, f ∈ requiredFields ->
             truthy (get (<["note" := JStr "internal"]> sample_paymentData) f) = true).
  { intros f Hf. unfold requiredFields in Hf.
    repeat (apply elem_of_cons in Hf as [-> | Hf]; [vm_compute; reflexivity|]).
    inversion Hf. }
  destruct (prepare_succeeds (sample_world (Responded 200 "{}"))
              (<["note" := JStr "internal"]> sample_paymentData)
              "4a656665" Hall eq_refl) as [p Hprep].
  assert (Hsent : sent_by Current (sample_world (Responded 200 "{}"))
                    (<["note" := JStr "internal"]> sample_paymentData) p).
  { unfold sent_by. cbn [requestToPay_rev].
    rewrite (requestToPay_prepared _ _ _ Hprep). now left. }
  assert (Hhash : is_Some (p !! "SecureHash")).
  { destruct (prepare_Return _ _ _ Hprep) as (_ & h & _ & ->).
    rewrite requestPayload_SecureHash. eauto. }
  exists p. split; [exact Hsent|]. split; [exact Hhash|]. split.
  - exact (proj1 (sent_payload_fields _ _ _ _ "SecureHash" Hsent Hhash)).
  - destruct (p !! "note") as [v|] eqn:Hv; [|reflexivity].
    destruct (sent_payload_fields _ _ _ _ "note" Hsent) as [Hin _]; [now rewrite Hv|].
    exfalso. revert Hin. apply (bool_decide_unpack _). vm_compute. exact I.
Defined.

(** ** The gateway client: what is raised *)

Lemma on_error_plain (e : jserr) : exists msg, on_error e = Error msg.
Proof.
  unfold on_error, api_error, connectivity_error.
  destruct (response e) as [[status data]|]; [eauto|].
  repeat match goal with
         | |- context [if ?b then _ else _] => destruct b
         end; eauto.
Qed.

Lemma on_error_retry_plain (w : World) (e : jserr) : exists msg, on_error_retry w e = Error msg.
Proof.
  unfold on_error_retry, api_error, connectivity_error.
  destruct (response e) as [[status data]|]; [eauto|].
  repeat match goal with
         | |- context [if ?b then _ else _] => destruct b
         end; eauto.
Qed.

Lemma on_error_basic_plain (e : jserr) : exists msg, on_error_basic e = Error msg.
Proof.
  unfold on_error_basic, api_error.
  destruct (response e) as [[status data]|]; [eauto|].
  destruct (request e); eauto.
Qed.

(** X9. Whatever goes wrong, in any revision, the error that
    [requestToPay] raises is a fresh [Error] that holds a message and
    nothing else: the error object of the HTTP client, with its code, its
    request and its response, is never passed on to the caller. *)
Theorem raised_errors_are_plain
    (r : revision) (w : World) (paymentData : gmap string jsval) (e : jserr) :
  fst (run (requestToPay_rev r w paymentData)) = Throw e ->
  exists msg, e = Error msg.
Proof.
  destruct (prepare w paymentData) as [payload|e0] eqn:Hprep.
  - destruct r; cbn [requestToPay_rev].
    + rewrite (requestToPay_prepared w _ _ Hprep). cbn [fst].
      destruct (settle _ _) as [?|e1]; [discriminate|].
      intros [= <-]. apply on_error_plain.
    + rewrite (requestToPay_retry_prepared w _ _ Hprep).
      destruct (settle _ (upstream w 0)) as [?|e1]; [discriminate|].
      destruct (retryable e1); [|intros [= <-]; apply on_error_retry_plain].
      destruct (settle _ (upstream w 1)) as [?|e2]; [discriminate|].
      destruct (retryable e2); [|intros [= <-]; apply on_error_retry_plain].
      destruct (settle _ (upstream w 2)) as [?|e3]; [discriminate|].
      intros [= <-]. apply on_error_retry_plain.
    + rewrite (requestToPay_basic_prepared w _ _ Hprep). cbn [fst].
      destruct (settle _ _) as [?|e1]; [discriminate|].
      intros [= <-]. apply on_error_basic_plain.
  - destruct (requestToPay_prepare_fails w _ _ Hprep) as (H1 & H2 & H3).
    destruct r; cbn [requestToPay_rev]; rewrite ?H1, ?H2, ?H3; cbn [fst];
      intros [= <-];
      [apply on_error_plain | apply on_error_retry_plain | apply on_error_basic_plain].
Qed.

Lemma raised_errors_are_plain_witness :
  exists msg,
    fst (run (requestToPay_retry (sample_world (Responded 503 "busy")) sample_paymentData))
    = Throw (Error msg).
Proof.
  destruct (fst (run (requestToPay_retry (sample_world (Responded 503 "busy"))
                        sample_paymentData))) as [d|e] eqn:Hrun.
  - exfalso. revert Hrun. vm_compute. discriminate.
  - destruct (raised_errors_are_plain Retrying _ _ e Hrun) as [msg ->]. now exists msg.
Defined.

(** X10. When the upstream answers the first call with a status of 500 or
    more, the current and the retrying revision both raise
    "UPG API Error (<status>): <body>" after that single call: a server
    error is reported with the body received and is not retried. *)
Theorem server_error_reported_once
    (w : World) (paymentData : gmap string jsval) (k : string) (status : Z) (data : Data) :
  (forall f, f ∈ requiredFields -> truthy (get paymentData f) = true) ->
  get paymentData "merchantSecretKey" = JStr k ->
  upstream w 0 = Responded status data ->
  500 <= status ->
  exists payload,
    run (requestToPay w paymentData)
    = (Throw (Error ("UPG API Error (" +:+ int_toString status +:+ "): " +:+ data)),
       [Post (target w) payload 45000])
    /\ run (requestToPay_retry w paymentData)
       = (Throw (Error ("UPG API Error (" +:+ int_toString status +:+ "): " +:+ data)),
          [Post (target w) payload 90000]).
Proof.
  intros Hall Hkey Hup Hstatus.
  destruct (prepare_succeeds w paymentData k Hall Hkey) as [payload Hprep].
  exists payload.
  rewrite (requestToPay_prepared w _ _ Hprep), (requestToPay_retry_prepared w _ _ Hprep).
  rewrite Hup.
  destruct (settle (fun s => s <? 500) (Responded status data)) as [r0|e0] eqn:Hsettle.
  { exfalso. cbn [settle] in Hsettle.
    rewrite (proj2 (Z.ltb_ge status 500) Hstatus) in Hsettle. discriminate. }
  rewrite (response_error_not_retryable _ _ _ _ Hsettle).
  cbn [settle] in Hsettle. rewrite (proj2 (Z.ltb_ge status 500) Hstatus) in Hsettle.
  injection Hsettle as <-. split; reflexivity.
Qed.

Lemma server_error_reported_once_witness :
  fst (run (requestToPay_retry (sample_world (Responded 503 "busy")) sample_paymentData))
  = Throw (Error "UPG API Error (503): busy")
  /\ post_count (snd (run (requestToPay_retry (sample_world (Responded 503 "busy"))
                            sample_paymentData))) = 1%nat.
Proof.
  destruct (server_error_reported_once (sample_world (Responded 503 "busy"))
              sample_paymentData "4a656665" 503 "busy"
              sample_paymentData_complete eq_refl eq_refl ltac:(lia))
    as (payload & _ & ->).
  split; reflexivity.
Defined.

(** ** The gateway client: the retrying revision *)

Lemma retry_class_retryable (e : NetError) : retry_class e -> retryable (error_of e) = true.
Proof.
  unfold retry_class, retryable, code_is, error_of. cbn [code message].
  intros [-> | [-> | [-> | ->]]]; cbn; rewrite ?orb_true_r; reflexivity.
Qed.

Lemma settle_Failed (validateStatus : Z -> bool) (e : NetError) :
  settle validateStatus (Failed e) = Throw (error_of e).
Proof. reflexivity. Qed.

(** X11. In the retrying revision, when the first [k] attempts ([k] at most
    2) fail with errors of the retry class and the next attempt is answered
    with a status below 500, the caller receives the body of that answer;
    [k + 1] calls were made, separated by waits of 3000 ms and then
    6000 ms. *)
Theorem retry_recovers
    (w : World) (paymentData payload : gmap string jsval) (k : nat)
    (status : Z) (data : Data) :
  prepare w paymentData = Return payload ->
  (k <= 2)%nat ->
  (forall i, (i < k)%nat -> exists e, upstream w i = Failed e /\ retry_class e) ->
  upstream w k = Responded status data ->
  status < 500 ->
  let r := run (requestToPay_retry w paymentData) in
  fst r = Return data
  /\ post_count (snd r) = S k
  /\ waits (snd r) = take k [3000; 6000].
Proof.
  intros Hprep Hk Hfail Hup Hstatus.
  rewrite (requestToPay_retry_prepared w _ _ Hprep).
  assert (Hok : settle (fun s => s <? 500) (Responded status data) = Return (status, data)).
  { cbn [settle]. now rewrite (proj2 (Z.ltb_lt status 500) Hstatus). }
  destruct k as [|[|[|k]]]; [| | |lia].
  - rewrite Hup, Hok. repeat split; reflexivity.
  - destruct (Hfail 0%nat ltac:(lia)) as (e0 & -> & Hc0).
    rewrite settle_Failed, (retry_class_retryable _ Hc0), Hup, Hok.
    repeat split; reflexivity.
  - destruct (Hfail 0%nat ltac:(lia)) as (e0 & -> & Hc0).
    destruct (Hfail 1%nat ltac:(lia)) as (e1 & -> & Hc1).
    rewrite !settle_Failed, (retry_class_retryable _ Hc0), (retry_class_retryable _ Hc1).
    rewrite Hup, Hok. repeat split; reflexivity.
Qed.

Lemma retry_recovers_witness :
  fst (run (requestToPay_retry (world_of [Failed axios_timeout; Failed connection_reset]
                                  (Responded 200 "{}")) sample_paymentData))
  = Return "{}".
Proof.
  destruct (prepare_succeeds (world_of [Failed axios_timeout; Failed connection_reset]
                                (Responded 200 "{}")) sample_paymentData
              "4a656665" sample_paymentData_complete eq_refl) as [payload Hprep].
  apply (retry_recovers _ _ payload 2 200 "{}" Hprep); [lia | | reflexivity | lia].
  intros i Hi. destruct i as [|[|i]]; [| |lia].
  - exists axios_timeout. split; [reflexivity|]. left. reflexivity.
  - exists connection_reset. split; [reflexivity|]. right; right; left. reflexivity.
Defined.

(** X12. In the retrying revision, when three attempts in a row fail with
    errors of the retry class, no fourth attempt is made: after waits of
    3000 ms and 6000 ms the error raised is the report of the third
    failure. *)
Theorem retry_gives_up
    (w : World) (paymentData payload : gmap string jsval) (e0 e1 e2 : NetError) :
  prepare w paymentData = Return payload ->
  upstream w 0 = Failed e0 -> retry_class e0 ->
  upstream w 1 = Failed e1 -> retry_class e1 ->
  upstream w 2 = Failed e2 ->
  let r := run (requestToPay_retry w paymentData) in
  fst r = Throw (on_error_retry w (error_of e2))
  /\ post_count (snd r) = 3%nat
  /\ waits (snd r) = [3000; 6000].
Proof.
  intros Hprep H0 Hc0 H1 Hc1 H2.
  rewrite (requestToPay_retry_prepared w _ _ Hprep), H0, H1, H2.
  rewrite !settle_Failed, (retry_class_retryable _ Hc0), (retry_class_retryable _ Hc1).
  repeat split; reflexivity.
Qed.

Lemma retry_gives_up_witness :
  fst (run (requestToPay_retry (sample_world (Failed axios_timeout)) sample_paymentData))
  = Throw (Error "Request timeout after 90 seconds. This may indicate slow network or AWS NAT Gateway issues. Check AWS VPC configuration.").
Proof.
  destruct (prepare_succeeds (sample_world (Failed axios_timeout)) sample_paymentData
              "4a656665" sample_paymentData_complete eq_refl) as [payload Hprep].
  destruct (retry_gives_up _ _ payload axios_timeout axios_timeout axios_timeout Hprep
              eq_refl ltac:(left; reflexivity) eq_refl ltac:(left; reflexivity) eq_refl)
    as (-> & _).
  reflexivity.
Defined.

(** X13. When the upstream answers the first call - with whatever status -
    or when the request cannot be prepared, the retrying revision raises or
    returns exactly what the current revision does: retrying changes the
    outcome only of calls that got no answer. *)
Theorem retrying_agrees_on_answers (w : World) (paymentData : gmap string jsval) :
  (exists status data, upstream w 0 = Responded status data)
  \/ (exists e, prepare w paymentData = Throw e) ->
  fst (run (requestToPay_retry w paymentData)) = fst (run (requestToPay w paymentData)).
Proof.
  intros H. destruct (prepare w paymentData) as [payload|e] eqn:Hprep.
  - destruct H as [(status & data & Hup) | [e He]]; [|discriminate].
    rewrite (requestToPay_prepared w _ _ Hprep), (requestToPay_retry_prepared w _ _ Hprep).
    rewrite Hup.
    destruct (settle _ (Responded status data)) as [r0|e0] eqn:Hsettle; [reflexivity|].
    rewrite (response_error_not_retryable _ _ _ _ Hsettle). cbn [fst].
    cbn [settle] in Hsettle. destruct (status <? 500); [discriminate|].
    now injection Hsettle as <-.
  - destruct (requestToPay_prepare_fails w _ _ Hprep) as (-> & -> & _).
    destruct (prepare_Throw w _ _ Hprep) as [msg ->]. reflexivity.
Qed.

Lemma retrying_agrees_on_answers_witness :
  fst (run (requestToPay_retry (sample_world (Responded 404 "{}")) sample_paymentData))
  = fst (run (requestToPay (sample_world (Responded 404 "{}")) sample_paymentData)).
Proof.
  apply (retrying_agrees_on_answers (sample_world (Responded 404 "{}")) sample_paymentData).
  left. exists 404, "{}". reflexivity.
Defined.

(** X14. A key that is a number or the boolean [true] makes every revision
    fail before anything is sent: the error raised says "Request setup
    error: Failed to generate secure hash: " followed by the complaint of
    [Buffer.from], which describes the value received. *)
Theorem non_string_key_fails_early
    (r : revision) (w : World) (paymentData : gmap string jsval) :
  (forall f, f ∈ requiredFields -> truthy (get paymentData f) = true) ->
  get paymentData "merchantSecretKey" = JBool true
  \/ (exists x, get paymentData "merchantSecretKey" = JNum x) ->
  run (requestToPay_rev r w paymentData)
  = (Throw (Error ("Request setup error: Failed to generate secure hash: The first argument must be of type string or an instance of Buffer, ArrayBuffer, or Array or an Array-like Object. Received "
                   +:+ received (get paymentData "merchantSecretKey"))), []).
Proof.
  intros Hall Hkey.
  destruct (requestToPay_prepare_fails w _ _ (prepare_primitive_key w paymentData Hall Hkey))
    as (H1 & H2 & H3).
  destruct r; cbn [requestToPay_rev]; rewrite ?H1, ?H2, ?H3; reflexivity.
Qed.

Lemma non_string_key_fails_early_witness :
  run (requestToPay (sample_world (Responded 200 "{}"))
         (<["merchantSecretKey" := JNum (Num.of_Z 12345)]> sample_paymentData))
  = (Throw (Error "Request setup error: Failed to generate secure hash: The first argument must be of type string or an instance of Buffer, ArrayBuffer, or Array or an Array-like Object. Received type number (12345)"), []).
Proof.
  etransitivity.
  - apply (non_string_key_fails_early Current (sample_world (Responded 200 "{}"))
             (<["merchantSecretKey" := JNum (Num.of_Z 12345)]> sample_paymentData)).
    + intros f Hf. unfold requiredFields in Hf.
      repeat (apply elem_of_cons in Hf as [-> | Hf]; [vm_compute; reflexivity|]).
      inversion Hf.
    + right. eexists. reflexivity.
  - vm_compute. reflexivity.
Defined.

(** ** The handler: replies *)

(** The handler, case by case. *)
Lemma handler_run (w : World) (body : gmap string jsval) :
  run (post_request_to_pay w body) =
  if negb (truthy (get body "amount")) || negb (truthy (get body "mobileNumber")) then
    (Return {| http_status := 400;
               envelope := Failure "Amount and Mobile Number are required fields." |}, [])
  else if Num.leb (amountInPiasters (get body "amount")) (Num.of_Z 0) then
    (Return {| http_status := 400;
               envelope := Failure "Amount must be greater than zero." |}, [])
  else
    match buildPaymentData w body (amountInPiasters (get body "amount")) with
    | Throw e => (Return (error_reply e), [])
    | Return pd =>
        match run (requestToPay w pd) with
        | (Return data, tr) =>
            (Return {| http_status := 200;
                       envelope := Success data (get body "amount") (get body "mobileNumber")
                                     (get pd "merchantReference") |}, tr)
        | (Throw e, tr) => (Return (error_reply e), tr)
        end
    end.
Proof.
  unfold run, post_request_to_pay, try_catch, bind, lift, ret. cbv zeta.
  destruct (negb _ || negb _); [reflexivity|].
  destruct (Num.leb _ _); [reflexivity|].
  destruct (buildPaymentData _ _ _) as [pd|e]; [|reflexivity].
  destruct (requestToPay w pd []) as [[data|e] tr]; reflexivity.
Qed.

(** The current revision makes at most one call and never waits; it returns
    exactly when the upstream answered that call below 500. *)
Lemma requestToPay_run (w : World) (pd : gmap string jsval) :
  (exists e, run (requestToPay w pd) = (Throw e, []))
  \/ (exists payload,
        prepare w pd = Return payload
        /\ ((exists status data,
                upstream w 0 = Responded status data /\ status < 500
                /\ run (requestToPay w pd) = (Return data, [Post (target w) payload 45000]))
            \/ (exists e,
                  (forall status data, upstream w 0 = Responded status data -> 500 <= status)
                  /\ run (requestToPay w pd) = (Throw e, [Post (target w) payload 45000])))).
Proof.
  destruct (prepare w pd) as [payload|e] eqn:Hprep.
  - right. exists payload. split; [reflexivity|].
    rewrite (requestToPay_prepared w _ _ Hprep).
    destruct (upstream w 0) as [status data|ne] eqn:Hup; cbn [settle].
    + destruct (Z.ltb_spec status 500) as [Hlt|Hge].
      * left. exists status, data. split; [reflexivity|]. split; [exact Hlt|reflexivity].
      * right. eexists. split; [|reflexivity].
        intros s d [= <- <-]. exact Hge.
    + right. eexists. split; [|reflexivity]. intros s d [=].
  - left. destruct (requestToPay_prepare_fails w _ _ Hprep) as (-> & _). eauto.
Qed.

(** The handler settles every request with a reply. *)
Lemma handler_returns (w : World) (body : gmap string jsval) :
  exists reply tr, run (post_request_to_pay w body) = (Return reply, tr).
Proof.
  rewrite handler_run.
  destruct (negb _ || negb _); [eauto|].
  destruct (Num.leb _ _); [eauto|].
  destruct (buildPaymentData _ _ _) as [pd|e]; [|eauto].
  destruct (run (requestToPay w pd)) as [[d|e] tr]; eauto.
Qed.

(** X15. The handler answers every request: it never lets an exception
    escape. It replies 200 with the success envelope after exactly one
    outbound call, or 400 with an error envelope and no call at all, or 500
    with an error envelope after at most one call; it never waits. *)
Theorem handler_always_replies (w : World) (body : gmap string jsval) :
  exists reply tr,
    run (post_request_to_pay w body) = (Return reply, tr)
    /\ waits tr = []
    /\ match envelope reply with
       | Success _ _ _ _ => http_status reply = 200 /\ post_count tr = 1%nat
       | Failure _ =>
           (http_status reply = 400 /\ tr = [])
           \/ (http_status reply = 500 /\ (post_count tr <= 1)%nat)
       end.
Proof.
  rewrite handler_run.
  destruct (negb _ || negb _).
  { do 2 eexists. split; [reflexivity|]. cbn. split; [reflexivity|]. left. now split. }
  destruct (Num.leb _ _).
  { do 2 eexists. split; [reflexivity|]. cbn. split; [reflexivity|]. left. now split. }
  destruct (buildPaymentData _ _ _) as [pd|e].
  2:{ do 2 eexists. split; [reflexivity|]. cbn. split; [reflexivity|]. right. split; [reflexivity|lia]. }
  destruct (requestToPay_run w pd)
    as [[e ->] | (payload & _ & [(s & d & _ & _ & ->) | (e & _ & ->)])];
    do 2 eexists; (split; [reflexivity|]); cbn; (split; [reflexivity|]).
  - right. split; [reflexivity|lia].
  - split; reflexivity.
  - right. split; [reflexivity|lia].
Qed.

(** X16. The handler replies 200 exactly when the upstream answered its
    call with a status below 500, and the envelope then carries the body
    of that answer: a refusal that the upstream signals with a status such
    as 404, or inside the body, still reaches the caller as HTTP 200 with
    [success: true]. *)
Theorem handler_ok_iff_upstream_answered
    (w : World) (body : gmap string jsval) (reply : Reply) (tr : list event) :
  run (post_request_to_pay w body) = (Return reply, tr) ->
  (http_status reply = 200
   <-> exists status data,
         post_count tr = 1%nat /\ upstream w 0 = Responded status data /\ status < 500)
  /\ (http_status reply = 200 ->
      exists data merchantReference,
        (exists status, upstream w 0 = Responded status data)
        /\ envelope reply
           = Success data (get body "amount") (get body "mobileNumber") merchantReference).
Proof.
  rewrite handler_run.
  destruct (negb _ || negb _).
  { intros [= <- <-]. cbn. split; [split|]; [discriminate | | discriminate].
    intros (s & d & H & _). discriminate H. }
  destruct (Num.leb _ _).
  { intros [= <- <-]. cbn. split; [split|]; [discriminate | | discriminate].
    intros (s & d & H & _). discriminate H. }
  destruct (buildPaymentData _ _ _) as [pd|e].
  2:{ intros [= <- <-]. cbn. split; [split|]; [discriminate | | discriminate].
      intros (s & d & H & _). discriminate H. }
  destruct (requestToPay_run w pd)
    as [[e ->] | (payload & _ & [(s & d & Hup & Hlt & ->) | (e & Hge & ->)])];
    intros [= <- <-]; cbn.
  - split; [split|]; [discriminate | | discriminate].
    intros (s & d & H & _). discriminate H.
  - split; [split|]; eauto 8.
  - split; [split|]; [discriminate | | discriminate].
    intros (s & d & _ & Hup & Hlt). specialize (Hge _ _ Hup). lia.
Qed.

Lemma handler_ok_iff_upstream_answered_witness :
  exists reply tr,
    run (post_request_to_pay (sample_world (Responded 404 "refused"))
           (request_body "10.50" "01012345678")) = (Return reply, tr)
    /\ http_status reply = 200.
Proof.
  destruct (handler_returns (sample_world (Responded 404 "refused"))
              (request_body "10.50" "01012345678")) as (reply & tr & Hrun).
  exists reply, tr. split; [exact Hrun|].
  apply (proj1 (handler_ok_iff_upstream_answered _ _ _ _ Hrun)).
  exists 404, "refused".
  split; [|split; [reflexivity | lia]].
  replace tr with (snd (run (post_request_to_pay (sample_world (Responded 404 "refused"))
                               (request_body "10.50" "01012345678"))))
    by (now rewrite Hrun).
  vm_compute. reflexivity.
Defined.

(** ** The handler: what it builds and sends *)

Lemma set_trimmed_lookup_eq (body pd pd' : gmap string jsval) (k : string) :
  set_trimmed body k pd = Return pd' ->
  pd' !! k = match get body k with
             | JStr v => if String.eqb v "" then pd !! k else Some (JStr (trim v))
             | _ => pd !! k
             end.
Proof.
  unfold set_trimmed.
  destruct (get body k) as [| |b|x|v]; cbn [truthy call_trim].
  - now intros [= <-].
  - now intros [= <-].
  - destruct b; [discriminate | now intros [= <-]].
  - destruct (negb _); [discriminate | now intros [= <-]].
  - destruct (String.eqb v ""); cbn [negb]; intros [= <-];
      [reflexivity | apply lookup_insert_eq].
Qed.



(** The properties of the payment data that come from the mandatory inputs
    and from the configuration (server.js, lines 78-87). *)
Lemma buildPaymentData_required (w : World) (body pd : gmap string jsval) (a : Num.number) :
  buildPaymentData w body a = Return pd ->
  exists m,
    get body "mobileNumber" = JStr m
    /\ get pd "amountTrxn" = JNum a
    /\ get pd "currency" = JNum (CURRENCY_EGP (CONFIG w))
    /\ get pd "mobileNumber" = JStr (trim m)
    /\ get pd "merchantId" = MERCHANT_ID (CONFIG w)
    /\ get pd "terminalId" = TERMINAL_ID (CONFIG w)
    /\ get pd "merchantSecretKey" = MERCHANT_SECRET_KEY (CONFIG w)
    /\ get pd "merchantReference"
       = js_or (get body "merchantReference") (JStr ("REF_" +:+ int_toString (Date_now w))).
Proof.
  unfold buildPaymentData, bind_result. cbv zeta.
  destruct (get body "mobileNumber") as [| | | |m] eqn:Hm; try discriminate.
  cbn [call_trim].
  destruct (set_trimmed body "loyaltyNumber" _) as [pd1|] eqn:H1; [|discriminate].
  destruct (set_trimmed body "customerLabel" _) as [pd2|] eqn:H2; [|discriminate].
  destruct (set_trimmed body "purposeOfTransaction" _) as [pd3|] eqn:H3; [|discriminate].
  destruct (set_trimmed body "billNumber" _) as [pd4|] eqn:H4; [|discriminate].
  intros [= <-]. exists m. split; [reflexivity|].
  unfold get.
  rewrite !lookup_set_if_ne by discriminate.
  rewrite !(set_trimmed_lookup_ne _ _ _ _ _ H4), !(set_trimmed_lookup_ne _ _ _ _ _ H3),
          !(set_trimmed_lookup_ne _ _ _ _ _ H2), !(set_trimmed_lookup_ne _ _ _ _ _ H1)
    by discriminate.
  repeat split;
    repeat first [ rewrite lookup_insert_eq | rewrite lookup_insert_ne by discriminate ];
    reflexivity.
Qed.

(** The optional text properties of the payment data (server.js, lines 90-93). *)
Lemma buildPaymentData_trimmed
    (w : World) (body pd : gmap string jsval) (a : Num.number) (f F : string) :
  buildPaymentData w body a = Return pd ->
  (f, F) ∈ trimmed_fields ->
  pd !! f = match get body f with
            | JStr v => if String.eqb v "" then None else Some (JStr (trim v))
            | _ => None
            end.
Proof.
  unfold buildPaymentData, bind_result. cbv zeta.
  destruct (call_trim "mobileNumber" _) as [mobile|]; [|discriminate].
  destruct (set_trimmed body "loyaltyNumber" _) as [pd1|] eqn:H1; [|discriminate].
  destruct (set_trimmed body "customerLabel" _) as [pd2|] eqn:H2; [|discriminate].
  destruct (set_trimmed body "purposeOfTransaction" _) as [pd3|] eqn:H3; [|discriminate].
  destruct (set_trimmed body "billNumber" _) as [pd4|] eqn:H4; [|discriminate].
  intros [= <-] Hin. unfold trimmed_fields in Hin.
  rewrite !lookup_set_if_ne
    by (repeat (apply elem_of_cons in Hin as [[= -> ->] | Hin]; [discriminate|]);
        inversion Hin).
  repeat (apply elem_of_cons in Hin as [[= -> ->] | Hin]); [| | | |inversion Hin].
  - rewrite (set_trimmed_lookup_ne _ _ _ _ _ H4), (set_trimmed_lookup_ne _ _ _ _ _ H3),
            (set_trimmed_lookup_ne _ _ _ _ _ H2) by discriminate.
    rewrite (set_trimmed_lookup_eq _ _ _ _ H1).
    rewrite !lookup_insert_ne by discriminate. rewrite lookup_empty.
    destruct (get body "loyaltyNumber") as [| | | |v]; try reflexivity.
  - rewrite (set_trimmed_lookup_ne _ _ _ _ _ H4), (set_trimmed_lookup_ne _ _ _ _ _ H3)
      by discriminate.
    rewrite (set_trimmed_lookup_eq _ _ _ _ H2).
    rewrite (set_trimmed_lookup_ne _ _ _ _ _ H1) by discriminate.
    rewrite !lookup_insert_ne by discriminate. rewrite lookup_empty.
    destruct (get body "customerLabel") as [| | | |v]; try reflexivity.
  - rewrite (set_trimmed_lookup_ne _ _ _ _ _ H4) by discriminate.
    rewrite (set_trimmed_lookup_eq _ _ _ _ H3).
    rewrite (set_trimmed_lookup_ne _ _ _ _ _ H2), (set_trimmed_lookup_ne _ _ _ _ _ H1)
      by discriminate.
    rewrite !lookup_insert_ne by discriminate. rewrite lookup_empty.
    destruct (get body "purposeOfTransaction") as [| | | |v]; try reflexivity.
  - rewrite (set_trimmed_lookup_eq _ _ _ _ H4).
    rewrite (set_trimmed_lookup_ne _ _ _ _ _ H3), (set_trimmed_lookup_ne _ _ _ _ _ H2),
            (set_trimmed_lookup_ne _ _ _ _ _ H1) by discriminate.
    rewrite !lookup_insert_ne by discriminate. rewrite lookup_empty.
    destruct (get body "billNumber") as [| | | |v]; try reflexivity.
Qed.



Lemma leb_zero_nan (a : Num.number) :
  Num.is_nan a = true -> Num.leb a (Num.of_Z 0) = false.
Proof. destruct a; try discriminate. reflexivity. Qed.

Lemma positive_truthy (a : Num.number) :
  Num.leb a (Num.of_Z 0) = false -> Num.is_nan a = false -> truthy (JNum a) = true.
Proof. destruct a as [s|s| |s m e]; try discriminate; reflexivity. Qed.

Lemma requestPayload_MobileNumber (pd : gmap string jsval) (t h : string) :
  requestPayload pd t h !! "MobileNumber" = Some (get pd "mobileNumber").
Proof. unfold requestPayload. cbv zeta. now read_payload. Qed.

Lemma requestPayload_MerchantReference (pd : gmap string jsval) (t h : string) :
  requestPayload pd t h !! "MerchantReference"
  = Some (js_or (get pd "merchantReference") (JStr "")).
Proof. unfold requestPayload. cbv zeta. now read_payload. Qed.

Lemma requestPayload_Tip (pd : gmap string jsval) (t h : string) :
  requestPayload pd t h !! "Tip"
  = if match get pd "tip" with JBool true => true | _ => false end
    then Some (JBool true) else None.
Proof.
  unfold requestPayload. cbv zeta.
  rewrite !lookup_set_if_ne by discriminate. rewrite lookup_set_if_eq.
  destruct (match get pd "tip" with JBool true => true | _ => false end); [reflexivity|].
  now read_payload.
Qed.

Lemma requestPayload_trimmed (pd : gmap string jsval) (t h f F : string) :
  (f, F) ∈ trimmed_fields ->
  requestPayload pd t h !! F = if truthy (get pd f) then Some (get pd f) else None.
Proof.
  intros Hin. unfold trimmed_fields in Hin.
  unfold requestPayload. cbv zeta.
  repeat (apply elem_of_cons in Hin as [[= -> ->] | Hin]); [| | | |inversion Hin].
  all: rewrite ?lookup_set_if_ne by discriminate; rewrite lookup_set_if_eq;
    match goal with |- context [if ?b then _ else _] => destruct b end;
    [reflexivity | now read_payload].
Qed.

(** The reference generated by default is a non-empty string. *)
Lemma merchantReference_truthy (w : World) (r : jsval) :
  truthy (js_or r (JStr ("REF_" +:+ int_toString (Date_now w)))) = true.
Proof. unfold js_or. destruct (truthy r) eqn:H; [exact H | reflexivity]. Qed.

(** The [Tip] field of what the handler sends. *)
Lemma handler_Tip (w : World) (body payload : gmap string jsval) :
  payload ∈ posted_bodies (snd (run (post_request_to_pay w body))) ->
  payload !! "Tip"
  = if match get body "tip" with JStr t => String.eqb t "true" | _ => false end
    then Some (JBool true) else None.
Proof.
  intros Hsent.
  destruct (handler_sent _ _ _ Hsent) as (pd & Hbuild & Hpd).
  destruct (sent_payload _ _ _ Hpd) as [h ->].
  destruct (buildPaymentData_fees _ _ _ _ Hbuild) as (_ & _ & Htip).
  cbv zeta in Htip.
  rewrite requestPayload_Tip. unfold get at 1. rewrite Htip.
  now destruct (match get body "tip" with JStr t => String.eqb t "true" | _ => false end).
Qed.

(** With a truthy [tip] in the request, the handler sends no fee. *)
Lemma handler_tip_drops_fees (w : World) (body payload : gmap string jsval) :
  payload ∈ posted_bodies (snd (run (post_request_to_pay w body))) ->
  truthy (get body "tip") = true ->
  fee_fields payload = (None, None).
Proof.
  intros Hsent Htruthy.
  destruct (handler_sent _ _ _ Hsent) as (pd & Hbuild & Hpd).
  destruct (sent_payload _ _ _ Hpd) as [h ->].
  destruct (buildPaymentData_fees _ _ _ _ Hbuild) as (Hfixed & Hpct & _).
  cbv zeta in Hfixed, Hpct. rewrite Htruthy in Hfixed, Hpct.
  cbn [negb] in Hfixed, Hpct. rewrite andb_false_r in Hfixed, Hpct.
  cbn [andb] in Hpct.
  unfold fee_fields.
  destruct (requestPayload_fees pd (generateTransactionDateTime (now w)) h) as [-> ->].
  unfold get. rewrite Hfixed, Hpct. reflexivity.
Qed.

Lemma number_same_eq (x y : Num.number) : number_same x y = true -> x = y.
Proof.
  destruct x as [s|s| |s m e], y as [s'|s'| |s' m' e']; cbn; try discriminate.
  - intros H. apply eqb_prop in H. now subst.
  - intros H. apply eqb_prop in H. now subst.
  - reflexivity.
  - intros H. apply andb_true_iff in H as [H He]. apply andb_true_iff in H as [Hs Hm].
    apply eqb_prop in Hs. apply Pos.eqb_eq in Hm. apply Z.eqb_eq in He. now subst.
Qed.

(** X17. An amount that is not a number (such as [abc]) and a mobile number
    made of blanks only both pass the handler's own checks; the request then
    fails in the gateway client, before anything is sent, and the caller
    receives HTTP 500 instead of 400 - with the message that names
    [amountTrxn], respectively [mobileNumber], as a missing field whenever
    the payment data could be built. *)
Theorem unusable_input_is_a_server_error
    (w : World) (body : gmap string jsval) (m : string) :
  let a := amountInPiasters (get body "amount") in
  truthy (get body "amount") = true ->
  get body "mobileNumber" = JStr m -> m ≠ "" ->
  Num.leb a (Num.of_Z 0) = false ->
  Num.is_nan a = true \/ trim m = "" ->
  exists msg,
    run (post_request_to_pay w body)
    = (Return {| http_status := 500; envelope := Failure msg |}, [])
    /\ (forall pd, buildPaymentData w body a = Return pd ->
          msg = "Request setup error: Missing required field: "
                +:+ (if Num.is_nan a then "amountTrxn" else "mobileNumber")).
Proof.
  intros a Hamount Hm Hne Hpos Hbad.
  rewrite handler_run. fold a.
  rewrite Hamount, Hm, (truthy_JStr m Hne), Hpos. cbn [negb orb].
  destruct (buildPaymentData w body a) as [pd|e] eqn:Hbuild.
  2:{ eexists. split; [reflexivity|]. intros pd [=]. }
  destruct (buildPaymentData_required _ _ _ _ Hbuild)
    as (m' & Hm' & Ha & Hc & Hmob & _).
  rewrite Hm in Hm'. injection Hm' as <-.
  assert (Hfirst : first_falsy requiredFields pd
                   = Some (if Num.is_nan a then "amountTrxn" else "mobileNumber")).
  { unfold requiredFields. cbn [first_falsy]. rewrite Ha.
    destruct (Num.is_nan a) eqn:Hnan.
    - destruct a; try discriminate Hnan. reflexivity.
    - rewrite (positive_truthy a Hpos Hnan), Hc, CURRENCY_EGP_truthy, Hmob.
      destruct Hbad as [Hbad | ->]; [discriminate Hbad | reflexivity]. }
  destruct (requestToPay_prepare_fails w _ _ (prepare_missing w _ _ Hfirst)) as (-> & _).
  eexists. split; [reflexivity|]. intros pd' [= <-]. reflexivity.
Qed.

Lemma unusable_input_is_a_server_error_witness :
  exists msg,
    run (post_request_to_pay (sample_world (Responded 200 "{}"))
           (request_body "abc" "01012345678"))
    = (Return {| http_status := 500; envelope := Failure msg |}, []).
Proof.
  destruct (unusable_input_is_a_server_error (sample_world (Responded 200 "{}"))
              (request_body "abc" "01012345678") "01012345678")
    as (msg & Hrun & _).
  - vm_compute. reflexivity.
  - reflexivity.
  - discriminate.
  - vm_compute. reflexivity.
  - left. vm_compute. reflexivity.
  - exists msg. exact Hrun.
Defined.

(** X18. On a reply with status 200, the envelope and the payload that was
    sent agree on the merchant reference - the one of the request, or
    [REF_] followed by the clock reading when the request gives none - while
    the amount and the mobile number are echoed as they were received: the
    payload carries the amount in piasters and the mobile number trimmed. *)
Theorem reply_echoes_the_request
    (w : World) (body : gmap string jsval) (reply : Reply) (tr : list event) :
  run (post_request_to_pay w body) = (Return reply, tr) ->
  http_status reply = 200 ->
  exists (payload : gmap string jsval) data m ref,
    tr = [Post (target w) payload 45000]
    /\ get body "mobileNumber" = JStr m
    /\ ref = js_or (get body "merchantReference")
               (JStr ("REF_" +:+ int_toString (Date_now w)))
    /\ envelope reply = Success data (get body "amount") (JStr m) ref
    /\ payload !! "MerchantReference" = Some ref
    /\ payload !! "MobileNumber" = Some (JStr (trim m))
    /\ payload !! "AmountTrxn"
       = Some (JNum (parseInt (JNum (amountInPiasters (get body "amount"))))).
Proof.
  rewrite handler_run.
  destruct (negb _ || negb _); [intros [= <- <-]; discriminate|].
  destruct (Num.leb _ _); [intros [= <- <-]; discriminate|].
  destruct (buildPaymentData _ _ _) as [pd|e] eqn:Hbuild; [|intros [= <- <-]; discriminate].
  destruct (buildPaymentData_required _ _ _ _ Hbuild)
    as (m & Hm & Ha & _ & Hmob & _ & _ & _ & Href).
  destruct (requestToPay_run w pd)
    as [[e ->] | (payload & Hprep & [(s & d & _ & _ & ->) | (e & _ & ->)])];
    intros [= <- <-]; try discriminate.
  intros _. cbn [envelope].
  destruct (prepare_Return _ _ _ Hprep) as (_ & h & _ & ->).
  exists (requestPayload pd (generateTransactionDateTime (now w)) h), d, m,
    (get pd "merchantReference").
  rewrite requestPayload_MerchantReference, requestPayload_MobileNumber,
    requestPayload_AmountTrxn, Hm, Hmob, Ha.
  repeat split; [exact Href|].
  f_equal. unfold js_or at 1.
  now rewrite Href, merchantReference_truthy.
Qed.

Lemma reply_echoes_the_request_witness :
  exists (payload : gmap string jsval),
    snd (run (post_request_to_pay (sample_world (Responded 200 "{}"))
                (request_body "10.50" " 01012345678 ")))
    = [Post (target (sample_world (Responded 200 "{}"))) payload 45000]
    /\ payload !! "MobileNumber" = Some (JStr (trim " 01012345678 ")).
Proof.
  destruct (handler_returns (sample_world (Responded 200 "{}"))
              (request_body "10.50" " 01012345678 ")) as (reply & tr & Hrun).
  assert (Hstatus : http_status reply = 200).
  { replace reply
      with (match fst (run (post_request_to_pay (sample_world (Responded 200 "{}"))
                              (request_body "10.50" " 01012345678 "))) with
            | Return r => r
            | Throw _ => reply
            end) by (now rewrite Hrun).
    vm_compute. reflexivity. }
  destruct (reply_echoes_the_request _ _ _ _ Hrun Hstatus)
    as (payload & d & m & ref & Htr & Hm & _ & _ & _ & Hmob & _).
  exists payload. rewrite Hrun. split; [exact Htr|].
  injection Hm as <-. exact Hmob.
Defined.

(** X19. For every amount from 0.01 to 100.00 written with two decimals,
    the handler's conversion [Math.round(parseFloat(amount) * 100)] gives
    exactly the number of piasters, which passes the check "greater than
    zero" and is left unchanged by the [parseInt] of the gateway client:
    binary floating point loses nothing on this range. *)
Theorem two_decimal_amount_in_piasters (n : Z) :
  1 <= n <= 10000 ->
  amountInPiasters (JStr (display_amount n)) = Num.of_Z n
  /\ Num.leb (Num.of_Z n) (Num.of_Z 0) = false
  /\ parseInt (JNum (Num.of_Z n)) = Num.of_Z n.
Proof.
  intros Hn.
  assert (Hall : forallb (fun n =>
                    number_same (amountInPiasters (JStr (display_amount n))) (Num.of_Z n)
                    && negb (Num.leb (Num.of_Z n) (Num.of_Z 0))
                    && number_same (parseInt (JNum (Num.of_Z n))) (Num.of_Z n))
                  (seqZ 1 10000) = true) by (vm_compute; reflexivity).
  pose proof (forall_in_range _ _ _ Hall n ltac:(lia)) as H. cbv beta in H.
  apply andb_true_iff in H as [H H3]. apply andb_true_iff in H as [H1 H2].
  split; [|split].
  - now apply number_same_eq.
  - now apply negb_true_iff.
  - now apply number_same_eq.
Qed.

Lemma two_decimal_amount_in_piasters_witness :
  amountInPiasters (JStr "0.07") = Num.of_Z 7.
Proof.
  apply (two_decimal_amount_in_piasters 7). lia.
Defined.

(** X20. The four optional text inputs reach the payload trimmed, under
    their wire names; one that is empty, or blank only, or not a string,
    sends no field at all. *)
Theorem optional_text_is_sent_trimmed
    (w : World) (body payload : gmap string jsval) (f F : string) :
  payload ∈ posted_bodies (snd (run (post_request_to_pay w body))) ->
  (f, F) ∈ trimmed_fields ->
  payload !! F = match get body f with
                 | JStr v => if String.eqb (trim v) "" then None else Some (JStr (trim v))
                 | _ => None
                 end.
Proof.
  intros Hsent Hin.
  destruct (handler_sent _ _ _ Hsent) as (pd & Hbuild & Hpd).
  destruct (sent_payload _ _ _ Hpd) as [h ->].
  rewrite (requestPayload_trimmed _ _ _ _ _ Hin). unfold get at 1 2.
  rewrite (buildPaymentData_trimmed _ _ _ _ _ _ Hbuild Hin).
  destruct (get body f) as [| | | |v]; try reflexivity.
  destruct (String.eqb_spec v "") as [->|Hv]; [reflexivity|].
  cbn [default from_option id truthy]. now destruct (String.eqb (trim v) "").
Qed.

Lemma optional_text_is_sent_trimmed_witness :
  exists payload : gmap string jsval,
    payload ∈ posted_bodies (snd (run (post_request_to_pay (sample_world (Responded 200 "{}"))
                (<["billNumber" := JStr "  "]>
                 (<["customerLabel" := JStr " Mona "]>
                  (request_body "10.50" "01012345678"))))))
    /\ payload !! "CustomerLabel" = Some (JStr "Mona")
    /\ payload !! "BillNumber" = None.
Proof.
  destruct (posted_bodies (snd (run (post_request_to_pay (sample_world (Responded 200 "{}"))
                (<["billNumber" := JStr "  "]>
                 (<["customerLabel" := JStr " Mona "]>
                  (request_body "10.50" "01012345678")))))))
    as [|payload rest] eqn:Hposted.
  - exfalso.
    assert (Hlen : length (posted_bodies (snd (run (post_request_to_pay
                (sample_world (Responded 200 "{}"))
                (<["billNumber" := JStr "  "]>
                 (<["customerLabel" := JStr " Mona "]>
                  (request_body "10.50" "01012345678"))))))) = 1%nat)
      by (vm_compute; reflexivity).
    rewrite Hposted in Hlen. discriminate Hlen.
  - exists payload. split; [now left|]. split.
    + rewrite (optional_text_is_sent_trimmed (sample_world (Responded 200 "{}"))
                 (<["billNumber" := JStr "  "]>
                  (<["customerLabel" := JStr " Mona "]>
                   (request_body "10.50" "01012345678")))
                 payload "customerLabel" "CustomerLabel").
      * vm_compute. reflexivity.
      * rewrite Hposted. now left.
      * field_listed.
    + rewrite (optional_text_is_sent_trimmed (sample_world (Responded 200 "{}"))
                 (<["billNumber" := JStr "  "]>
                  (<["customerLabel" := JStr " Mona "]>
                   (request_body "10.50" "01012345678")))
                 payload "billNumber" "BillNumber").
      * vm_compute. reflexivity.
      * rewrite Hposted. now left.
      * field_listed.
Defined.

(** X21. The payload carries [Tip] exactly when the request has the string
    ['true'] as [tip]. A request whose [tip] is the JSON boolean [true]
    sends neither [Tip] nor any convenience fee. *)
Theorem tip_is_forwarded_only_as_text
    (w : World) (body payload : gmap string jsval) :
  payload ∈ posted_bodies (snd (run (post_request_to_pay w body))) ->
  (payload !! "Tip" = Some (JBool true) <-> get body "tip" = JStr "true")
  /\ (get body "tip" ≠ JStr "true" -> payload !! "Tip" = None)
  /\ (get body "tip" = JBool true ->
      payload !! "Tip" = None /\ fee_fields payload = (None, None)).
Proof.
  intros Hsent. pose proof (handler_Tip _ _ _ Hsent) as Hwire.
  split; [|split].
  - rewrite Hwire. clear Hwire.
    destruct (get body "tip") as [| | | |t]; try (split; discriminate).
    destruct (String.eqb_spec t "true") as [->|Hne]; [split; reflexivity|].
    split; [discriminate | intros [= ->]; contradiction].
  - intros Hne. rewrite Hwire. clear Hwire.
    destruct (get body "tip") as [| | | |t]; try reflexivity.
    destruct (String.eqb_spec t "true") as [->|]; [contradiction | reflexivity].
  - intros Hbool. split; [rewrite Hwire, Hbool; reflexivity|].
    apply (handler_tip_drops_fees _ _ _ Hsent). rewrite Hbool. reflexivity.
Qed.

Lemma tip_is_forwarded_only_as_text_witness :
  exists payload : gmap string jsval,
    payload ∈ posted_bodies (snd (run (post_request_to_pay (sample_world (Responded 200 "{}"))
                (<["tip" := JBool true]>
                 (<["convenienceFeeFixed" := JStr "5"]>
                  (request_body "10.50" "01012345678"))))))
    /\ payload !! "Tip" = None.
Proof.
  destruct (posted_bodies (snd (run (post_request_to_pay (sample_world (Responded 200 "{}"))
                (<["tip" := JBool true]>
                 (<["convenienceFeeFixed" := JStr "5"]>
                  (request_body "10.50" "01012345678")))))))
    as [|payload rest] eqn:Hposted.
  - exfalso.
    assert (Hlen : length (posted_bodies (snd (run (post_request_to_pay
                (sample_world (Responded 200 "{}"))
                (<["tip" := JBool true]>
                 (<["convenienceFeeFixed" := JStr "5"]>
                  (request_body "10.50" "01012345678"))))))) = 1%nat)
      by (vm_compute; reflexivity).
    rewrite Hposted in Hlen. discriminate Hlen.
  - exists payload. split; [now left|].
    destruct (tip_is_forwarded_only_as_text (sample_world (Responded 200 "{}"))
                (<["tip" := JBool true]>
                 (<["convenienceFeeFixed" := JStr "5"]>
                  (request_body "10.50" "01012345678"))) payload) as (_ & Hnone & _).
    + rewrite Hposted. now left.
    + apply Hnone. intros H. discriminate H.
Defined.



(** ** The form script *)

Lemma remove_non_digits_digits (s : string) :
  string_forall is_digit (remove_non_digits s) = true.
Proof.
  induction s as [|c s IH]; [reflexivity|]. cbn [remove_non_digits].
  destruct (is_digit c) eqn:Hc; [|exact IH].
  cbn [string_forall]. now rewrite Hc, IH.
Qed.

Lemma remove_non_digits_id (s : string) :
  string_forall is_digit s = true -> remove_non_digits s = s.
Proof.
  induction s as [|c s IH]; [reflexivity|]. cbn [string_forall remove_non_digits].
  intros H. apply andb_true_iff in H as [Hc Hs]. now rewrite Hc, IH.
Qed.

Lemma remove_non_digits_app (s t : string) :
  remove_non_digits (s +:+ t) = remove_non_digits s +:+ remove_non_digits t.
Proof.
  induction s as [|c s IH]; [reflexivity|].
  change (String c s +:+ t) with (String c (s +:+ t)). cbn [remove_non_digits].
  destruct (is_digit c); [|exact IH].
  change (String c (remove_non_digits s) +:+ remove_non_digits t)
    with (String c (remove_non_digits s +:+ remove_non_digits t)).
  now rewrite IH.
Qed.

Lemma str_take_forall (p : ascii -> bool) (n : nat) (s : string) :
  string_forall p s = true -> string_forall p (Num.str_take n s) = true.
Proof.
  revert s. induction n as [|n IH]; intros [|c s]; try reflexivity.
  cbn [string_forall Num.str_take]. intros H. apply andb_true_iff in H as [Hc Hs].
  now rewrite Hc, IH.
Qed.

Lemma str_take_length (n : nat) (s : string) :
  (String.length (Num.str_take n s) <= n)%nat.
Proof.
  revert s. induction n as [|n IH]; intros [|c s]; cbn [Num.str_take String.length]; try lia.
  specialize (IH s). lia.
Qed.

(** The format of the value left in the mobile input. *)
Lemma formatMobileNumber_format (value : string) :
  string_forall is_digit (PaymentGateway.formatMobileNumber value) = true
  /\ (String.length (PaymentGateway.formatMobileNumber value) <= 14)%nat.
Proof.
  unfold PaymentGateway.formatMobileNumber. split.
  - destruct (14 <? _)%nat; [apply str_take_forall|]; apply remove_non_digits_digits.
  - destruct (Nat.ltb_spec 14 (String.length (remove_non_digits value)));
      [apply str_take_length | assumption].
Qed.

(** X23. The value that [formatMobileNumber] leaves in the mobile input is
    made of digits only and has at most 14 of them; formatting it again
    changes nothing, and a value that already has this form is kept. *)
Theorem mobile_input_is_digits (value : string) :
  string_forall is_digit (PaymentGateway.formatMobileNumber value) = true
  /\ (String.length (PaymentGateway.formatMobileNumber value) <= 14)%nat
  /\ PaymentGateway.formatMobileNumber (PaymentGateway.formatMobileNumber value)
     = PaymentGateway.formatMobileNumber value
  /\ (string_forall is_digit value = true -> (String.length value <= 14)%nat ->
      PaymentGateway.formatMobileNumber value = value).
Proof.
  assert (Hkeep : forall s, string_forall is_digit s = true ->
                     (String.length s <= 14)%nat ->
                     PaymentGateway.formatMobileNumber s = s).
  { intros s Hs Hlen. unfold PaymentGateway.formatMobileNumber.
    rewrite (remove_non_digits_id s Hs).
    destruct (Nat.ltb_spec 14 (String.length s)); [lia | reflexivity]. }
  pose proof (formatMobileNumber_format value) as [Hdigits Hlen].
  repeat split; [exact Hdigits | exact Hlen | now apply Hkeep | apply Hkeep].
Qed.

Lemma remove_non_digits_digit (c : ascii) (s : string) :
  is_digit c = true -> remove_non_digits (String c s) = String c (remove_non_digits s).
Proof. intros H. cbn [remove_non_digits]. now rewrite H. Qed.

Lemma remove_non_digits_space (s : string) :
  remove_non_digits (String " " s) = remove_non_digits s.
Proof. reflexivity. Qed.

(** The eleven characters of a string of length eleven. *)
Lemma length_eleven (s : string) :
  String.length s = 11%nat ->
  exists c1 c2 c3 c4 c5 c6 c7 c8 c9 c10 c11,
    s = String c1 (String c2 (String c3 (String c4 (String c5 (String c6
          (String c7 (String c8 (String c9 (String c10 (String c11 "")))))))))).
Proof.
  intros H.
  do 11 (destruct s as [|? s]; [discriminate H|]).
  destruct s; [|discriminate H]. eauto 12.
Qed.

(** The display helper leaves the digits of its argument as they are. *)
Lemma formatMobileNumber_digits (number : string) :
  remove_non_digits (formatMobileNumber number) = remove_non_digits number.
Proof.
  unfold formatMobileNumber.
  pose proof (remove_non_digits_digits number) as Hd.
  destruct (Nat.eqb_spec (String.length (remove_non_digits number)) 11) as [Hlen|];
    [|reflexivity].
  destruct (String.prefix "01" _); [|reflexivity]. cbn [andb].
  destruct (length_eleven _ Hlen)
    as (c1 & c2 & c3 & c4 & c5 & c6 & c7 & c8 & c9 & c10 & c11 & Hc).
  rewrite Hc in Hd |- *. clear Hc Hlen.
  cbn [string_forall] in Hd.
  repeat (apply andb_true_iff in Hd as [? Hd]).
  cbn [Num.str_take Num.str_drop]. cbv [String.append].
  repeat first [ rewrite remove_non_digits_digit by assumption
               | rewrite remove_non_digits_space ].
  reflexivity.
Qed.

(** X24. The display helper never alters the digits of a number, and
    formatting twice is formatting once. A number of eleven digits that
    starts with 01 is shown in groups of two, four and five digits: the
    pattern covers ten digits and the eleventh stays attached to the third
    group. *)
Theorem display_format_keeps_digits (number : string) :
  remove_non_digits (formatMobileNumber number) = remove_non_digits number
  /\ formatMobileNumber (formatMobileNumber number) = formatMobileNumber number
  /\ (String.length (remove_non_digits number) = 11%nat ->
      String.prefix "01" (remove_non_digits number) = true ->
      exists a b c,
        formatMobileNumber number = a +:+ " " +:+ b +:+ " " +:+ c
        /\ String.length a = 2%nat /\ String.length b = 4%nat /\ String.length c = 5%nat
        /\ a +:+ b +:+ c = remove_non_digits number).
Proof.
  split; [apply formatMobileNumber_digits|]. split.
  - unfold formatMobileNumber at 1. rewrite formatMobileNumber_digits.
    unfold formatMobileNumber.
    destruct ((String.length (remove_non_digits number) =? 11)%nat
              && String.prefix "01" (remove_non_digits number)) eqn:Hcond;
      rewrite ?Hcond; reflexivity.
  - intros Hlen Hprefix. unfold formatMobileNumber.
    rewrite Hlen, Hprefix. cbn [Nat.eqb andb].
    destruct (length_eleven _ Hlen)
      as (c1 & c2 & c3 & c4 & c5 & c6 & c7 & c8 & c9 & c10 & c11 & ->).
    exists (String c1 (String c2 "")),
           (String c3 (String c4 (String c5 (String c6 "")))),
           (String c7 (String c8 (String c9 (String c10 (String c11 ""))))).
    repeat split.
Qed.

(** ** From the form to the wire *)

Lemma digit_cases (c : ascii) :
  is_digit c = true ->
  In c ["0"; "1"; "2"; "3"; "4"; "5"; "6"; "7"; "8"; "9"]%char.
Proof.
  destruct c as [[] [] [] [] [] [] [] []]; intros H;
    first [discriminate H | cbn; tauto].
Qed.

Lemma strip_all_none (fuel : nat) (ps : list string) (s : string) :
  strip_any ps s = None -> strip_all fuel ps s = s.
Proof. intros H. destruct fuel; [reflexivity|]. cbn [strip_all]. now rewrite H. Qed.

(** No white space pattern, read forwards or backwards, starts with a digit. *)
Lemma strip_any_digit (c : ascii) (r : string) :
  is_digit c = true ->
  strip_any (map string_of_codes white_space) (String c r) = None
  /\ strip_any (map (fun l => string_of_codes (rev l)) white_space) (String c r) = None.
Proof.
  intros H. apply digit_cases in H. cbn [In] in H.
  repeat (destruct H as [<- | H]; [split; reflexivity|]). contradiction.
Qed.

Lemma string_forall_forallb (p : ascii -> bool) (s : string) :
  string_forall p s = forallb p (String.list_ascii_of_string s).
Proof. induction s as [|c s IH]; [reflexivity|]. cbn. now rewrite IH. Qed.

Lemma string_forall_rev (p : ascii -> bool) (s : string) :
  string_forall p s = true -> string_forall p (string_rev s) = true.
Proof.
  rewrite !string_forall_forallb. unfold string_rev.
  rewrite String.list_ascii_of_string_of_list_ascii, !forallb_forall.
  intros H c Hc. apply H. now apply in_rev.
Qed.

Lemma string_rev_involutive (s : string) : string_rev (string_rev s) = s.
Proof.
  unfold string_rev.
  now rewrite String.list_ascii_of_string_of_list_ascii, rev_involutive,
    String.string_of_list_ascii_of_string.
Qed.

(** Trimming leaves a string of digits as it is. *)
Lemma trim_digits (s : string) : string_forall is_digit s = true -> trim s = s.
Proof.
  intros Hs.
  assert (Hstart : trimStart s = s).
  { unfold trimStart. apply strip_all_none.
    destruct s as [|c r]; [reflexivity|].
    cbn [string_forall] in Hs. apply andb_true_iff in Hs as [Hc _].
    exact (proj1 (strip_any_digit c r Hc)). }
  unfold trim. rewrite Hstart. unfold trimEnd.
  rewrite strip_all_none; [apply string_rev_involutive|].
  pose proof (string_forall_rev _ _ Hs) as Hr.
  destruct (string_rev s) as [|c r]; [reflexivity|].
  cbn [string_forall] in Hr. apply andb_true_iff in Hr as [Hc _].
  exact (proj2 (strip_any_digit c r Hc)).
Qed.

Lemma collect_optional_lookup_ne
    (formData : FormData) (data : gmap string jsval) (field k : string) :
  field ≠ k -> collect_optional formData data field !! k = data !! k.
Proof.
  intros Hne. unfold collect_optional.
  destruct (filled _); [|reflexivity].
  destruct (FormData_get formData field); try reflexivity.
  now rewrite lookup_insert_ne.
Qed.

(** The mandatory text and the tip flag of the object the script posts. *)
Lemma collectFormData_fields (formData : FormData) (data : gmap string jsval) :
  PaymentGateway.collectFormData formData = Return data ->
  exists m,
    formData !! "mobileNumber" = Some m
    /\ data !! "mobileNumber" = Some (JStr (trim m))
    /\ data !! "tip"
       = Some (JBool (match formData !! "tip" with
                      | Some v => String.eqb v "on"
                      | None => false
                      end)).
Proof.
  unfold PaymentGateway.collectFormData, FormData_get, bind_result. cbv zeta.
  destruct (formData !! "mobileNumber") as [m|]; [|discriminate].
  cbn [call_trim]. intros [= <-]. exists m. split; [reflexivity|].
  assert (Htip : match match formData !! "tip" with
                       | Some value => JStr value
                       | None => JNull
                       end with
                 | JStr v => String.eqb v "on"
                 | _ => false
                 end
                 = match formData !! "tip" with
                   | Some v => String.eqb v "on"
                   | None => false
                   end) by (destruct (formData !! "tip"); reflexivity).
  rewrite Htip.
  split.
  - repeat match goal with
           | |- context [if ?b then _ else _] => destruct b
           end;
      rewrite ?lookup_insert_ne by discriminate;
      cbn [fold_left optionalFields];
      rewrite !collect_optional_lookup_ne by discriminate;
      apply lookup_insert_eq.
  - repeat match goal with
           | |- context [if ?b then _ else _] => destruct b
           end;
      rewrite ?lookup_insert_ne by discriminate;
      apply lookup_insert_eq.
Qed.

Lemma get_posted_json (data : gmap string jsval) (k : string) :
  get (posted_json data) k
  = match data !! k with
    | Some v => default JUndefined (JSON_value v)
    | None => JUndefined
    end.
Proof.
  unfold get, posted_json. rewrite lookup_omap.
  destruct (data !! k); reflexivity.
Qed.

(** X25. Whatever is entered in the form, the payload that results from
    its submission carries no [Tip] field: the script posts the state of
    the tip box as a JSON boolean, and the handler forwards the tip only
    when it is the string ['true']. With the box ticked, the payload
    carries no convenience fee either. *)
Theorem form_tip_is_never_sent
    (w : World) (formData : FormData) (data payload : gmap string jsval) :
  PaymentGateway.collectFormData formData = Return data ->
  payload ∈ posted_bodies (snd (run (post_request_to_pay w (posted_json data)))) ->
  payload !! "Tip" = None
  /\ (formData !! "tip" = Some "on" -> fee_fields payload = (None, None)).
Proof.
  intros Hcollect Hsent.
  destruct (collectFormData_fields _ _ Hcollect) as (m & _ & _ & Htip).
  assert (Hbody : get (posted_json data) "tip"
                  = JBool (match formData !! "tip" with
                           | Some v => String.eqb v "on"
                           | None => false
                           end)).
  { rewrite get_posted_json, Htip. reflexivity. }
  split.
  - rewrite (handler_Tip _ _ _ Hsent), Hbody. reflexivity.
  - intros Hon. apply (handler_tip_drops_fees _ _ _ Hsent).
    rewrite Hbody, Hon. reflexivity.
Qed.

Lemma form_tip_is_never_sent_witness :
  exists payload : gmap string jsval,
    payload ∈ posted_bodies (snd (run (post_request_to_pay (sample_world (Responded 200 "{}"))
                (posted_json
                   (<["tip" := JBool true]>
                    (<["mobileNumber" := JStr "01012345678"]>
                     (<["amount" := JNum (parseFloat (JStr "10.50"))]> ∅)))))))
    /\ payload !! "Tip" = None.
Proof.
  destruct (posted_bodies (snd (run (post_request_to_pay (sample_world (Responded 200 "{}"))
                (posted_json
                   (<["tip" := JBool true]>
                    (<["mobileNumber" := JStr "01012345678"]>
                     (<["amount" := JNum (parseFloat (JStr "10.50"))]> ∅))))))))
    as [|payload rest] eqn:Hposted.
  - exfalso.
    assert (Hlen : length (posted_bodies (snd (run (post_request_to_pay
                (sample_world (Responded 200 "{}"))
                (posted_json
                   (<["tip" := JBool true]>
                    (<["mobileNumber" := JStr "01012345678"]>
                     (<["amount" := JNum (parseFloat (JStr "10.50"))]> ∅)))))))) = 1%nat)
      by (vm_compute; reflexivity).
    rewrite Hposted in Hlen. discriminate Hlen.
  - exists payload. split; [now left|].
    apply (form_tip_is_never_sent (sample_world (Responded 200 "{}")) form_with_tip
             (<["tip" := JBool true]>
              (<["mobileNumber" := JStr "01012345678"]>
               (<["amount" := JNum (parseFloat (JStr "10.50"))]> ∅))) payload).
    + vm_compute. reflexivity.
    + rewrite Hposted. now left.
Defined.

(** X26. A mobile number as [formatMobileNumber] leaves it in the form is
    the [MobileNumber] of the payload, unchanged by the two trims and the
    JSON body on its way. *)
Theorem typed_mobile_number_is_sent
    (w : World) (formData : FormData) (data payload : gmap string jsval)
    (typed : string) :
  formData !! "mobileNumber" = Some (PaymentGateway.formatMobileNumber typed) ->
  PaymentGateway.collectFormData formData = Return data ->
  payload ∈ posted_bodies (snd (run (post_request_to_pay w (posted_json data)))) ->
  payload !! "MobileNumber" = Some (JStr (PaymentGateway.formatMobileNumber typed)).
Proof.
  intros Hform Hcollect Hsent.
  destruct (formatMobileNumber_format typed) as [Hdigits _].
  destruct (collectFormData_fields _ _ Hcollect) as (m & Hm & Hdata & _).
  rewrite Hform in Hm. injection Hm as <-.
  rewrite (trim_digits _ Hdigits) in Hdata.
  destruct (handler_sent _ _ _ Hsent) as (pd & Hbuild & Hpd).
  destruct (sent_payload _ _ _ Hpd) as [h ->].
  destruct (buildPaymentData_required _ _ _ _ Hbuild) as (m' & Hm' & _ & _ & Hmob & _).
  rewrite get_posted_json, Hdata in Hm'. cbn in Hm'. injection Hm' as <-.
  rewrite requestPayload_MobileNumber, Hmob.
  now rewrite (trim_digits _ Hdigits).
Qed.

Lemma typed_mobile_number_is_sent_witness :
  exists payload : gmap string jsval,
    payload ∈ posted_bodies (snd (run (post_request_to_pay (sample_world (Responded 200 "{}"))
                (posted_json
                   (<["tip" := JBool true]>
                    (<["mobileNumber" := JStr "01012345678"]>
                     (<["amount" := JNum (parseFloat (JStr "10.50"))]> ∅)))))))
    /\ payload !! "MobileNumber" = Some (JStr "01012345678").
Proof.
  destruct (posted_bodies (snd (run (post_request_to_pay (sample_world (Responded 200 "{}"))
                (posted_json
                   (<["tip" := JBool true]>
                    (<["mobileNumber" := JStr "01012345678"]>
                     (<["amount" := JNum (parseFloat (JStr "10.50"))]> ∅))))))))
    as [|payload rest] eqn:Hposted.
  - exfalso.
    assert (Hlen : length (posted_bodies (snd (run (post_request_to_pay
                (sample_world (Responded 200 "{}"))
                (posted_json
                   (<["tip" := JBool true]>
                    (<["mobileNumber" := JStr "01012345678"]>
                     (<["amount" := JNum (parseFloat (JStr "10.50"))]> ∅)))))))) = 1%nat)
      by (vm_compute; reflexivity).
    rewrite Hposted in Hlen. discriminate Hlen.
  - exists payload. split; [now left|].
    apply (typed_mobile_number_is_sent (sample_world (Responded 200 "{}")) form_with_tip
             (<["tip" := JBool true]>
              (<["mobileNumber" := JStr "01012345678"]>
               (<["amount" := JNum (parseFloat (JStr "10.50"))]> ∅))) payload
             "010-1234-5678").
    + vm_compute. reflexivity.
    + vm_compute. reflexivity.
    + rewrite Hposted. now left.
Defined.

(** ** Configuration and revisions *)

Lemma DEFAULT_VALIDITY_truthy (w : World) (v : jsval) :
  truthy (js_or v (DEFAULT_VALIDITY (CONFIG w))) = true.
Proof.
  unfold js_or. destruct (truthy v) eqn:Hv; [exact Hv|].
  unfold CONFIG. cbn [DEFAULT_VALIDITY]. unfold js_or.
  destruct (truthy (env_get w "DEFAULT_VALIDITY_MINUTES")) eqn:H; [exact H | reflexivity].
Qed.

Lemma buildPaymentData_validity (w : World) (body pd : gmap string jsval) (a : Num.number) :
  buildPaymentData w body a = Return pd ->
  get pd "validity" = js_or (get body "validity") (DEFAULT_VALIDITY (CONFIG w)).
Proof.
  unfold buildPaymentData, bind_result. cbv zeta.
  destruct (call_trim "mobileNumber" _) as [mobile|]; [|discriminate].
  destruct (set_trimmed body "loyaltyNumber" _) as [pd1|] eqn:H1; [|discriminate].
  destruct (set_trimmed body "customerLabel" _) as [pd2|] eqn:H2; [|discriminate].
  destruct (set_trimmed body "purposeOfTransaction" _) as [pd3|] eqn:H3; [|discriminate].
  destruct (set_trimmed body "billNumber" _) as [pd4|] eqn:H4; [|discriminate].
  intros [= <-]. unfold get at 1.
  rewrite !lookup_set_if_ne by discriminate.
  rewrite (set_trimmed_lookup_ne _ _ _ _ _ H4), (set_trimmed_lookup_ne _ _ _ _ _ H3),
          (set_trimmed_lookup_ne _ _ _ _ _ H2), (set_trimmed_lookup_ne _ _ _ _ _ H1)
    by discriminate.
  rewrite !lookup_insert_ne by discriminate. now rewrite lookup_insert_eq.
Qed.

Lemma requestPayload_credentials (pd : gmap string jsval) (t h : string) :
  requestPayload pd t h !! "MerchantId" = Some (get pd "merchantId")
  /\ requestPayload pd t h !! "TerminalId" = Some (get pd "terminalId")
  /\ requestPayload pd t h !! "DateTimeLocalTrxn" = Some (JStr t).
Proof. unfold requestPayload. cbv zeta. repeat split; now read_payload. Qed.

Lemma requestPayload_Validity (pd : gmap string jsval) (t h : string) :
  requestPayload pd t h !! "Validity"
  = if truthy (get pd "validity") then Some (JStr (ToString (get pd "validity"))) else None.
Proof.
  unfold requestPayload. cbv zeta.
  rewrite !lookup_set_if_ne by discriminate. rewrite lookup_set_if_eq.
  destruct (truthy (get pd "validity")); [reflexivity | now read_payload].
Qed.

(** X27. Nothing in a request can replace the configuration of the server:
    every payload the handler sends carries the configured merchant id and
    terminal id and the configured currency code, is signed for them under
    the configured secret key, and always has a [Validity] - the one of the
    request when it is truthy, the configured default otherwise. *)
Theorem request_cannot_override_configuration
    (w : World) (body payload : gmap string jsval) :
  payload ∈ posted_bodies (snd (run (post_request_to_pay w body))) ->
  payload !! "MerchantId" = Some (MERCHANT_ID (CONFIG w))
  /\ payload !! "TerminalId" = Some (TERMINAL_ID (CONFIG w))
  /\ payload !! "Currency" = Some (JNum (parseInt (JNum (CURRENCY_EGP (CONFIG w)))))
  /\ payload !! "Validity"
     = Some (JStr (ToString (js_or (get body "validity") (DEFAULT_VALIDITY (CONFIG w)))))
  /\ exists t h,
       payload !! "DateTimeLocalTrxn" = Some (JStr t)
       /\ payload !! "SecureHash" = Some (JStr h)
       /\ generateSecureHash (JStr t) (MERCHANT_ID (CONFIG w)) (TERMINAL_ID (CONFIG w))
            (MERCHANT_SECRET_KEY (CONFIG w)) = Return h.
Proof.
  intros Hsent.
  destruct (handler_sent _ _ _ Hsent) as (pd & Hbuild & Hpd).
  apply (sent_prepared Current), prepare_Return in Hpd as (_ & h & Hh & ->).
  destruct (buildPaymentData_required _ _ _ _ Hbuild)
    as (m & _ & _ & Hc & _ & Hmid & Htid & Hkey & _).
  pose proof (buildPaymentData_validity _ _ _ _ Hbuild) as Hval.
  destruct (requestPayload_credentials pd (generateTransactionDateTime (now w)) h)
    as (-> & -> & Ht).
  rewrite requestPayload_Currency, requestPayload_Validity, Hc, Hmid, Htid, Hval,
    DEFAULT_VALIDITY_truthy.
  repeat split.
  exists (generateTransactionDateTime (now w)), h.
  rewrite requestPayload_SecureHash, <- Hmid, <- Htid, <- Hkey.
  repeat split; assumption.
Qed.

Lemma request_cannot_override_configuration_witness :
  exists payload : gmap string jsval,
    payload ∈ posted_bodies (snd (run (post_request_to_pay (sample_world (Responded 200 "{}"))
                (<["merchantId" := JStr "99999"]> (request_body "10.50" "01012345678")))))
    /\ payload !! "MerchantId" = Some (JStr "10001").
Proof.
  destruct (posted_bodies (snd (run (post_request_to_pay (sample_world (Responded 200 "{}"))
                (<["merchantId" := JStr "99999"]> (request_body "10.50" "01012345678"))))))
    as [|payload rest] eqn:Hposted.
  - exfalso.
    assert (Hlen : length (posted_bodies (snd (run (post_request_to_pay
                (sample_world (Responded 200 "{}"))
                (<["merchantId" := JStr "99999"]>
                 (request_body "10.50" "01012345678")))))) = 1%nat)
      by (vm_compute; reflexivity).
    rewrite Hposted in Hlen. discriminate Hlen.
  - exists payload. split; [now left|].
    destruct (request_cannot_override_configuration (sample_world (Responded 200 "{}"))
                (<["merchantId" := JStr "99999"]> (request_body "10.50" "01012345678"))
                payload) as (Hmid & _).
    + rewrite Hposted. now left.
    + exact Hmid.
Defined.

(** X28. The basic revision accepts an upstream answer only when its status
    is 2xx: any other status is raised as [UPG API Error (status): body].
    It therefore agrees with the current revision exactly on the statuses
    2xx and on those from 500; an answer with a status such as 404 is
    returned by the current revision and raised by the basic one. *)
Theorem basic_revision_accepts_2xx_only
    (w : World) (paymentData payload : gmap string jsval) (status : Z) (data : Data) :
  prepare w paymentData = Return payload ->
  upstream w 0 = Responded status data ->
  run (requestToPay_basic w paymentData)
  = (if (200 <=? status) && (status <? 300) then Return data
     else Throw (api_error status data),
     [Post (target w) payload 30000])
  /\ (fst (run (requestToPay_basic w paymentData)) = fst (run (requestToPay w paymentData))
      <-> 200 <= status < 300 \/ 500 <= status).
Proof.
  intros Hprep Hup.
  rewrite (requestToPay_basic_prepared w _ _ Hprep), (requestToPay_prepared w _ _ Hprep), Hup.
  cbn [settle fst]. unfold validateStatus_default.
  destruct (Z.leb_spec 200 status), (Z.ltb_spec status 300), (Z.ltb_spec status 500);
    cbn [andb snd on_error on_error_basic response];
    (split; [reflexivity|]);
    (split; [intros Heq; first [discriminate Heq | lia] | intros Hst; first [reflexivity | lia]]).
Qed.

Lemma basic_revision_accepts_2xx_only_witness :
  exists e,
    fst (run (requestToPay_basic (sample_world (Responded 404 "refused")) sample_paymentData))
    = Throw e
    /\ fst (run (requestToPay (sample_world (Responded 404 "refused")) sample_paymentData))
       = Return "refused".
Proof.
  destruct (prepare_succeeds (sample_world (Responded 404 "refused")) sample_paymentData
              "4a656665" sample_paymentData_complete eq_refl) as [p Hprep].
  destruct (basic_revision_accepts_2xx_only (sample_world (Responded 404 "refused"))
              sample_paymentData p 404 "refused" Hprep eq_refl) as [Hrun _].
  rewrite Hrun, (requestToPay_prepared _ _ _ Hprep). cbn. eauto.
Defined.
